(** * ProyectoIA: the Pubs SQL chat assistant

    A shallow embedding of the decision logic of [sql_generator.py],
    [database_client.py], [chat_interface.py] and of the caller's test in
    [app.py], with the properties the specification states about them.

    Text is Stdlib's [string], a sequence of bytes: a Python [str] is
    held as its UTF-8 encoding, so constants that carry accents or
    pictographs are kept as they are written.  The [str] methods the
    program calls ([startswith], [in], [replace], [split], [upper],
    [strip]) are written out below on the bytes; the first four work
    byte by byte, which on UTF-8 is character by character, and the last
    two follow the upper-case forms and the whitespace characters of
    Unicode.  Calls that leave the process (the text-generation
    provider, the ODBC driver, the clock) are oracles of an environment
    record, each of which returns or raises; every such call is recorded
    in a trace.  An exception is what [except Exception] catches.  The
    Streamlit widgets only display: their calls are recorded and do not
    raise. *)

From Stdlib Require Import String Ascii List Arith Bool Lia DecimalString.
Import ListNotations.
Open Scope string_scope.
Open Scope bool_scope.

(** ** Python's [str] methods *)

Module PyStr.

(** [s.startswith(p)] *)
Fixpoint startswith (s p : string) {struct p} : bool :=
  match p with
  | EmptyString => true
  | String a p' =>
      match s with
      | EmptyString => false
      | String b s' => Ascii.eqb a b && startswith s' p'
      end
  end.

(** [p in s] *)
Fixpoint contains (p s : string) : bool :=
  startswith s p ||
  match s with
  | EmptyString => false
  | String _ t => contains p t
  end.

(** [str.upper] on an ASCII character: the letters a..z move to A..Z. *)
Definition upper_char (c : ascii) : ascii :=
  let n := nat_of_ascii c in
  if ((97 <=? n) && (n <=? 122))%nat then ascii_of_nat (n - 32) else c.

(** The number of bytes of the UTF-8 character whose first byte is [c];
    1 for an ASCII byte, and for a byte that begins no character. *)
Definition utf8_len (c : ascii) : nat :=
  let n := nat_of_ascii c in
  if (n <? 192)%nat then 1
  else if (n <? 224)%nat then 2
  else if (n <? 240)%nat then 3
  else 4.

(** [s[:n]] *)
Fixpoint take (n : nat) (s : string) : string :=
  match n, s with
  | O, _ => EmptyString
  | S _, EmptyString => EmptyString
  | S k, String c t => String c (take k t)
  end.

Fixpoint assoc (k : string) (l : list (string * string)) : option string :=
  match l with
  | [] => None
  | (k', v) :: rest => if String.eqb k k' then Some v else assoc k rest
  end.

(** The characters beyond ASCII that [str.upper] changes, each with what
    it becomes, as the Unicode character database gives them (version
    14.0): one character may become several. *)
Definition upper_table_00 : list (string * string) :=
  [
   ("µ", "Μ"); ("ß", "SS"); ("à", "À"); ("á", "Á"); ("â", "Â");
   ("ã", "Ã"); ("ä", "Ä"); ("å", "Å"); ("æ", "Æ"); ("ç", "Ç");
   ("è", "È"); ("é", "É"); ("ê", "Ê"); ("ë", "Ë"); ("ì", "Ì");
   ("í", "Í"); ("î", "Î"); ("ï", "Ï"); ("ð", "Ð"); ("ñ", "Ñ");
   ("ò", "Ò"); ("ó", "Ó"); ("ô", "Ô"); ("õ", "Õ"); ("ö", "Ö");
   ("ø", "Ø"); ("ù", "Ù"); ("ú", "Ú"); ("û", "Û"); ("ü", "Ü");
   ("ý", "Ý"); ("þ", "Þ"); ("ÿ", "Ÿ"); ("ā", "Ā"); ("ă", "Ă");
   ("ą", "Ą"); ("ć", "Ć"); ("ĉ", "Ĉ"); ("ċ", "Ċ"); ("č", "Č");
   ("ď", "Ď"); ("đ", "Đ"); ("ē", "Ē"); ("ĕ", "Ĕ"); ("ė", "Ė");
   ("ę", "Ę"); ("ě", "Ě"); ("ĝ", "Ĝ"); ("ğ", "Ğ"); ("ġ", "Ġ");
   ("ģ", "Ģ"); ("ĥ", "Ĥ"); ("ħ", "Ħ"); ("ĩ", "Ĩ"); ("ī", "Ī");
   ("ĭ", "Ĭ"); ("į", "Į"); ("ı", "I"); ("ĳ", "Ĳ"); ("ĵ", "Ĵ");
   ("ķ", "Ķ"); ("ĺ", "Ĺ"); ("ļ", "Ļ"); ("ľ", "Ľ"); ("ŀ", "Ŀ");
   ("ł", "Ł"); ("ń", "Ń"); ("ņ", "Ņ"); ("ň", "Ň"); ("ŉ", "ʼN");
   ("ŋ", "Ŋ"); ("ō", "Ō"); ("ŏ", "Ŏ"); ("ő", "Ő"); ("œ", "Œ");
   ("ŕ", "Ŕ"); ("ŗ", "Ŗ"); ("ř", "Ř"); ("ś", "Ś"); ("ŝ", "Ŝ");
   ("ş", "Ş"); ("š", "Š"); ("ţ", "Ţ"); ("ť", "Ť"); ("ŧ", "Ŧ");
   ("ũ", "Ũ"); ("ū", "Ū"); ("ŭ", "Ŭ"); ("ů", "Ů"); ("ű", "Ű");
   ("ų", "Ų"); ("ŵ", "Ŵ"); ("ŷ", "Ŷ"); ("ź", "Ź"); ("ż", "Ż");
   ("ž", "Ž"); ("ſ", "S"); ("ƀ", "Ƀ"); ("ƃ", "Ƃ"); ("ƅ", "Ƅ")
  ].

Definition upper_table_01 : list (string * string) :=
  [
   ("ƈ", "Ƈ"); ("ƌ", "Ƌ"); ("ƒ", "Ƒ"); ("ƕ", "Ƕ"); ("ƙ", "Ƙ");
   ("ƚ", "Ƚ"); ("ƞ", "Ƞ"); ("ơ", "Ơ"); ("ƣ", "Ƣ"); ("ƥ", "Ƥ");
   ("ƨ", "Ƨ"); ("ƭ", "Ƭ"); ("ư", "Ư"); ("ƴ", "Ƴ"); ("ƶ", "Ƶ");
   ("ƹ", "Ƹ"); ("ƽ", "Ƽ"); ("ƿ", "Ƿ"); ("ǅ", "Ǆ"); ("ǆ", "Ǆ");
   ("ǈ", "Ǉ"); ("ǉ", "Ǉ"); ("ǋ", "Ǌ"); ("ǌ", "Ǌ"); ("ǎ", "Ǎ");
   ("ǐ", "Ǐ"); ("ǒ", "Ǒ"); ("ǔ", "Ǔ"); ("ǖ", "Ǖ"); ("ǘ", "Ǘ");
   ("ǚ", "Ǚ"); ("ǜ", "Ǜ"); ("ǝ", "Ǝ"); ("ǟ", "Ǟ"); ("ǡ", "Ǡ");
   ("ǣ", "Ǣ"); ("ǥ", "Ǥ"); ("ǧ", "Ǧ"); ("ǩ", "Ǩ"); ("ǫ", "Ǫ");
   ("ǭ", "Ǭ"); ("ǯ", "Ǯ"); ("ǰ", "J̌"); ("ǲ", "Ǳ"); ("ǳ", "Ǳ");
   ("ǵ", "Ǵ"); ("ǹ", "Ǹ"); ("ǻ", "Ǻ"); ("ǽ", "Ǽ"); ("ǿ", "Ǿ");
   ("ȁ", "Ȁ"); ("ȃ", "Ȃ"); ("ȅ", "Ȅ"); ("ȇ", "Ȇ"); ("ȉ", "Ȉ");
   ("ȋ", "Ȋ"); ("ȍ", "Ȍ"); ("ȏ", "Ȏ"); ("ȑ", "Ȑ"); ("ȓ", "Ȓ");
   ("ȕ", "Ȕ"); ("ȗ", "Ȗ"); ("ș", "Ș"); ("ț", "Ț"); ("ȝ", "Ȝ");
   ("ȟ", "Ȟ"); ("ȣ", "Ȣ"); ("ȥ", "Ȥ"); ("ȧ", "Ȧ"); ("ȩ", "Ȩ");
   ("ȫ", "Ȫ"); ("ȭ", "Ȭ"); ("ȯ", "Ȯ"); ("ȱ", "Ȱ"); ("ȳ", "Ȳ");
   ("ȼ", "Ȼ"); ("ȿ", "Ȿ"); ("ɀ", "Ɀ"); ("ɂ", "Ɂ"); ("ɇ", "Ɇ");
   ("ɉ", "Ɉ"); ("ɋ", "Ɋ"); ("ɍ", "Ɍ"); ("ɏ", "Ɏ"); ("ɐ", "Ɐ");
   ("ɑ", "Ɑ"); ("ɒ", "Ɒ"); ("ɓ", "Ɓ"); ("ɔ", "Ɔ"); ("ɖ", "Ɖ");
   ("ɗ", "Ɗ"); ("ə", "Ə"); ("ɛ", "Ɛ"); ("ɜ", "Ɜ"); ("ɠ", "Ɠ");
   ("ɡ", "Ɡ"); ("ɣ", "Ɣ"); ("ɥ", "Ɥ"); ("ɦ", "Ɦ"); ("ɨ", "Ɨ")
  ].

Definition upper_table_02 : list (string * string) :=
  [
   ("ɩ", "Ɩ"); ("ɪ", "Ɪ"); ("ɫ", "Ɫ"); ("ɬ", "Ɬ"); ("ɯ", "Ɯ");
   ("ɱ", "Ɱ"); ("ɲ", "Ɲ"); ("ɵ", "Ɵ"); ("ɽ", "Ɽ"); ("ʀ", "Ʀ");
   ("ʂ", "Ʂ"); ("ʃ", "Ʃ"); ("ʇ", "Ʇ"); ("ʈ", "Ʈ"); ("ʉ", "Ʉ");
   ("ʊ", "Ʊ"); ("ʋ", "Ʋ"); ("ʌ", "Ʌ"); ("ʒ", "Ʒ"); ("ʝ", "Ʝ");
   ("ʞ", "Ʞ"); ("ͅ", "Ι"); ("ͱ", "Ͱ"); ("ͳ", "Ͳ"); ("ͷ", "Ͷ");
   ("ͻ", "Ͻ"); ("ͼ", "Ͼ"); ("ͽ", "Ͽ"); ("ΐ", "Ϊ́"); ("ά", "Ά");
   ("έ", "Έ"); ("ή", "Ή"); ("ί", "Ί"); ("ΰ", "Ϋ́"); ("α", "Α");
   ("β", "Β"); ("γ", "Γ"); ("δ", "Δ"); ("ε", "Ε"); ("ζ", "Ζ");
   ("η", "Η"); ("θ", "Θ"); ("ι", "Ι"); ("κ", "Κ"); ("λ", "Λ");
   ("μ", "Μ"); ("ν", "Ν"); ("ξ", "Ξ"); ("ο", "Ο"); ("π", "Π");
   ("ρ", "Ρ"); ("ς", "Σ"); ("σ", "Σ"); ("τ", "Τ"); ("υ", "Υ");
   ("φ", "Φ"); ("χ", "Χ"); ("ψ", "Ψ"); ("ω", "Ω"); ("ϊ", "Ϊ");
   ("ϋ", "Ϋ"); ("ό", "Ό"); ("ύ", "Ύ"); ("ώ", "Ώ"); ("ϐ", "Β");
   ("ϑ", "Θ"); ("ϕ", "Φ"); ("ϖ", "Π"); ("ϗ", "Ϗ"); ("ϙ", "Ϙ");
   ("ϛ", "Ϛ"); ("ϝ", "Ϝ"); ("ϟ", "Ϟ"); ("ϡ", "Ϡ"); ("ϣ", "Ϣ");
   ("ϥ", "Ϥ"); ("ϧ", "Ϧ"); ("ϩ", "Ϩ"); ("ϫ", "Ϫ"); ("ϭ", "Ϭ");
   ("ϯ", "Ϯ"); ("ϰ", "Κ"); ("ϱ", "Ρ"); ("ϲ", "Ϲ"); ("ϳ", "Ϳ");
   ("ϵ", "Ε"); ("ϸ", "Ϸ"); ("ϻ", "Ϻ"); ("а", "А"); ("б", "Б");
   ("в", "В"); ("г", "Г"); ("д", "Д"); ("е", "Е"); ("ж", "Ж");
   ("з", "З"); ("и", "И"); ("й", "Й"); ("к", "К"); ("л", "Л")
  ].

Definition upper_table_03 : list (string * string) :=
  [
   ("м", "М"); ("н", "Н"); ("о", "О"); ("п", "П"); ("р", "Р");
   ("с", "С"); ("т", "Т"); ("у", "У"); ("ф", "Ф"); ("х", "Х");
   ("ц", "Ц"); ("ч", "Ч"); ("ш", "Ш"); ("щ", "Щ"); ("ъ", "Ъ");
   ("ы", "Ы"); ("ь", "Ь"); ("э", "Э"); ("ю", "Ю"); ("я", "Я");
   ("ѐ", "Ѐ"); ("ё", "Ё"); ("ђ", "Ђ"); ("ѓ", "Ѓ"); ("є", "Є");
   ("ѕ", "Ѕ"); ("і", "І"); ("ї", "Ї"); ("ј", "Ј"); ("љ", "Љ");
   ("њ", "Њ"); ("ћ", "Ћ"); ("ќ", "Ќ"); ("ѝ", "Ѝ"); ("ў", "Ў");
   ("џ", "Џ"); ("ѡ", "Ѡ"); ("ѣ", "Ѣ"); ("ѥ", "Ѥ"); ("ѧ", "Ѧ");
   ("ѩ", "Ѩ"); ("ѫ", "Ѫ"); ("ѭ", "Ѭ"); ("ѯ", "Ѯ"); ("ѱ", "Ѱ");
   ("ѳ", "Ѳ"); ("ѵ", "Ѵ"); ("ѷ", "Ѷ"); ("ѹ", "Ѹ"); ("ѻ", "Ѻ");
   ("ѽ", "Ѽ"); ("ѿ", "Ѿ"); ("ҁ", "Ҁ"); ("ҋ", "Ҋ"); ("ҍ", "Ҍ");
   ("ҏ", "Ҏ"); ("ґ", "Ґ"); ("ғ", "Ғ"); ("ҕ", "Ҕ"); ("җ", "Җ");
   ("ҙ", "Ҙ"); ("қ", "Қ"); ("ҝ", "Ҝ"); ("ҟ", "Ҟ"); ("ҡ", "Ҡ");
   ("ң", "Ң"); ("ҥ", "Ҥ"); ("ҧ", "Ҧ"); ("ҩ", "Ҩ"); ("ҫ", "Ҫ");
   ("ҭ", "Ҭ"); ("ү", "Ү"); ("ұ", "Ұ"); ("ҳ", "Ҳ"); ("ҵ", "Ҵ");
   ("ҷ", "Ҷ"); ("ҹ", "Ҹ"); ("һ", "Һ"); ("ҽ", "Ҽ"); ("ҿ", "Ҿ");
   ("ӂ", "Ӂ"); ("ӄ", "Ӄ"); ("ӆ", "Ӆ"); ("ӈ", "Ӈ"); ("ӊ", "Ӊ");
   ("ӌ", "Ӌ"); ("ӎ", "Ӎ"); ("ӏ", "Ӏ"); ("ӑ", "Ӑ"); ("ӓ", "Ӓ");
   ("ӕ", "Ӕ"); ("ӗ", "Ӗ"); ("ә", "Ә"); ("ӛ", "Ӛ"); ("ӝ", "Ӝ");
   ("ӟ", "Ӟ"); ("ӡ", "Ӡ"); ("ӣ", "Ӣ"); ("ӥ", "Ӥ"); ("ӧ", "Ӧ")
  ].

Definition upper_table_04 : list (string * string) :=
  [
   ("ө", "Ө"); ("ӫ", "Ӫ"); ("ӭ", "Ӭ"); ("ӯ", "Ӯ"); ("ӱ", "Ӱ");
   ("ӳ", "Ӳ"); ("ӵ", "Ӵ"); ("ӷ", "Ӷ"); ("ӹ", "Ӹ"); ("ӻ", "Ӻ");
   ("ӽ", "Ӽ"); ("ӿ", "Ӿ"); ("ԁ", "Ԁ"); ("ԃ", "Ԃ"); ("ԅ", "Ԅ");
   ("ԇ", "Ԇ"); ("ԉ", "Ԉ"); ("ԋ", "Ԋ"); ("ԍ", "Ԍ"); ("ԏ", "Ԏ");
   ("ԑ", "Ԑ"); ("ԓ", "Ԓ"); ("ԕ", "Ԕ"); ("ԗ", "Ԗ"); ("ԙ", "Ԙ");
   ("ԛ", "Ԛ"); ("ԝ", "Ԝ"); ("ԟ", "Ԟ"); ("ԡ", "Ԡ"); ("ԣ", "Ԣ");
   ("ԥ", "Ԥ"); ("ԧ", "Ԧ"); ("ԩ", "Ԩ"); ("ԫ", "Ԫ"); ("ԭ", "Ԭ");
   ("ԯ", "Ԯ"); ("ա", "Ա"); ("բ", "Բ"); ("գ", "Գ"); ("դ", "Դ");
   ("ե", "Ե"); ("զ", "Զ"); ("է", "Է"); ("ը", "Ը"); ("թ", "Թ");
   ("ժ", "Ժ"); ("ի", "Ի"); ("լ", "Լ"); ("խ", "Խ"); ("ծ", "Ծ");
   ("կ", "Կ"); ("հ", "Հ"); ("ձ", "Ձ"); ("ղ", "Ղ"); ("ճ", "Ճ");
   ("մ", "Մ"); ("յ", "Յ"); ("ն", "Ն"); ("շ", "Շ"); ("ո", "Ո");
   ("չ", "Չ"); ("պ", "Պ"); ("ջ", "Ջ"); ("ռ", "Ռ"); ("ս", "Ս");
   ("վ", "Վ"); ("տ", "Տ"); ("ր", "Ր"); ("ց", "Ց"); ("ւ", "Ւ");
   ("փ", "Փ"); ("ք", "Ք"); ("օ", "Օ"); ("ֆ", "Ֆ"); ("և", "ԵՒ");
   ("ა", "Ა"); ("ბ", "Ბ"); ("გ", "Გ"); ("დ", "Დ"); ("ე", "Ე");
   ("ვ", "Ვ"); ("ზ", "Ზ"); ("თ", "Თ"); ("ი", "Ი"); ("კ", "Კ");
   ("ლ", "Ლ"); ("მ", "Მ"); ("ნ", "Ნ"); ("ო", "Ო"); ("პ", "Პ");
   ("ჟ", "Ჟ"); ("რ", "Რ"); ("ს", "Ს"); ("ტ", "Ტ"); ("უ", "Უ");
   ("ფ", "Ფ"); ("ქ", "Ქ"); ("ღ", "Ღ"); ("ყ", "Ყ"); ("შ", "Შ")
  ].

Definition upper_table_05 : list (string * string) :=
  [
   ("ჩ", "Ჩ"); ("ც", "Ც"); ("ძ", "Ძ"); ("წ", "Წ"); ("ჭ", "Ჭ");
   ("ხ", "Ხ"); ("ჯ", "Ჯ"); ("ჰ", "Ჰ"); ("ჱ", "Ჱ"); ("ჲ", "Ჲ");
   ("ჳ", "Ჳ"); ("ჴ", "Ჴ"); ("ჵ", "Ჵ"); ("ჶ", "Ჶ"); ("ჷ", "Ჷ");
   ("ჸ", "Ჸ"); ("ჹ", "Ჹ"); ("ჺ", "Ჺ"); ("ჽ", "Ჽ"); ("ჾ", "Ჾ");
   ("ჿ", "Ჿ"); ("ᏸ", "Ᏸ"); ("ᏹ", "Ᏹ"); ("ᏺ", "Ᏺ"); ("ᏻ", "Ᏻ");
   ("ᏼ", "Ᏼ"); ("ᏽ", "Ᏽ"); ("ᲀ", "В"); ("ᲁ", "Д"); ("ᲂ", "О");
   ("ᲃ", "С"); ("ᲄ", "Т"); ("ᲅ", "Т"); ("ᲆ", "Ъ"); ("ᲇ", "Ѣ");
   ("ᲈ", "Ꙋ"); ("ᵹ", "Ᵹ"); ("ᵽ", "Ᵽ"); ("ᶎ", "Ᶎ"); ("ḁ", "Ḁ");
   ("ḃ", "Ḃ"); ("ḅ", "Ḅ"); ("ḇ", "Ḇ"); ("ḉ", "Ḉ"); ("ḋ", "Ḋ");
   ("ḍ", "Ḍ"); ("ḏ", "Ḏ"); ("ḑ", "Ḑ"); ("ḓ", "Ḓ"); ("ḕ", "Ḕ");
   ("ḗ", "Ḗ"); ("ḙ", "Ḙ"); ("ḛ", "Ḛ"); ("ḝ", "Ḝ"); ("ḟ", "Ḟ");
   ("ḡ", "Ḡ"); ("ḣ", "Ḣ"); ("ḥ", "Ḥ"); ("ḧ", "Ḧ"); ("ḩ", "Ḩ");
   ("ḫ", "Ḫ"); ("ḭ", "Ḭ"); ("ḯ", "Ḯ"); ("ḱ", "Ḱ"); ("ḳ", "Ḳ");
   ("ḵ", "Ḵ"); ("ḷ", "Ḷ"); ("ḹ", "Ḹ"); ("ḻ", "Ḻ"); ("ḽ", "Ḽ");
   ("ḿ", "Ḿ"); ("ṁ", "Ṁ"); ("ṃ", "Ṃ"); ("ṅ", "Ṅ"); ("ṇ", "Ṇ");
   ("ṉ", "Ṉ"); ("ṋ", "Ṋ"); ("ṍ", "Ṍ"); ("ṏ", "Ṏ"); ("ṑ", "Ṑ");
   ("ṓ", "Ṓ"); ("ṕ", "Ṕ"); ("ṗ", "Ṗ"); ("ṙ", "Ṙ"); ("ṛ", "Ṛ");
   ("ṝ", "Ṝ"); ("ṟ", "Ṟ"); ("ṡ", "Ṡ"); ("ṣ", "Ṣ"); ("ṥ", "Ṥ");
   ("ṧ", "Ṧ"); ("ṩ", "Ṩ"); ("ṫ", "Ṫ"); ("ṭ", "Ṭ"); ("ṯ", "Ṯ");
   ("ṱ", "Ṱ"); ("ṳ", "Ṳ"); ("ṵ", "Ṵ"); ("ṷ", "Ṷ"); ("ṹ", "Ṹ")
  ].

Definition upper_table_06 : list (string * string) :=
  [
   ("ṻ", "Ṻ"); ("ṽ", "Ṽ"); ("ṿ", "Ṿ"); ("ẁ", "Ẁ"); ("ẃ", "Ẃ");
   ("ẅ", "Ẅ"); ("ẇ", "Ẇ"); ("ẉ", "Ẉ"); ("ẋ", "Ẋ"); ("ẍ", "Ẍ");
   ("ẏ", "Ẏ"); ("ẑ", "Ẑ"); ("ẓ", "Ẓ"); ("ẕ", "Ẕ"); ("ẖ", "H̱");
   ("ẗ", "T̈"); ("ẘ", "W̊"); ("ẙ", "Y̊"); ("ẚ", "Aʾ"); ("ẛ", "Ṡ");
   ("ạ", "Ạ"); ("ả", "Ả"); ("ấ", "Ấ"); ("ầ", "Ầ"); ("ẩ", "Ẩ");
   ("ẫ", "Ẫ"); ("ậ", "Ậ"); ("ắ", "Ắ"); ("ằ", "Ằ"); ("ẳ", "Ẳ");
   ("ẵ", "Ẵ"); ("ặ", "Ặ"); ("ẹ", "Ẹ"); ("ẻ", "Ẻ"); ("ẽ", "Ẽ");
   ("ế", "Ế"); ("ề", "Ề"); ("ể", "Ể"); ("ễ", "Ễ"); ("ệ", "Ệ");
   ("ỉ", "Ỉ"); ("ị", "Ị"); ("ọ", "Ọ"); ("ỏ", "Ỏ"); ("ố", "Ố");
   ("ồ", "Ồ"); ("ổ", "Ổ"); ("ỗ", "Ỗ"); ("ộ", "Ộ"); ("ớ", "Ớ");
   ("ờ", "Ờ"); ("ở", "Ở"); ("ỡ", "Ỡ"); ("ợ", "Ợ"); ("ụ", "Ụ");
   ("ủ", "Ủ"); ("ứ", "Ứ"); ("ừ", "Ừ"); ("ử", "Ử"); ("ữ", "Ữ");
   ("ự", "Ự"); ("ỳ", "Ỳ"); ("ỵ", "Ỵ"); ("ỷ", "Ỷ"); ("ỹ", "Ỹ");
   ("ỻ", "Ỻ"); ("ỽ", "Ỽ"); ("ỿ", "Ỿ"); ("ἀ", "Ἀ"); ("ἁ", "Ἁ");
   ("ἂ", "Ἂ"); ("ἃ", "Ἃ"); ("ἄ", "Ἄ"); ("ἅ", "Ἅ"); ("ἆ", "Ἆ");
   ("ἇ", "Ἇ"); ("ἐ", "Ἐ"); ("ἑ", "Ἑ"); ("ἒ", "Ἒ"); ("ἓ", "Ἓ");
   ("ἔ", "Ἔ"); ("ἕ", "Ἕ"); ("ἠ", "Ἠ"); ("ἡ", "Ἡ"); ("ἢ", "Ἢ");
   ("ἣ", "Ἣ"); ("ἤ", "Ἤ"); ("ἥ", "Ἥ"); ("ἦ", "Ἦ"); ("ἧ", "Ἧ");
   ("ἰ", "Ἰ"); ("ἱ", "Ἱ"); ("ἲ", "Ἲ"); ("ἳ", "Ἳ"); ("ἴ", "Ἴ");
   ("ἵ", "Ἵ"); ("ἶ", "Ἶ"); ("ἷ", "Ἷ"); ("ὀ", "Ὀ"); ("ὁ", "Ὁ")
  ].

Definition upper_table_07 : list (string * string) :=
  [
   ("ὂ", "Ὂ"); ("ὃ", "Ὃ"); ("ὄ", "Ὄ"); ("ὅ", "Ὅ"); ("ὐ", "Υ̓");
   ("ὑ", "Ὑ"); ("ὒ", "Υ̓̀"); ("ὓ", "Ὓ"); ("ὔ", "Υ̓́"); ("ὕ", "Ὕ");
   ("ὖ", "Υ̓͂"); ("ὗ", "Ὗ"); ("ὠ", "Ὠ"); ("ὡ", "Ὡ"); ("ὢ", "Ὢ");
   ("ὣ", "Ὣ"); ("ὤ", "Ὤ"); ("ὥ", "Ὥ"); ("ὦ", "Ὦ"); ("ὧ", "Ὧ");
   ("ὰ", "Ὰ"); ("ά", "Ά"); ("ὲ", "Ὲ"); ("έ", "Έ"); ("ὴ", "Ὴ");
   ("ή", "Ή"); ("ὶ", "Ὶ"); ("ί", "Ί"); ("ὸ", "Ὸ"); ("ό", "Ό");
   ("ὺ", "Ὺ"); ("ύ", "Ύ"); ("ὼ", "Ὼ"); ("ώ", "Ώ"); ("ᾀ", "ἈΙ");
   ("ᾁ", "ἉΙ"); ("ᾂ", "ἊΙ"); ("ᾃ", "ἋΙ"); ("ᾄ", "ἌΙ"); ("ᾅ", "ἍΙ");
   ("ᾆ", "ἎΙ"); ("ᾇ", "ἏΙ"); ("ᾈ", "ἈΙ"); ("ᾉ", "ἉΙ"); ("ᾊ", "ἊΙ");
   ("ᾋ", "ἋΙ"); ("ᾌ", "ἌΙ"); ("ᾍ", "ἍΙ"); ("ᾎ", "ἎΙ"); ("ᾏ", "ἏΙ");
   ("ᾐ", "ἨΙ"); ("ᾑ", "ἩΙ"); ("ᾒ", "ἪΙ"); ("ᾓ", "ἫΙ"); ("ᾔ", "ἬΙ");
   ("ᾕ", "ἭΙ"); ("ᾖ", "ἮΙ"); ("ᾗ", "ἯΙ"); ("ᾘ", "ἨΙ"); ("ᾙ", "ἩΙ");
   ("ᾚ", "ἪΙ"); ("ᾛ", "ἫΙ"); ("ᾜ", "ἬΙ"); ("ᾝ", "ἭΙ"); ("ᾞ", "ἮΙ");
   ("ᾟ", "ἯΙ"); ("ᾠ", "ὨΙ"); ("ᾡ", "ὩΙ"); ("ᾢ", "ὪΙ"); ("ᾣ", "ὫΙ");
   ("ᾤ", "ὬΙ"); ("ᾥ", "ὭΙ"); ("ᾦ", "ὮΙ"); ("ᾧ", "ὯΙ"); ("ᾨ", "ὨΙ");
   ("ᾩ", "ὩΙ"); ("ᾪ", "ὪΙ"); ("ᾫ", "ὫΙ"); ("ᾬ", "ὬΙ"); ("ᾭ", "ὭΙ");
   ("ᾮ", "ὮΙ"); ("ᾯ", "ὯΙ"); ("ᾰ", "Ᾰ"); ("ᾱ", "Ᾱ"); ("ᾲ", "ᾺΙ");
   ("ᾳ", "ΑΙ"); ("ᾴ", "ΆΙ"); ("ᾶ", "Α͂"); ("ᾷ", "Α͂Ι"); ("ᾼ", "ΑΙ");
   ("ι", "Ι"); ("ῂ", "ῊΙ"); ("ῃ", "ΗΙ"); ("ῄ", "ΉΙ"); ("ῆ", "Η͂");
   ("ῇ", "Η͂Ι"); ("ῌ", "ΗΙ"); ("ῐ", "Ῐ"); ("ῑ", "Ῑ"); ("ῒ", "Ϊ̀")
  ].

Definition upper_table_08 : list (string * string) :=
  [
   ("ΐ", "Ϊ́"); ("ῖ", "Ι͂"); ("ῗ", "Ϊ͂"); ("ῠ", "Ῠ"); ("ῡ", "Ῡ");
   ("ῢ", "Ϋ̀"); ("ΰ", "Ϋ́"); ("ῤ", "Ρ̓"); ("ῥ", "Ῥ"); ("ῦ", "Υ͂");
   ("ῧ", "Ϋ͂"); ("ῲ", "ῺΙ"); ("ῳ", "ΩΙ"); ("ῴ", "ΏΙ"); ("ῶ", "Ω͂");
   ("ῷ", "Ω͂Ι"); ("ῼ", "ΩΙ"); ("ⅎ", "Ⅎ"); ("ⅰ", "Ⅰ"); ("ⅱ", "Ⅱ");
   ("ⅲ", "Ⅲ"); ("ⅳ", "Ⅳ"); ("ⅴ", "Ⅴ"); ("ⅵ", "Ⅵ"); ("ⅶ", "Ⅶ");
   ("ⅷ", "Ⅷ"); ("ⅸ", "Ⅸ"); ("ⅹ", "Ⅹ"); ("ⅺ", "Ⅺ"); ("ⅻ", "Ⅻ");
   ("ⅼ", "Ⅼ"); ("ⅽ", "Ⅽ"); ("ⅾ", "Ⅾ"); ("ⅿ", "Ⅿ"); ("ↄ", "Ↄ");
   ("ⓐ", "Ⓐ"); ("ⓑ", "Ⓑ"); ("ⓒ", "Ⓒ"); ("ⓓ", "Ⓓ"); ("ⓔ", "Ⓔ");
   ("ⓕ", "Ⓕ"); ("ⓖ", "Ⓖ"); ("ⓗ", "Ⓗ"); ("ⓘ", "Ⓘ"); ("ⓙ", "Ⓙ");
   ("ⓚ", "Ⓚ"); ("ⓛ", "Ⓛ"); ("ⓜ", "Ⓜ"); ("ⓝ", "Ⓝ"); ("ⓞ", "Ⓞ");
   ("ⓟ", "Ⓟ"); ("ⓠ", "Ⓠ"); ("ⓡ", "Ⓡ"); ("ⓢ", "Ⓢ"); ("ⓣ", "Ⓣ");
   ("ⓤ", "Ⓤ"); ("ⓥ", "Ⓥ"); ("ⓦ", "Ⓦ"); ("ⓧ", "Ⓧ"); ("ⓨ", "Ⓨ");
   ("ⓩ", "Ⓩ"); ("ⰰ", "Ⰰ"); ("ⰱ", "Ⰱ"); ("ⰲ", "Ⰲ"); ("ⰳ", "Ⰳ");
   ("ⰴ", "Ⰴ"); ("ⰵ", "Ⰵ"); ("ⰶ", "Ⰶ"); ("ⰷ", "Ⰷ"); ("ⰸ", "Ⰸ");
   ("ⰹ", "Ⰹ"); ("ⰺ", "Ⰺ"); ("ⰻ", "Ⰻ"); ("ⰼ", "Ⰼ"); ("ⰽ", "Ⰽ");
   ("ⰾ", "Ⰾ"); ("ⰿ", "Ⰿ"); ("ⱀ", "Ⱀ"); ("ⱁ", "Ⱁ"); ("ⱂ", "Ⱂ");
   ("ⱃ", "Ⱃ"); ("ⱄ", "Ⱄ"); ("ⱅ", "Ⱅ"); ("ⱆ", "Ⱆ"); ("ⱇ", "Ⱇ");
   ("ⱈ", "Ⱈ"); ("ⱉ", "Ⱉ"); ("ⱊ", "Ⱊ"); ("ⱋ", "Ⱋ"); ("ⱌ", "Ⱌ");
   ("ⱍ", "Ⱍ"); ("ⱎ", "Ⱎ"); ("ⱏ", "Ⱏ"); ("ⱐ", "Ⱐ"); ("ⱑ", "Ⱑ");
   ("ⱒ", "Ⱒ"); ("ⱓ", "Ⱓ"); ("ⱔ", "Ⱔ"); ("ⱕ", "Ⱕ"); ("ⱖ", "Ⱖ")
  ].

Definition upper_table_09 : list (string * string) :=
  [
   ("ⱗ", "Ⱗ"); ("ⱘ", "Ⱘ"); ("ⱙ", "Ⱙ"); ("ⱚ", "Ⱚ"); ("ⱛ", "Ⱛ");
   ("ⱜ", "Ⱜ"); ("ⱝ", "Ⱝ"); ("ⱞ", "Ⱞ"); ("ⱟ", "Ⱟ"); ("ⱡ", "Ⱡ");
   ("ⱥ", "Ⱥ"); ("ⱦ", "Ⱦ"); ("ⱨ", "Ⱨ"); ("ⱪ", "Ⱪ"); ("ⱬ", "Ⱬ");
   ("ⱳ", "Ⱳ"); ("ⱶ", "Ⱶ"); ("ⲁ", "Ⲁ"); ("ⲃ", "Ⲃ"); ("ⲅ", "Ⲅ");
   ("ⲇ", "Ⲇ"); ("ⲉ", "Ⲉ"); ("ⲋ", "Ⲋ"); ("ⲍ", "Ⲍ"); ("ⲏ", "Ⲏ");
   ("ⲑ", "Ⲑ"); ("ⲓ", "Ⲓ"); ("ⲕ", "Ⲕ"); ("ⲗ", "Ⲗ"); ("ⲙ", "Ⲙ");
   ("ⲛ", "Ⲛ"); ("ⲝ", "Ⲝ"); ("ⲟ", "Ⲟ"); ("ⲡ", "Ⲡ"); ("ⲣ", "Ⲣ");
   ("ⲥ", "Ⲥ"); ("ⲧ", "Ⲧ"); ("ⲩ", "Ⲩ"); ("ⲫ", "Ⲫ"); ("ⲭ", "Ⲭ");
   ("ⲯ", "Ⲯ"); ("ⲱ", "Ⲱ"); ("ⲳ", "Ⲳ"); ("ⲵ", "Ⲵ"); ("ⲷ", "Ⲷ");
   ("ⲹ", "Ⲹ"); ("ⲻ", "Ⲻ"); ("ⲽ", "Ⲽ"); ("ⲿ", "Ⲿ"); ("ⳁ", "Ⳁ");
   ("ⳃ", "Ⳃ"); ("ⳅ", "Ⳅ"); ("ⳇ", "Ⳇ"); ("ⳉ", "Ⳉ"); ("ⳋ", "Ⳋ");
   ("ⳍ", "Ⳍ"); ("ⳏ", "Ⳏ"); ("ⳑ", "Ⳑ"); ("ⳓ", "Ⳓ"); ("ⳕ", "Ⳕ");
   ("ⳗ", "Ⳗ"); ("ⳙ", "Ⳙ"); ("ⳛ", "Ⳛ"); ("ⳝ", "Ⳝ"); ("ⳟ", "Ⳟ");
   ("ⳡ", "Ⳡ"); ("ⳣ", "Ⳣ"); ("ⳬ", "Ⳬ"); ("ⳮ", "Ⳮ"); ("ⳳ", "Ⳳ");
   ("ⴀ", "Ⴀ"); ("ⴁ", "Ⴁ"); ("ⴂ", "Ⴂ"); ("ⴃ", "Ⴃ"); ("ⴄ", "Ⴄ");
   ("ⴅ", "Ⴅ"); ("ⴆ", "Ⴆ"); ("ⴇ", "Ⴇ"); ("ⴈ", "Ⴈ"); ("ⴉ", "Ⴉ");
   ("ⴊ", "Ⴊ"); ("ⴋ", "Ⴋ"); ("ⴌ", "Ⴌ"); ("ⴍ", "Ⴍ"); ("ⴎ", "Ⴎ");
   ("ⴏ", "Ⴏ"); ("ⴐ", "Ⴐ"); ("ⴑ", "Ⴑ"); ("ⴒ", "Ⴒ"); ("ⴓ", "Ⴓ");
   ("ⴔ", "Ⴔ"); ("ⴕ", "Ⴕ"); ("ⴖ", "Ⴖ"); ("ⴗ", "Ⴗ"); ("ⴘ", "Ⴘ");
   ("ⴙ", "Ⴙ"); ("ⴚ", "Ⴚ"); ("ⴛ", "Ⴛ"); ("ⴜ", "Ⴜ"); ("ⴝ", "Ⴝ")
  ].

Definition upper_table_10 : list (string * string) :=
  [
   ("ⴞ", "Ⴞ"); ("ⴟ", "Ⴟ"); ("ⴠ", "Ⴠ"); ("ⴡ", "Ⴡ"); ("ⴢ", "Ⴢ");
   ("ⴣ", "Ⴣ"); ("ⴤ", "Ⴤ"); ("ⴥ", "Ⴥ"); ("ⴧ", "Ⴧ"); ("ⴭ", "Ⴭ");
   ("ꙁ", "Ꙁ"); ("ꙃ", "Ꙃ"); ("ꙅ", "Ꙅ"); ("ꙇ", "Ꙇ"); ("ꙉ", "Ꙉ");
   ("ꙋ", "Ꙋ"); ("ꙍ", "Ꙍ"); ("ꙏ", "Ꙏ"); ("ꙑ", "Ꙑ"); ("ꙓ", "Ꙓ");
   ("ꙕ", "Ꙕ"); ("ꙗ", "Ꙗ"); ("ꙙ", "Ꙙ"); ("ꙛ", "Ꙛ"); ("ꙝ", "Ꙝ");
   ("ꙟ", "Ꙟ"); ("ꙡ", "Ꙡ"); ("ꙣ", "Ꙣ"); ("ꙥ", "Ꙥ"); ("ꙧ", "Ꙧ");
   ("ꙩ", "Ꙩ"); ("ꙫ", "Ꙫ"); ("ꙭ", "Ꙭ"); ("ꚁ", "Ꚁ"); ("ꚃ", "Ꚃ");
   ("ꚅ", "Ꚅ"); ("ꚇ", "Ꚇ"); ("ꚉ", "Ꚉ"); ("ꚋ", "Ꚋ"); ("ꚍ", "Ꚍ");
   ("ꚏ", "Ꚏ"); ("ꚑ", "Ꚑ"); ("ꚓ", "Ꚓ"); ("ꚕ", "Ꚕ"); ("ꚗ", "Ꚗ");
   ("ꚙ", "Ꚙ"); ("ꚛ", "Ꚛ"); ("ꜣ", "Ꜣ"); ("ꜥ", "Ꜥ"); ("ꜧ", "Ꜧ");
   ("ꜩ", "Ꜩ"); ("ꜫ", "Ꜫ"); ("ꜭ", "Ꜭ"); ("ꜯ", "Ꜯ"); ("ꜳ", "Ꜳ");
   ("ꜵ", "Ꜵ"); ("ꜷ", "Ꜷ"); ("ꜹ", "Ꜹ"); ("ꜻ", "Ꜻ"); ("ꜽ", "Ꜽ");
   ("ꜿ", "Ꜿ"); ("ꝁ", "Ꝁ"); ("ꝃ", "Ꝃ"); ("ꝅ", "Ꝅ"); ("ꝇ", "Ꝇ");
   ("ꝉ", "Ꝉ"); ("ꝋ", "Ꝋ"); ("ꝍ", "Ꝍ"); ("ꝏ", "Ꝏ"); ("ꝑ", "Ꝑ");
   ("ꝓ", "Ꝓ"); ("ꝕ", "Ꝕ"); ("ꝗ", "Ꝗ"); ("ꝙ", "Ꝙ"); ("ꝛ", "Ꝛ");
   ("ꝝ", "Ꝝ"); ("ꝟ", "Ꝟ"); ("ꝡ", "Ꝡ"); ("ꝣ", "Ꝣ"); ("ꝥ", "Ꝥ");
   ("ꝧ", "Ꝧ"); ("ꝩ", "Ꝩ"); ("ꝫ", "Ꝫ"); ("ꝭ", "Ꝭ"); ("ꝯ", "Ꝯ");
   ("ꝺ", "Ꝺ"); ("ꝼ", "Ꝼ"); ("ꝿ", "Ꝿ"); ("ꞁ", "Ꞁ"); ("ꞃ", "Ꞃ");
   ("ꞅ", "Ꞅ"); ("ꞇ", "Ꞇ"); ("ꞌ", "Ꞌ"); ("ꞑ", "Ꞑ"); ("ꞓ", "Ꞓ");
   ("ꞔ", "Ꞔ"); ("ꞗ", "Ꞗ"); ("ꞙ", "Ꞙ"); ("ꞛ", "Ꞛ"); ("ꞝ", "Ꞝ")
  ].

Definition upper_table_11 : list (string * string) :=
  [
   ("ꞟ", "Ꞟ"); ("ꞡ", "Ꞡ"); ("ꞣ", "Ꞣ"); ("ꞥ", "Ꞥ"); ("ꞧ", "Ꞧ");
   ("ꞩ", "Ꞩ"); ("ꞵ", "Ꞵ"); ("ꞷ", "Ꞷ"); ("ꞹ", "Ꞹ"); ("ꞻ", "Ꞻ");
   ("ꞽ", "Ꞽ"); ("ꞿ", "Ꞿ"); ("ꟁ", "Ꟁ"); ("ꟃ", "Ꟃ"); ("ꟈ", "Ꟈ");
   ("ꟊ", "Ꟊ"); ("ꟑ", "Ꟑ"); ("ꟗ", "Ꟗ"); ("ꟙ", "Ꟙ"); ("ꟶ", "Ꟶ");
   ("ꭓ", "Ꭓ"); ("ꭰ", "Ꭰ"); ("ꭱ", "Ꭱ"); ("ꭲ", "Ꭲ"); ("ꭳ", "Ꭳ");
   ("ꭴ", "Ꭴ"); ("ꭵ", "Ꭵ"); ("ꭶ", "Ꭶ"); ("ꭷ", "Ꭷ"); ("ꭸ", "Ꭸ");
   ("ꭹ", "Ꭹ"); ("ꭺ", "Ꭺ"); ("ꭻ", "Ꭻ"); ("ꭼ", "Ꭼ"); ("ꭽ", "Ꭽ");
   ("ꭾ", "Ꭾ"); ("ꭿ", "Ꭿ"); ("ꮀ", "Ꮀ"); ("ꮁ", "Ꮁ"); ("ꮂ", "Ꮂ");
   ("ꮃ", "Ꮃ"); ("ꮄ", "Ꮄ"); ("ꮅ", "Ꮅ"); ("ꮆ", "Ꮆ"); ("ꮇ", "Ꮇ");
   ("ꮈ", "Ꮈ"); ("ꮉ", "Ꮉ"); ("ꮊ", "Ꮊ"); ("ꮋ", "Ꮋ"); ("ꮌ", "Ꮌ");
   ("ꮍ", "Ꮍ"); ("ꮎ", "Ꮎ"); ("ꮏ", "Ꮏ"); ("ꮐ", "Ꮐ"); ("ꮑ", "Ꮑ");
   ("ꮒ", "Ꮒ"); ("ꮓ", "Ꮓ"); ("ꮔ", "Ꮔ"); ("ꮕ", "Ꮕ"); ("ꮖ", "Ꮖ");
   ("ꮗ", "Ꮗ"); ("ꮘ", "Ꮘ"); ("ꮙ", "Ꮙ"); ("ꮚ", "Ꮚ"); ("ꮛ", "Ꮛ");
   ("ꮜ", "Ꮜ"); ("ꮝ", "Ꮝ"); ("ꮞ", "Ꮞ"); ("ꮟ", "Ꮟ"); ("ꮠ", "Ꮠ");
   ("ꮡ", "Ꮡ"); ("ꮢ", "Ꮢ"); ("ꮣ", "Ꮣ"); ("ꮤ", "Ꮤ"); ("ꮥ", "Ꮥ");
   ("ꮦ", "Ꮦ"); ("ꮧ", "Ꮧ"); ("ꮨ", "Ꮨ"); ("ꮩ", "Ꮩ"); ("ꮪ", "Ꮪ");
   ("ꮫ", "Ꮫ"); ("ꮬ", "Ꮬ"); ("ꮭ", "Ꮭ"); ("ꮮ", "Ꮮ"); ("ꮯ", "Ꮯ");
   ("ꮰ", "Ꮰ"); ("ꮱ", "Ꮱ"); ("ꮲ", "Ꮲ"); ("ꮳ", "Ꮳ"); ("ꮴ", "Ꮴ");
   ("ꮵ", "Ꮵ"); ("ꮶ", "Ꮶ"); ("ꮷ", "Ꮷ"); ("ꮸ", "Ꮸ"); ("ꮹ", "Ꮹ");
   ("ꮺ", "Ꮺ"); ("ꮻ", "Ꮻ"); ("ꮼ", "Ꮼ"); ("ꮽ", "Ꮽ"); ("ꮾ", "Ꮾ")
  ].

Definition upper_table_12 : list (string * string) :=
  [
   ("ꮿ", "Ꮿ"); ("ﬀ", "FF"); ("ﬁ", "FI"); ("ﬂ", "FL"); ("ﬃ", "FFI");
   ("ﬄ", "FFL"); ("ﬅ", "ST"); ("ﬆ", "ST"); ("ﬓ", "ՄՆ"); ("ﬔ", "ՄԵ");
   ("ﬕ", "ՄԻ"); ("ﬖ", "ՎՆ"); ("ﬗ", "ՄԽ"); ("ａ", "Ａ"); ("ｂ", "Ｂ");
   ("ｃ", "Ｃ"); ("ｄ", "Ｄ"); ("ｅ", "Ｅ"); ("ｆ", "Ｆ"); ("ｇ", "Ｇ");
   ("ｈ", "Ｈ"); ("ｉ", "Ｉ"); ("ｊ", "Ｊ"); ("ｋ", "Ｋ"); ("ｌ", "Ｌ");
   ("ｍ", "Ｍ"); ("ｎ", "Ｎ"); ("ｏ", "Ｏ"); ("ｐ", "Ｐ"); ("ｑ", "Ｑ");
   ("ｒ", "Ｒ"); ("ｓ", "Ｓ"); ("ｔ", "Ｔ"); ("ｕ", "Ｕ"); ("ｖ", "Ｖ");
   ("ｗ", "Ｗ"); ("ｘ", "Ｘ"); ("ｙ", "Ｙ"); ("ｚ", "Ｚ"); ("𐐨", "𐐀");
   ("𐐩", "𐐁"); ("𐐪", "𐐂"); ("𐐫", "𐐃"); ("𐐬", "𐐄"); ("𐐭", "𐐅");
   ("𐐮", "𐐆"); ("𐐯", "𐐇"); ("𐐰", "𐐈"); ("𐐱", "𐐉"); ("𐐲", "𐐊");
   ("𐐳", "𐐋"); ("𐐴", "𐐌"); ("𐐵", "𐐍"); ("𐐶", "𐐎"); ("𐐷", "𐐏");
   ("𐐸", "𐐐"); ("𐐹", "𐐑"); ("𐐺", "𐐒"); ("𐐻", "𐐓"); ("𐐼", "𐐔");
   ("𐐽", "𐐕"); ("𐐾", "𐐖"); ("𐐿", "𐐗"); ("𐑀", "𐐘"); ("𐑁", "𐐙");
   ("𐑂", "𐐚"); ("𐑃", "𐐛"); ("𐑄", "𐐜"); ("𐑅", "𐐝"); ("𐑆", "𐐞");
   ("𐑇", "𐐟"); ("𐑈", "𐐠"); ("𐑉", "𐐡"); ("𐑊", "𐐢"); ("𐑋", "𐐣");
   ("𐑌", "𐐤"); ("𐑍", "𐐥"); ("𐑎", "𐐦"); ("𐑏", "𐐧"); ("𐓘", "𐒰");
   ("𐓙", "𐒱"); ("𐓚", "𐒲"); ("𐓛", "𐒳"); ("𐓜", "𐒴"); ("𐓝", "𐒵");
   ("𐓞", "𐒶"); ("𐓟", "𐒷"); ("𐓠", "𐒸"); ("𐓡", "𐒹"); ("𐓢", "𐒺");
   ("𐓣", "𐒻"); ("𐓤", "𐒼"); ("𐓥", "𐒽"); ("𐓦", "𐒾"); ("𐓧", "𐒿");
   ("𐓨", "𐓀"); ("𐓩", "𐓁"); ("𐓪", "𐓂"); ("𐓫", "𐓃"); ("𐓬", "𐓄")
  ].

Definition upper_table_13 : list (string * string) :=
  [
   ("𐓭", "𐓅"); ("𐓮", "𐓆"); ("𐓯", "𐓇"); ("𐓰", "𐓈"); ("𐓱", "𐓉");
   ("𐓲", "𐓊"); ("𐓳", "𐓋"); ("𐓴", "𐓌"); ("𐓵", "𐓍"); ("𐓶", "𐓎");
   ("𐓷", "𐓏"); ("𐓸", "𐓐"); ("𐓹", "𐓑"); ("𐓺", "𐓒"); ("𐓻", "𐓓");
   ("𐖗", "𐕰"); ("𐖘", "𐕱"); ("𐖙", "𐕲"); ("𐖚", "𐕳"); ("𐖛", "𐕴");
   ("𐖜", "𐕵"); ("𐖝", "𐕶"); ("𐖞", "𐕷"); ("𐖟", "𐕸"); ("𐖠", "𐕹");
   ("𐖡", "𐕺"); ("𐖣", "𐕼"); ("𐖤", "𐕽"); ("𐖥", "𐕾"); ("𐖦", "𐕿");
   ("𐖧", "𐖀"); ("𐖨", "𐖁"); ("𐖩", "𐖂"); ("𐖪", "𐖃"); ("𐖫", "𐖄");
   ("𐖬", "𐖅"); ("𐖭", "𐖆"); ("𐖮", "𐖇"); ("𐖯", "𐖈"); ("𐖰", "𐖉");
   ("𐖱", "𐖊"); ("𐖳", "𐖌"); ("𐖴", "𐖍"); ("𐖵", "𐖎"); ("𐖶", "𐖏");
   ("𐖷", "𐖐"); ("𐖸", "𐖑"); ("𐖹", "𐖒"); ("𐖻", "𐖔"); ("𐖼", "𐖕");
   ("𐳀", "𐲀"); ("𐳁", "𐲁"); ("𐳂", "𐲂"); ("𐳃", "𐲃"); ("𐳄", "𐲄");
   ("𐳅", "𐲅"); ("𐳆", "𐲆"); ("𐳇", "𐲇"); ("𐳈", "𐲈"); ("𐳉", "𐲉");
   ("𐳊", "𐲊"); ("𐳋", "𐲋"); ("𐳌", "𐲌"); ("𐳍", "𐲍"); ("𐳎", "𐲎");
   ("𐳏", "𐲏"); ("𐳐", "𐲐"); ("𐳑", "𐲑"); ("𐳒", "𐲒"); ("𐳓", "𐲓");
   ("𐳔", "𐲔"); ("𐳕", "𐲕"); ("𐳖", "𐲖"); ("𐳗", "𐲗"); ("𐳘", "𐲘");
   ("𐳙", "𐲙"); ("𐳚", "𐲚"); ("𐳛", "𐲛"); ("𐳜", "𐲜"); ("𐳝", "𐲝");
   ("𐳞", "𐲞"); ("𐳟", "𐲟"); ("𐳠", "𐲠"); ("𐳡", "𐲡"); ("𐳢", "𐲢");
   ("𐳣", "𐲣"); ("𐳤", "𐲤"); ("𐳥", "𐲥"); ("𐳦", "𐲦"); ("𐳧", "𐲧");
   ("𐳨", "𐲨"); ("𐳩", "𐲩"); ("𐳪", "𐲪"); ("𐳫", "𐲫"); ("𐳬", "𐲬");
   ("𐳭", "𐲭"); ("𐳮", "𐲮"); ("𐳯", "𐲯"); ("𐳰", "𐲰"); ("𐳱", "𐲱")
  ].

Definition upper_table_14 : list (string * string) :=
  [
   ("𐳲", "𐲲"); ("𑣀", "𑢠"); ("𑣁", "𑢡"); ("𑣂", "𑢢"); ("𑣃", "𑢣");
   ("𑣄", "𑢤"); ("𑣅", "𑢥"); ("𑣆", "𑢦"); ("𑣇", "𑢧"); ("𑣈", "𑢨");
   ("𑣉", "𑢩"); ("𑣊", "𑢪"); ("𑣋", "𑢫"); ("𑣌", "𑢬"); ("𑣍", "𑢭");
   ("𑣎", "𑢮"); ("𑣏", "𑢯"); ("𑣐", "𑢰"); ("𑣑", "𑢱"); ("𑣒", "𑢲");
   ("𑣓", "𑢳"); ("𑣔", "𑢴"); ("𑣕", "𑢵"); ("𑣖", "𑢶"); ("𑣗", "𑢷");
   ("𑣘", "𑢸"); ("𑣙", "𑢹"); ("𑣚", "𑢺"); ("𑣛", "𑢻"); ("𑣜", "𑢼");
   ("𑣝", "𑢽"); ("𑣞", "𑢾"); ("𑣟", "𑢿"); ("𖹠", "𖹀"); ("𖹡", "𖹁");
   ("𖹢", "𖹂"); ("𖹣", "𖹃"); ("𖹤", "𖹄"); ("𖹥", "𖹅"); ("𖹦", "𖹆");
   ("𖹧", "𖹇"); ("𖹨", "𖹈"); ("𖹩", "𖹉"); ("𖹪", "𖹊"); ("𖹫", "𖹋");
   ("𖹬", "𖹌"); ("𖹭", "𖹍"); ("𖹮", "𖹎"); ("𖹯", "𖹏"); ("𖹰", "𖹐");
   ("𖹱", "𖹑"); ("𖹲", "𖹒"); ("𖹳", "𖹓"); ("𖹴", "𖹔"); ("𖹵", "𖹕");
   ("𖹶", "𖹖"); ("𖹷", "𖹗"); ("𖹸", "𖹘"); ("𖹹", "𖹙"); ("𖹺", "𖹚");
   ("𖹻", "𖹛"); ("𖹼", "𖹜"); ("𖹽", "𖹝"); ("𖹾", "𖹞"); ("𖹿", "𖹟");
   ("𞤢", "𞤀"); ("𞤣", "𞤁"); ("𞤤", "𞤂"); ("𞤥", "𞤃"); ("𞤦", "𞤄");
   ("𞤧", "𞤅"); ("𞤨", "𞤆"); ("𞤩", "𞤇"); ("𞤪", "𞤈"); ("𞤫", "𞤉");
   ("𞤬", "𞤊"); ("𞤭", "𞤋"); ("𞤮", "𞤌"); ("𞤯", "𞤍"); ("𞤰", "𞤎");
   ("𞤱", "𞤏"); ("𞤲", "𞤐"); ("𞤳", "𞤑"); ("𞤴", "𞤒"); ("𞤵", "𞤓");
   ("𞤶", "𞤔"); ("𞤷", "𞤕"); ("𞤸", "𞤖"); ("𞤹", "𞤗"); ("𞤺", "𞤘");
   ("𞤻", "𞤙"); ("𞤼", "𞤚"); ("𞤽", "𞤛"); ("𞤾", "𞤜"); ("𞤿", "𞤝");
   ("𞥀", "𞤞"); ("𞥁", "𞤟"); ("𞥂", "𞤠"); ("𞥃", "𞤡")
  ].

Definition upper_table : list (string * string) :=
  (upper_table_00 ++
   upper_table_01 ++
   upper_table_02 ++
   upper_table_03 ++
   upper_table_04 ++
   upper_table_05 ++
   upper_table_06 ++
   upper_table_07 ++
   upper_table_08 ++
   upper_table_09 ++
   upper_table_10 ++
   upper_table_11 ++
   upper_table_12 ++
   upper_table_13 ++
   upper_table_14)%list.

(** [s.upper()], character by character: a character of the table is
    replaced by its entry, an ASCII letter is capitalised, anything else
    is kept.  [skip] counts the bytes of a replaced character that remain
    to be passed over. *)
Fixpoint upper_from (skip : nat) (s : string) : string :=
  match s with
  | EmptyString => EmptyString
  | String c t =>
      match skip with
      | S k => upper_from k t
      | O =>
          if (utf8_len c =? 1)%nat
          then String (upper_char c) (upper_from 0 t)
          else
            match assoc (take (utf8_len c) s) upper_table with
            | Some v => v ++ upper_from (utf8_len c - 1) t
            | None => String c (upper_from 0 t)
            end
      end
  end.

Definition upper (s : string) : string := upper_from 0 s.

Definition of_bytes (l : list nat) : string :=
  fold_right (fun n s => String (ascii_of_nat n) s) EmptyString l.

(** The characters [str.strip] removes when called without argument, in
    UTF-8: TAB, LF, VT, FF, CR, FS, GS, RS, US, the space, then U+0085,
    U+00A0, U+1680, U+2000 to U+200A, U+2028, U+2029, U+202F, U+205F and
    U+3000. *)
Definition whitespace : list string :=
  map of_bytes
    [[9]; [10]; [11]; [12]; [13]; [28]; [29]; [30]; [31]; [32];
     [194; 133]; [194; 160]; [225; 154; 128];
     [226; 128; 128]; [226; 128; 129]; [226; 128; 130]; [226; 128; 131];
     [226; 128; 132]; [226; 128; 133]; [226; 128; 134]; [226; 128; 135];
     [226; 128; 136]; [226; 128; 137]; [226; 128; 138];
     [226; 128; 168]; [226; 128; 169]; [226; 128; 175]; [226; 129; 159];
     [227; 128; 128]].

(** [s[::-1]], byte by byte. *)
Fixpoint reverse (s : string) : string :=
  match s with
  | EmptyString => EmptyString
  | String c t => reverse t ++ String c EmptyString
  end.

(** Taking away, from the front of [s], every word of [ws] found there,
    one after the other; [skip] is as in [upper_from]. *)
Fixpoint strip_leading (ws : list string) (skip : nat) (s : string)
  : string :=
  match s with
  | EmptyString => EmptyString
  | String c t =>
      match skip with
      | S k => strip_leading ws k t
      | O =>
          match find (fun w => startswith s w) ws with
          | Some w => strip_leading ws (String.length w - 1) t
          | None => s
          end
      end
  end.

(** [s.lstrip()] *)
Definition lstrip (s : string) : string := strip_leading whitespace 0 s.

(** [s.rstrip()]: the same from the back. *)
Definition rstrip (s : string) : string :=
  reverse (strip_leading (map reverse whitespace) 0 (reverse s)).

(** [s.strip()] *)
Definition strip (s : string) : string := lstrip (rstrip s).

(** [s[n:]] *)
Fixpoint drop (n : nat) (s : string) : string :=
  match n, s with
  | O, _ => s
  | S _, EmptyString => EmptyString
  | S k, String _ t => drop k t
  end.

(** [s.replace(old, new)] for a non-empty [old]: the occurrences of [old]
    are found from the left, without overlap.  [skip] counts the characters
    of a found occurrence that remain to be passed over. *)
Fixpoint replace_from (skip : nat) (old new s : string) : string :=
  match s with
  | EmptyString => EmptyString
  | String c t =>
      match skip with
      | S k => replace_from k old new t
      | O =>
          if startswith s old
          then new ++ replace_from (String.length old - 1) old new t
          else String c (replace_from 0 old new t)
      end
  end.

Definition replace (s old new : string) : string := replace_from 0 old new s.

(** [str(n)] for a natural number *)
Definition str_of_nat (n : nat) : string :=
  NilZero.string_of_uint (Nat.to_uint n).

(** [s.split(sep)] for a non-empty [sep]: the pieces between the
    occurrences of [sep], which are found from the left, without overlap.
    The first piece comes apart from the others; [skip] is as in
    [replace_from]. *)
Fixpoint split_from (skip : nat) (sep s : string) : string * list string :=
  match s with
  | EmptyString => (EmptyString, [])
  | String c t =>
      match skip with
      | S k => split_from k sep t
      | O =>
          if startswith s sep
          then
            let (piece, others) := split_from (String.length sep - 1) sep t in
            (EmptyString, piece :: others)
          else
            let (piece, others) := split_from 0 sep t in
            (String c piece, others)
      end
  end.

Definition split (s sep : string) : list string :=
  let (piece, others) := split_from 0 sep s in piece :: others.

End PyStr.

Import PyStr.

(** A line feed, and Python's test [not s] on a string. *)
Definition nl : string := String "010" EmptyString.

Definition is_empty (s : string) : bool :=
  match s with
  | EmptyString => true
  | String _ _ => false
  end.

(** Python's test [not v] on what [os.getenv] returns: [None] and the
    empty string are both false. *)
Definition falsy (v : option string) : bool :=
  match v with
  | Some s => is_empty s
  | None => true
  end.

(** ** Calls that leave the process *)

Module Eff.

(** An exception is carried as the text [str(e)] gives. *)
Definition exn := string.

Inductive outcome (A : Type) : Type :=
| Returned (a : A)
| Raised (e : exn).
Arguments Returned {A} a.
Arguments Raised {A} e.

Inductive ui_place := Page | Sidebar.
Inductive ui_level := UiSuccess | UiInfo | UiWarning | UiError.

(** One entry per call made to the provider, the driver or a widget. *)
Inductive event :=
| EvConfigure (api_key : string)
| EvListModels
| EvGenerativeModel (name : string)
| EvGenerateContent (model prompt : string)
| EvConnect (connection_string : string)
| EvReadSql (sql : string) (conn : nat)
| EvClose (conn : nat)
| EvUi (place : ui_place) (level : ui_level) (msg : string).

(** A method of an object whose fields are [St]: it ends by returning or
    by raising, it may have changed the fields either way, and it leaves
    the calls it made. *)
Definition Py (St A : Type) : Type := St -> outcome A * St * list event.

Definition ret {St A} (a : A) : Py St A := fun s => (Returned a, s, []).

Definition bind {St A B} (m : Py St A) (k : A -> Py St B) : Py St B :=
  fun s =>
    match m s with
    | (Returned a, s1, t1) =>
        match k a s1 with
        | (r, s2, t2) => (r, s2, (t1 ++ t2)%list)
        end
    | (Raised e, s1, t1) => (Raised e, s1, t1)
    end.

(** [try: body  except Exception as e: handler(e)] *)
Definition try_except {St A} (body : Py St A) (handler : exn -> Py St A)
  : Py St A :=
  fun s =>
    match body s with
    | (Returned a, s1, t1) => (Returned a, s1, t1)
    | (Raised e, s1, t1) =>
        match handler e s1 with
        | (r, s2, t2) => (r, s2, (t1 ++ t2)%list)
        end
    end.

(** An outside call: it is recorded, then it returns or raises. *)
Definition call {St A} (ev : event) (o : outcome A) : Py St A :=
  fun s => (o, s, [ev]).

(** [raise] *)
Definition raise {St A} (e : exn) : Py St A := fun s => (Raised e, s, []).

(** A widget call ([st.error], [st.sidebar.info], ...): it only displays. *)
Definition ui {St} (place : ui_place) (level : ui_level) (msg : string)
  : Py St unit :=
  fun s => (Returned tt, s, [EvUi place level msg]).

Definition get {St} : Py St St := fun s => (Returned s, s, []).
Definition put {St} (s' : St) : Py St unit := fun _ => (Returned tt, s', []).

Definition result_of {St A} (r : outcome A * St * list event) : outcome A :=
  fst (fst r).
Definition state_of {St A} (r : outcome A * St * list event) : St :=
  snd (fst r).
Definition trace_of {St A} (r : outcome A * St * list event) : list event :=
  snd r.

End Eff.

Import Eff.

Notation "x <- m ;; k" := (bind m (fun x => k))
  (at level 61, m at next level, right associativity).
Notation "m ;;; k" := (bind m (fun _ => k))
  (at level 61, right associativity).

(** A table as [pd.read_sql_query] builds it: named columns and rows. *)
Record DataFrame := {
  columns : list string;
  rows : list (list string)
}.

(** What the outside answers.  [generate_content_text model prompt] stands
    for [model.generate_content(prompt)] followed by [.text]; a model is
    known by its name and a connection by a handle. *)
Record Env := {
  genai_configure : string -> outcome unit;
  genai_list_models : outcome (list string);
  genai_GenerativeModel : string -> outcome unit;
  generate_content_text : string -> string -> outcome string;
  pyodbc_connect : string -> outcome nat;
  pd_read_sql_query : string -> nat -> outcome DataFrame;
  conn_close : nat -> outcome unit;
  now_isoformat : nat -> string;
  now_strftime : nat -> string
}.

(** ** sql_generator.py *)

Module SQLGenerator.

(** The fields of a [SQLGenerator]; a model is kept by its name. *)
Record t := {
  model : option string;
  api_key : option string
}.

(** [self.pubs_schema], as [__init__] sets it. *)
Definition pubs_schema : string := "
        ### ESQUEMA DE LA BASE DE DATOS PUBS ###

        **TABLAS PRINCIPALES:**

        1. **authors**
           - au_id (varchar) - ID único del autor
           - au_lname (varchar) - Apellido
           - au_fname (varchar) - Nombre
           - phone (char) - Teléfono
           - address (varchar) - Dirección
           - city (varchar) - Ciudad
           - state (char) - Estado
           - zip (char) - Código postal
           - contract (bit) - Si tiene contrato

        2. **publishers**
           - pub_id (char) - ID editorial
           - pub_name (varchar) - Nombre editorial
           - city (varchar) - Ciudad
           - state (char) - Estado
           - country (varchar) - País

        3. **titles**
           - title_id (varchar) - ID título
           - title (varchar) - Título libro
           - type (char) - Tipo (business, psychology, etc.)
           - pub_id (char) - ID editorial (FK a publishers)
           - price (money) - Precio
           - advance (money) - Adelanto
           - royalty (int) - Regalías
           - ytd_sales (int) - Ventas año actual
           - notes (varchar) - Notas
           - pubdate (datetime) - Fecha publicación

        4. **titleauthor**
           - au_id (varchar) - ID autor (FK a authors)
           - title_id (varchar) - ID título (FK a titles)
           - au_ord (tinyint) - Orden autor
           - royaltyper (int) - Porcentaje regalías

        5. **sales**
           - stor_id (char) - ID tienda
           - ord_num (varchar) - Número orden
           - ord_date (datetime) - Fecha orden
           - qty (smallint) - Cantidad
           - payterms (varchar) - Términos pago
           - title_id (varchar) - ID título (FK a titles)

        6. **stores**
           - stor_id (char) - ID tienda
           - stor_name (varchar) - Nombre tienda
           - stor_address (varchar) - Dirección
           - city (varchar) - Ciudad
           - state (char) - Estado
           - zip (char) - Código postal

        **RELACIONES:**
        - authors ↔ titleauthor ↔ titles
        - publishers → titles
        - titles → sales → stores
        ".

(** The text of [_create_sql_prompt] around its two fields. *)
Definition prompt_head : string := "
        Eres un experto en SQL Server y la base de datos Pubs. 
        Convierte la siguiente pregunta en lenguaje natural a una consulta SQL válida para SQL Server.
        
        ESQUEMA DE LA BASE DE DATOS:
        ".

Definition prompt_rules : string := "
        
        REGLAS IMPORTANTES:
        1. Devuelve SOLO el código SQL, sin explicaciones
        2. Usa JOINs cuando sea necesario para relacionar tablas
        3. Incluye los campos relevantes según la pregunta
        4. Usa WHERE para filtrar cuando sea apropiado
        5. Usa ORDER BY para ordenar cuando sea relevante
        6. Usa funciones de agregación (COUNT, SUM, AVG) cuando sea necesario
        7. Asegúrate de que la sintaxis sea válida para SQL Server
        8. No incluyas texto adicional, solo el código SQL
        
        PREGUNTA: ".

Definition prompt_tail : string := "
        
        SQL:
        ".

Definition _create_sql_prompt (user_query : string) : string :=
  prompt_head ++ pubs_schema ++ prompt_rules ++ user_query ++ prompt_tail.

Definition preferred_models : list string :=
  ["gemini-1.5-pro"; "gemini-1.5-flash"; "gemini-1.0-pro"; "gemini-pro"].

(** The inner loop of [_get_compatible_model]:
    [for available in available_models: if preferred in available: return]. *)
Fixpoint scan_available (preferred : string) (available_models : list string)
  : option string :=
  match available_models with
  | [] => None
  | available :: rest =>
      if contains preferred available then Some available
      else scan_available preferred rest
  end.

(** The outer loop: [for preferred in preferred_models]. *)
Fixpoint scan_preferred (preferred : list string)
  (available_models : list string) : option string :=
  match preferred with
  | [] => None
  | p :: ps =>
      match scan_available p available_models with
      | Some available => Some available
      | None => scan_preferred ps available_models
      end
  end.

(** The name [_get_compatible_model] builds its model from, as a function
    of the names [genai.list_models()] gave; [None] where the method
    reaches [return None]. *)
Definition select_model_name (available_models : list string)
  : option string :=
  match scan_preferred preferred_models available_models with
  | Some available => Some available
  | None =>
      match available_models with
      | first :: _ => Some first
      | [] => None
      end
  end.

(** [genai.GenerativeModel(name)] *)
Definition new_model (env : Env) (name : string) : Py t (option string) :=
  call (EvGenerativeModel name) (genai_GenerativeModel env name) ;;;
  ret (Some name).

Definition _get_compatible_model (env : Env) : Py t (option string) :=
  try_except
    (available_models <- call EvListModels (genai_list_models env) ;;
     match scan_preferred preferred_models available_models with
     | Some available =>
         ui Sidebar UiInfo ("🎯 Modelo seleccionado: " ++ available) ;;;
         new_model env available
     | None =>
         match available_models with
         | first :: _ =>
             ui Sidebar UiWarning ("⚡ Usando modelo disponible: " ++ first) ;;;
             new_model env first
         | [] => ret None
         end
     end)
    (fun e =>
       ui Sidebar UiError ("Error detectando modelos: " ++ e) ;;;
       ret None).

Definition set_api_key (env : Env) (key : string) : Py t bool :=
  try_except
    (self <- get ;;
     put {| model := model self; api_key := Some key |} ;;;
     call (EvConfigure key) (genai_configure env key) ;;;
     m <- _get_compatible_model env ;;
     self <- get ;;
     put {| model := m; api_key := api_key self |} ;;;
     match m with
     | Some _ => ui Sidebar UiSuccess "✅ Modelo Gemini configurado"
     | None => ui Sidebar UiError "❌ No se pudo inicializar el modelo Gemini"
     end ;;;
     ret true)
    (fun e =>
       ui Sidebar UiError ("❌ Error configurando Gemini: " ++ e) ;;;
       ret false).

Definition is_configured (self : t) : bool :=
  match model self, api_key self with
  | Some _, Some _ => true
  | _, _ => false
  end.

Definition _validate_sql (sql_query : string) : bool :=
  if is_empty sql_query || startswith sql_query "Error:" then false
  else
    let sql_upper := upper sql_query in
    forallb (fun keyword => contains keyword sql_upper) ["SELECT"; "FROM"].

(** The cleaning [generate_sql] applies to the provider's text. *)
Definition clean_response (text : string) : string :=
  let sql_query := strip text in
  strip (replace (replace sql_query "```sql" "") "```" "").

Definition unconfigured_msg : string :=
  "Error: API Key no configurada. Verifica el archivo .env".

(** [self.model.generate_content(prompt)] followed by [.text]; on [None]
    the attribute lookup raises. *)
Definition model_generate_content (env : Env) (m : option string)
  (prompt : string) : Py t string :=
  match m with
  | Some name =>
      call (EvGenerateContent name prompt)
           (generate_content_text env name prompt)
  | None => raise "'NoneType' object has no attribute 'generate_content'"
  end.

Definition generate_sql (env : Env) (natural_language_query : string)
  : Py t string :=
  self <- get ;;
  if negb (is_configured self) then ret unconfigured_msg
  else
    let prompt := _create_sql_prompt natural_language_query in
    try_except
      (text <- model_generate_content env (model self) prompt ;;
       let sql_query := clean_response text in
       if _validate_sql sql_query then ret sql_query
       else ret ("Error: Consulta SQL no válida generada: " ++ sql_query))
      (fun e => ret ("Error: " ++ e)).

(** [os.getenv] is the function [getenv]. *)
Definition _load_api_key_from_env (env : Env)
  (getenv : string -> option string) : Py t unit :=
  let api_key := getenv "GOOGLE_API_KEY" in
  let api_key := if falsy api_key then getenv "GEMINI_API_KEY" else api_key in
  let api_key := if falsy api_key then getenv "GOOGLE_AI_KEY" else api_key in
  match api_key with
  | Some key =>
      if falsy api_key then ret tt else set_api_key env key ;;; ret tt
  | None => ret tt
  end.

(** [SQLGenerator()]: the fields are reset, then the key is looked up. *)
Definition __init__ (env : Env) (getenv : string -> option string)
  : Py t unit :=
  put {| model := None; api_key := None |} ;;;
  _load_api_key_from_env env getenv.

End SQLGenerator.

(** ** database_client.py *)

Module DatabaseClient.

Record t := {
  connection_string : option string
}.

Definition is_configured (self : t) : bool :=
  match connection_string self with
  | Some cs => negb (is_empty cs)
  | None => false
  end.

(** [pyodbc.connect(self.connection_string)]; the driver raises a
    [TypeError] on [None], which [is_configured] keeps from happening. *)
Definition connect (env : Env) (cs : option string) : Py t nat :=
  match cs with
  | Some s => call (EvConnect s) (pyodbc_connect env s)
  | None => raise "argument 1 must be str, not None"
  end.

Definition execute_query (env : Env) (sql_query : string)
  : Py t (option DataFrame) :=
  self <- get ;;
  if negb (is_configured self) then
    ui Page UiError
       "❌ Cadena de conexión no configurada. Verifica el archivo .env" ;;;
    ret None
  else
    try_except
      (conn <- connect env (connection_string self) ;;
       df <- call (EvReadSql sql_query conn)
                  (pd_read_sql_query env sql_query conn) ;;
       call (EvClose conn) (conn_close env conn) ;;;
       ui Page UiSuccess
          ("✅ Consulta ejecutada: " ++ str_of_nat (List.length (rows df))
             ++ " filas obtenidas") ;;;
       ret (Some df))
      (fun e =>
         ui Page UiError ("❌ Error ejecutando consulta: " ++ e) ;;;
         ret None).

Definition test_connection (env : Env) : Py t bool :=
  self <- get ;;
  if negb (is_configured self) then ret false
  else
    try_except
      (conn <- connect env (connection_string self) ;;
       call (EvClose conn) (conn_close env conn) ;;;
       ret true)
      (fun e =>
         ui Sidebar UiError ("❌ Error de conexión: " ++ e) ;;;
         ret false).

Definition set_connection_string (env : Env) (cs : string) : Py t unit :=
  put {| connection_string := Some cs |} ;;;
  ok <- test_connection env ;;
  if ok then ui Sidebar UiSuccess "✅ Conexión a BD configurada y probada"
  else ui Sidebar UiError "❌ No se pudo conectar a la base de datos".

Definition _load_connection_from_env (env : Env)
  (getenv : string -> option string) : Py t unit :=
  let cs := getenv "DB_CONNECTION_STRING" in
  match cs with
  | Some s => if falsy cs then ret tt else set_connection_string env s
  | None => ret tt
  end.

(** [DatabaseClient()] *)
Definition __init__ (env : Env) (getenv : string -> option string)
  : Py t unit :=
  put {| connection_string := None |} ;;;
  _load_connection_from_env env getenv.

End DatabaseClient.

(** ** What the page shows

    The display calls of the Streamlit page, in the order they are made:
    [st.chat_message], [st.markdown], [st.code], [st.spinner], [st.button],
    [st.dataframe], [st.metric]. *)
Inductive widget :=
| StChatMessage (name : string)
| StMarkdown (body : string)
| StCode (body language : string)
| StSpinner (text : string)
| StButton (label key : string)
| StDataframe (df : DataFrame)
| StMetric (label : string) (value : nat).

(** ** chat_interface.py *)

Module ChatInterface.

Record ChatMessage := {
  role : string;
  content : string;
  timestamp : string
}.

(** [st.session_state.messages], the one list every method works on, and
    the number of times the clock has been read. *)
Record t := {
  messages : list ChatMessage;
  clock_reads : nat
}.

(** [datetime.now()] rendered by [render]: the next reading of the clock. *)
Definition now (render : nat -> string) : Py t string :=
  fun s =>
    (Returned (render (clock_reads s)),
     {| messages := messages s; clock_reads := S (clock_reads s) |}, []).

Definition add_message (env : Env) (role content : string) : Py t unit :=
  stamp <- now (now_isoformat env) ;;
  self <- get ;;
  put {| messages :=
           (messages self
              ++ [{| role := role; content := content; timestamp := stamp |}])%list;
         clock_reads := clock_reads self |}.

(** Reading the transcript: [st.session_state.messages]. *)
Definition all_messages (self : t) : list ChatMessage := messages self.

(** The assignment of [clear_chat]; the [st.rerun()] that follows hands
    control back to Streamlit, which runs the script again from the top
    on the session as it is left here. *)
Definition clear_chat : Py t unit :=
  self <- get ;;
  put {| messages := []; clock_reads := clock_reads self |}.

(** [enumerate(l)] *)
Fixpoint enumerate_from {A : Type} (i : nat) (l : list A) : list (nat * A) :=
  match l with
  | [] => []
  | x :: rest => (i, x) :: enumerate_from (S i) rest
  end.

Definition enumerate {A : Type} (l : list A) : list (nat * A) :=
  enumerate_from 0 l.

Definition role_icon (message : ChatMessage) : string :=
  if (role message =? "user")%string then "👤" else "🤖".

Definition role_text (message : ChatMessage) : string :=
  if (role message =? "user")%string then "Usuario" else "Assistant".

(** One turn of the loop of [export_chat]: the three [+=]. *)
Definition export_step (export_text : string) (im : nat * ChatMessage)
  : string :=
  let (i, message) := im in
  let export_text :=
    export_text ++ "## " ++ role_icon message ++ " " ++ role_text message
      ++ " - Mensaje " ++ str_of_nat (i + 1) ++ nl ++ nl in
  let export_text := export_text ++ content message ++ nl ++ nl in
  export_text ++ "---" ++ nl ++ nl.

Definition empty_export : string := "No hay mensajes para exportar".

Definition export_chat (env : Env) : Py t string :=
  self <- get ;;
  match messages self with
  | [] => ret empty_export
  | _ :: _ =>
      let export_text :=
        "# Historial de Chat - Pubs SQL Assistant" ++ nl ++ nl in
      stamp <- now (now_strftime env) ;;
      let export_text := export_text ++ "Exportado: " ++ stamp ++ nl ++ nl in
      ret (fold_left export_step (enumerate (messages self)) export_text)
  end.

(** [initialize_session_state], on the list under the key [messages] of
    the session if there is one. *)
Definition initialize_session_state (stored : option (list ChatMessage))
  : list ChatMessage :=
  match stored with
  | Some l => l
  | None => []
  end.

(** One turn of the loop of [display_messages]. *)
Definition display_message (message : ChatMessage) : list widget :=
  StChatMessage (role message) ::
  if contains "```sql" (content message) then
    let parts := split (content message) "```sql" in
    if (1 <? List.length parts)%nat then
      let sql_part := nth 0 (split (nth 1 parts "") "```") "" in
      let text_part := nth 0 parts "" in
      ((if is_empty (strip text_part) then [] else [StMarkdown text_part])
         ++ [StCode sql_part "sql"])%list
    else [StMarkdown (content message)]
  else [StMarkdown (content message)].

Definition display_messages (self : t) : list widget :=
  flat_map display_message (messages self).

Definition examples : list string :=
  ["Autores de California"; "Libros de negocios";
   "Top 5 libros más vendidos"; "Autores con contrato"].

(** The two numbers [display_chat_stats] shows. *)
Definition total_messages (self : t) : nat := List.length (messages self).

Definition user_messages (self : t) : nat :=
  List.length (filter (fun m => (role m =? "user")%string) (messages self)).

(** The loop over the examples: a button each, and [quick_example] is set
    to the example of each button that answers as pressed. *)
Fixpoint example_buttons (st_button : string -> string -> bool)
  (l : list string) (quick_example : option string)
  : list widget * option string :=
  match l with
  | [] => ([], quick_example)
  | example :: rest =>
      let label := "💬 " ++ example in
      let key := "ex_" ++ example in
      let quick_example :=
        if st_button label key then Some example else quick_example in
      let (shown, quick_example) :=
        example_buttons st_button rest quick_example in
      (StButton label key :: shown, quick_example)
  end.

(** [display_chat_stats]: what it shows, and the value it leaves under
    [quick_example] given the one it found. *)
Definition display_chat_stats (st_button : string -> string -> bool)
  (quick_example : option string) (self : t)
  : list widget * option string :=
  let metrics :=
    [StMetric "💬 Mensajes Totales" (total_messages self);
     StMetric "❓ Preguntas Realizadas" (user_messages self)] in
  if (total_messages self =? 0)%nat then
    let (shown, quick_example) :=
      example_buttons st_button examples quick_example in
    ((metrics ++ [StMarkdown "---"; StMarkdown "**💡 Ejemplos:**"] ++ shown)%list,
     quick_example)
  else (metrics, quick_example).

End ChatInterface.

(** ** app.py *)

(** The test of [process_user_input] on what [generate_sql] returned:
    [sql_query and not sql_query.startswith("Error:")]. *)
Definition caller_takes_as_sql (sql_query : string) : bool :=
  negb (is_empty sql_query) && negb (startswith sql_query "Error:").

Module PubsSQLChatApp.

(** The three components of the application; the transcript of the
    session is held by the first. *)
Record t := {
  chat_interface : ChatInterface.t;
  sql_generator : SQLGenerator.t;
  db_client : DatabaseClient.t
}.

(** What a method of the application leaves behind: the calls its
    components made and what it put on the page. *)
Inductive app_event :=
| Component (e : event)
| Shown (w : widget).

(** Beside the environment of the components: whether a button, known by
    its label and key, answers as pressed, and [df.to_string(max_rows=10)]. *)
Record AppEnv := {
  components : Env;
  st_button : string -> string -> bool;
  to_string_10 : DataFrame -> string
}.

Definition AppPy (A : Type) : Type := t -> outcome A * t * list app_event.

Definition aret {A} (a : A) : AppPy A := fun app => (Returned a, app, []).

Definition abind {A B} (m : AppPy A) (k : A -> AppPy B) : AppPy B :=
  fun app =>
    match m app with
    | (Returned a, app1, t1) =>
        match k a app1 with
        | (r, app2, t2) => (r, app2, (t1 ++ t2)%list)
        end
    | (Raised e, app1, t1) => (Raised e, app1, t1)
    end.

Definition show (w : widget) : AppPy unit :=
  fun app => (Returned tt, app, [Shown w]).

Definition aget : AppPy t := fun app => (Returned app, app, []).

(** [st.error(msg)] called by the application itself. *)
Definition page_error (msg : string) : AppPy unit :=
  fun app => (Returned tt, app, [Component (EvUi Page UiError msg)]).

(** A method of one component run on that component of the application. *)
Definition on_chat {A} (m : Py ChatInterface.t A) : AppPy A :=
  fun app =>
    match m (chat_interface app) with
    | (r, c, tr) =>
        (r, {| chat_interface := c; sql_generator := sql_generator app;
               db_client := db_client app |}, map Component tr)
    end.

Definition on_generator {A} (m : Py SQLGenerator.t A) : AppPy A :=
  fun app =>
    match m (sql_generator app) with
    | (r, g, tr) =>
        (r, {| chat_interface := chat_interface app; sql_generator := g;
               db_client := db_client app |}, map Component tr)
    end.

Definition on_client {A} (m : Py DatabaseClient.t A) : AppPy A :=
  fun app =>
    match m (db_client app) with
    | (r, d, tr) =>
        (r, {| chat_interface := chat_interface app;
               sql_generator := sql_generator app; db_client := d |},
         map Component tr)
    end.

Notation "x <~ m ;; k" := (abind m (fun x => k))
  (at level 61, m at next level, right associativity).
Notation "m ~;; k" := (abind m (fun _ => k))
  (at level 61, right associativity).

Definition generated_message (sql_query : string) : string :=
  "Consulta SQL generada:" ++ nl ++ "```sql" ++ nl ++ sql_query ++ nl ++ "```".

Definition results_message (aenv : AppEnv) (results : DataFrame) : string :=
  "Resultados (" ++ str_of_nat (List.length (rows results)) ++ " filas, "
    ++ str_of_nat (List.length (columns results)) ++ " columnas):" ++ nl
    ++ to_string_10 aenv results.

Definition not_configured_msg : string :=
  "❌ Por favor, configura tu API Key de Google AI en el archivo .env".

(** The body of [if st.button("🚀 Ejecutar Consulta", ...)]. *)
Definition run_query (aenv : AppEnv) (sql_query : string) : AppPy unit :=
  show (StSpinner "Ejecutando consulta en la base de datos...") ~;;
  results <~ on_client
               (DatabaseClient.execute_query (components aenv) sql_query) ;;
  match results with
  | Some df =>
      show (StMarkdown "**Resultados:**") ~;;
      show (StDataframe df) ~;;
      on_chat (ChatInterface.add_message (components aenv) "assistant"
                 (results_message aenv df))
  | None => aret tt
  end.

Definition process_user_input (aenv : AppEnv) (user_input : string)
  : AppPy unit :=
  show (StChatMessage "user") ~;;
  show (StMarkdown user_input) ~;;
  on_chat (ChatInterface.add_message (components aenv) "user" user_input) ~;;
  app <~ aget ;;
  if SQLGenerator.is_configured (sql_generator app) then
    show (StChatMessage "assistant") ~;;
    show (StSpinner "🤖 Generando consulta SQL...") ~;;
    sql_query <~ on_generator
                   (SQLGenerator.generate_sql (components aenv) user_input) ;;
    if caller_takes_as_sql sql_query then
      show (StMarkdown "**Consulta SQL generada:**") ~;;
      show (StCode sql_query "sql") ~;;
      on_chat (ChatInterface.add_message (components aenv) "assistant"
                 (generated_message sql_query)) ~;;
      app <~ aget ;;
      if DatabaseClient.is_configured (db_client app) then
        let key :=
          "run_" ++ str_of_nat
                      (List.length (ChatInterface.messages (chat_interface app))) in
        show (StButton "🚀 Ejecutar Consulta" key) ~;;
        if st_button aenv "🚀 Ejecutar Consulta" key
        then run_query aenv sql_query
        else aret tt
      else aret tt
    else
      page_error ("❌ Error generando SQL: " ++ sql_query) ~;;
      on_chat (ChatInterface.add_message (components aenv) "assistant"
                 ("Error: " ++ sql_query))
  else
    show (StChatMessage "assistant") ~;;
    page_error not_configured_msg ~;;
    on_chat (ChatInterface.add_message (components aenv) "assistant"
               not_configured_msg).

(** [_initialize_components] *)
Definition _initialize_components (aenv : AppEnv)
  (getenv : string -> option string) : AppPy unit :=
  let api_key := getenv "GOOGLE_API_KEY" in
  match api_key with
  | Some key =>
      if falsy api_key then aret tt
      else on_generator (SQLGenerator.set_api_key (components aenv) key) ~;;
           aret tt
  | None => aret tt
  end ~;;
  let db_connection := getenv "DB_CONNECTION_STRING" in
  match db_connection with
  | Some cs =>
      if falsy db_connection then aret tt
      else on_client (DatabaseClient.set_connection_string (components aenv) cs)
  | None => aret tt
  end.

(** [PubsSQLChatApp()]: the three components are built, the transcript
    from what the session holds under [messages] and the other two from the
    process environment, then [_initialize_components] runs. *)
Definition __init__ (aenv : AppEnv) (getenv : string -> option string)
  (stored : option (list ChatInterface.ChatMessage)) : AppPy unit :=
  on_chat
    (self <- get ;;
     put {| ChatInterface.messages :=
              ChatInterface.initialize_session_state stored;
            ChatInterface.clock_reads := ChatInterface.clock_reads self |}) ~;;
  on_generator (SQLGenerator.__init__ (components aenv) getenv) ~;;
  on_client (DatabaseClient.__init__ (components aenv) getenv) ~;;
  _initialize_components aenv getenv.

End PubsSQLChatApp.

(** ** The words of the specification *)

(** [kw] occurs in [s] as a case-insensitive substring: some stretch of
    [s] equals [kw] once the case of letters is set aside. *)
Definition occurs_ignoring_case (kw s : string) : Prop :=
  exists pre mid post, s = pre ++ mid ++ post /\ upper mid = upper kw.

(** [s.endswith(w)] *)
Definition endswith (s w : string) : bool :=
  startswith (reverse s) (reverse w).

(** [s] neither begins nor ends with a whitespace character. *)
Definition trimmed (s : string) : Prop :=
  forall w, In w whitespace -> startswith s w = false /\ endswith s w = false.

(** Text made of ASCII characters only, and bytes that all belong to
    characters beyond ASCII. *)
Fixpoint is_ascii (s : string) : bool :=
  match s with
  | EmptyString => true
  | String c t => (nat_of_ascii c <? 128)%nat && is_ascii t
  end.

Fixpoint is_high (s : string) : bool :=
  match s with
  | EmptyString => true
  | String c t => (128 <=? nat_of_ascii c)%nat && is_high t
  end.

(** The bytes a UTF-8 character has after its first, and the shape of
    the UTF-8 encoding of a character beyond ASCII. *)
Definition is_continuation (c : ascii) : bool :=
  ((128 <=? nat_of_ascii c) && (nat_of_ascii c <? 192))%nat.

Fixpoint all_continuation (s : string) : bool :=
  match s with
  | EmptyString => true
  | String c t => is_continuation c && all_continuation t
  end.

Definition key_ok (k : string) : bool :=
  match k with
  | EmptyString => false
  | String c rest =>
      (2 <=? utf8_len c)%nat
      && (String.length rest =? utf8_len c - 1)%nat
      && all_continuation rest
  end.

(** [s.upper()] as it is on ASCII text: byte by byte. *)
Fixpoint upper_ascii (s : string) : string :=
  match s with
  | EmptyString => EmptyString
  | String c t => String (upper_char c) (upper_ascii t)
  end.

(** A search for a stretch of [s] equal to [kw] up to case: among the
    beginnings of [s] of at most [n] bytes, then from every place of [s]. *)
Fixpoint some_beginning_is (kw s : string) (n : nat) : bool :=
  String.eqb (upper (take n s)) (upper kw) ||
  match n with
  | O => false
  | S k => some_beginning_is kw s k
  end.

Fixpoint occurs_somewhere (kw s : string) : bool :=
  some_beginning_is kw s (String.length s) ||
  match s with
  | EmptyString => false
  | String _ t => occurs_somewhere kw t
  end.

Definition fence : string := "```".
Definition sql_fence : string := "```sql".

(** The three ways a call of [generate_sql] fails: no credential or model
    (Unconfigured), the provider raises (ProviderError), the cleaned text
    does not pass the check (InvalidSqlShape). *)
Definition generate_fails (env : Env) (q : string) (self : SQLGenerator.t)
  : Prop :=
  SQLGenerator.is_configured self = false \/
  (SQLGenerator.is_configured self = true /\
   exists m e,
     SQLGenerator.model self = Some m /\
     generate_content_text env m (SQLGenerator._create_sql_prompt q)
       = Raised e) \/
  (SQLGenerator.is_configured self = true /\
   exists m text,
     SQLGenerator.model self = Some m /\
     generate_content_text env m (SQLGenerator._create_sql_prompt q)
       = Returned text /\
     SQLGenerator._validate_sql (SQLGenerator.clean_response text) = false).

(** The model [_get_compatible_model] ends with, read off the environment:
    the selected name when the models could be listed and the selected one
    could be built. *)
Definition detected_model (env : Env) : option string :=
  match genai_list_models env with
  | Returned available =>
      match SQLGenerator.select_model_name available with
      | Some name =>
          match genai_GenerativeModel env name with
          | Returned _ => Some name
          | Raised _ => None
          end
      | None => None
      end
  | Raised _ => None
  end.

(** Model detection at configuration time fails when listing the models
    raises, when the account has no model (NoModelAvailable), or when
    building the selected model raises. *)
Definition model_detection_fails (env : Env) : Prop :=
  (exists e, genai_list_models env = Raised e) \/
  genai_list_models env = Returned [] \/
  (exists available name e,
     genai_list_models env = Returned available /\
     SQLGenerator.select_model_name available = Some name /\
     genai_GenerativeModel env name = Raised e).

(** The ways a call of [execute_query] fails: no connection string
    (Unconfigured), or the driver raises while connecting, running the
    statement and reading its rows, or closing (QueryExecutionError). *)
Definition execute_fails (env : Env) (sql : string) (self : DatabaseClient.t)
  : Prop :=
  DatabaseClient.is_configured self = false \/
  exists cs,
    DatabaseClient.connection_string self = Some cs /\
    ((exists e, pyodbc_connect env cs = Raised e) \/
     (exists conn,
        pyodbc_connect env cs = Returned conn /\
        ((exists e, pd_read_sql_query env sql conn = Raised e) \/
         (exists e, conn_close env conn = Raised e)))).

(** The connections a trace shows opened and not closed afterwards; the
    [k]-th connection the driver opens in a run is the one its oracle
    names, so an opening is matched with the closing of the same handle. *)
Fixpoint closed_later (conn : nat) (tr : list event) : bool :=
  match tr with
  | [] => false
  | EvClose c :: rest => Nat.eqb c conn || closed_later conn rest
  | _ :: rest => closed_later conn rest
  end.

(** Every connection opened during the trace is closed before its end.
    [opened] gives the handle the driver returned for a connection string,
    if it returned one. *)
Fixpoint connections_closed (opened : string -> option nat) (tr : list event)
  : bool :=
  match tr with
  | [] => true
  | EvConnect cs :: rest =>
      match opened cs with
      | Some conn => closed_later conn rest && connections_closed opened rest
      | None => connections_closed opened rest
      end
  | _ :: rest => connections_closed opened rest
  end.

Definition opened_by (env : Env) (cs : string) : option nat :=
  match pyodbc_connect env cs with
  | Returned conn => Some conn
  | Raised _ => None
  end.

Definition is_connect (ev : event) : bool :=
  match ev with
  | EvConnect _ => true
  | _ => false
  end.

(** [N] calls of [add_message], one after the other, with the given
    roles and contents. *)
Fixpoint add_messages (env : Env) (args : list (string * string))
  : Py ChatInterface.t unit :=
  match args with
  | [] => ret tt
  | (role, content) :: rest =>
      ChatInterface.add_message env role content ;;; add_messages env rest
  end.

(** The messages those calls are to add when the clock has been read
    [reads] times before: each carries the reading of its own call. *)
Fixpoint stamped (env : Env) (reads : nat) (args : list (string * string))
  : list ChatInterface.ChatMessage :=
  match args with
  | [] => []
  | (role, content) :: rest =>
      {| ChatInterface.role := role;
         ChatInterface.content := content;
         ChatInterface.timestamp := now_isoformat env reads |}
      :: stamped env (S reads) rest
  end.

Definition role_content (m : ChatInterface.ChatMessage) : string * string :=
  (ChatInterface.role m, ChatInterface.content m).

(** The block of the export for the message at position [k], counted from
    zero: a heading with the role label and the number [k + 1], the
    content, a rule. *)
Definition role_label (m : ChatInterface.ChatMessage) : string :=
  if (ChatInterface.role m =? "user")%string then "👤 Usuario"
  else "🤖 Assistant".

Definition block_heading (k : nat) (m : ChatInterface.ChatMessage) : string :=
  "## " ++ role_label m ++ " - Mensaje " ++ str_of_nat (k + 1) ++ nl ++ nl.

Definition message_block (k : nat) (m : ChatInterface.ChatMessage) : string :=
  block_heading k m ++ ChatInterface.content m ++ nl ++ nl ++ "---" ++ nl ++ nl.

Definition export_header (stamp : string) : string :=
  "# Historial de Chat - Pubs SQL Assistant" ++ nl ++ nl
    ++ "Exportado: " ++ stamp ++ nl ++ nl.

(** The blocks one after the other. *)
Definition join (blocks : list string) : string :=
  fold_right append "" blocks.

(** Kinds of calls, to count them in a trace. *)
Definition is_configure (ev : event) : bool :=
  match ev with
  | EvConfigure _ => true
  | _ => false
  end.

Definition is_list_models (ev : event) : bool :=
  match ev with
  | EvListModels => true
  | _ => false
  end.

Definition is_read_sql (ev : event) : bool :=
  match ev with
  | EvReadSql _ _ => true
  | _ => false
  end.

Definition is_provider_request (ev : event) : bool :=
  match ev with
  | EvGenerateContent _ _ => true
  | _ => false
  end.

Definition count_calls (kind : event -> bool) (tr : list event) : nat :=
  List.length (filter kind tr).

Definition is_code (w : widget) : bool :=
  match w with
  | StCode _ _ => true
  | _ => false
  end.

Definition is_button (w : widget) : bool :=
  match w with
  | StButton _ _ => true
  | _ => false
  end.

(** The character [c] occurs in [s]. *)
Fixpoint has_char (c : ascii) (s : string) : bool :=
  match s with
  | EmptyString => false
  | String d t => Ascii.eqb c d || has_char c t
  end.

(** The message [process_user_input] stores for the question, the
    message it stores as the [k]-th reading of the clock after that, and
    the application once [msgs] have been added to its transcript. *)
Definition asked (aenv : PubsSQLChatApp.AppEnv) (input : string)
  (app : PubsSQLChatApp.t) : ChatInterface.ChatMessage :=
  {| ChatInterface.role := "user";
     ChatInterface.content := input;
     ChatInterface.timestamp :=
       now_isoformat (PubsSQLChatApp.components aenv)
         (ChatInterface.clock_reads (PubsSQLChatApp.chat_interface app)) |}.

Definition replied (aenv : PubsSQLChatApp.AppEnv) (app : PubsSQLChatApp.t)
  (k : nat) (text : string) : ChatInterface.ChatMessage :=
  {| ChatInterface.role := "assistant";
     ChatInterface.content := text;
     ChatInterface.timestamp :=
       now_isoformat (PubsSQLChatApp.components aenv)
         (ChatInterface.clock_reads (PubsSQLChatApp.chat_interface app) + k) |}.

Definition with_messages (app : PubsSQLChatApp.t)
  (msgs : list ChatInterface.ChatMessage) : PubsSQLChatApp.t :=
  {| PubsSQLChatApp.chat_interface :=
       {| ChatInterface.messages :=
            (ChatInterface.messages (PubsSQLChatApp.chat_interface app)
               ++ msgs)%list;
          ChatInterface.clock_reads :=
            ChatInterface.clock_reads (PubsSQLChatApp.chat_interface app)
            + List.length msgs |};
     PubsSQLChatApp.sql_generator := PubsSQLChatApp.sql_generator app;
     PubsSQLChatApp.db_client := PubsSQLChatApp.db_client app |}.

(** The key of the button that runs the statement. *)
Definition run_key (app : PubsSQLChatApp.t) : string :=
  "run_" ++ str_of_nat
              (List.length
                 (ChatInterface.messages (PubsSQLChatApp.chat_interface app))
               + 2).

Definition run_label : string := "🚀 Ejecutar Consulta".

(** What the page shows up to the call of [generate_sql]. *)
Definition shown_question (input : string)
  : list PubsSQLChatApp.app_event :=
  [PubsSQLChatApp.Shown (StChatMessage "user");
   PubsSQLChatApp.Shown (StMarkdown input);
   PubsSQLChatApp.Shown (StChatMessage "assistant");
   PubsSQLChatApp.Shown (StSpinner "🤖 Generando consulta SQL...")].

Definition shown_sql (r : string) : list PubsSQLChatApp.app_event :=
  [PubsSQLChatApp.Shown (StMarkdown "**Consulta SQL generada:**");
   PubsSQLChatApp.Shown (StCode r "sql")].

(** What running the statement adds to the page and to the transcript. *)
Definition shown_results (res : option DataFrame)
  : list PubsSQLChatApp.app_event :=
  match res with
  | Some df =>
      [PubsSQLChatApp.Shown (StMarkdown "**Resultados:**");
       PubsSQLChatApp.Shown (StDataframe df)]
  | None => []
  end.

Definition results_reply (aenv : PubsSQLChatApp.AppEnv)
  (app : PubsSQLChatApp.t) (res : option DataFrame)
  : list ChatInterface.ChatMessage :=
  match res with
  | Some df => [replied aenv app 2 (PubsSQLChatApp.results_message aenv df)]
  | None => []
  end.

(** The value of a variable of the process environment when it is set
    and not empty, and the key [SQLGenerator()] looks up: the first of its
    three variables that has one. *)
Definition set_value (v : option string) : option string :=
  match v with
  | Some s => if is_empty s then None else Some s
  | None => None
  end.

Definition first_key (getenv : string -> option string) : option string :=
  match set_value (getenv "GOOGLE_API_KEY") with
  | Some key => Some key
  | None =>
      match set_value (getenv "GEMINI_API_KEY") with
      | Some key => Some key
      | None => set_value (getenv "GOOGLE_AI_KEY")
      end
  end.

(** The calls of one kind the components made, in a trace of the
    application. *)
Definition count_component_calls (kind : event -> bool)
  (tr : list PubsSQLChatApp.app_event) : nat :=
  List.length
    (filter (fun ev =>
               match ev with
               | PubsSQLChatApp.Component e => kind e
               | PubsSQLChatApp.Shown _ => false
               end) tr).

(** A step of the application that returns, leaves the transcript alone
    and makes [nc] calls of [genai.configure] and [nk] of
    [pyodbc.connect]. *)
Definition makes_calls {A : Type} (m : PubsSQLChatApp.AppPy A) (nc nk : nat)
  : Prop :=
  forall app,
    exists a final tr,
      m app = (Returned a, final, tr) /\
      PubsSQLChatApp.chat_interface final = PubsSQLChatApp.chat_interface app /\
      count_component_calls is_configure tr = nc /\
      count_component_calls is_connect tr = nk.

(** The two messages [execute_query] displays when it returns [None]. *)
Definition unconfigured_shown : event :=
  EvUi Page UiError
    "❌ Cadena de conexión no configurada. Verifica el archivo .env".

Definition failure_shown (e : exn) : event :=
  EvUi Page UiError ("❌ Error ejecutando consulta: " ++ e).

(** ** Sample objects and environments *)

Definition fresh_generator : SQLGenerator.t :=
  {| SQLGenerator.model := None; SQLGenerator.api_key := None |}.

Definition ready_generator : SQLGenerator.t :=
  {| SQLGenerator.model := Some "models/gemini-1.5-flash";
     SQLGenerator.api_key := Some "key" |}.

Definition sample_frame : DataFrame :=
  {| columns := ["au_lname"; "state"]; rows := [["White"; "CA"]] |}.

(** Everything outside answers. *)
Definition env_ok : Env :=
  {| genai_configure := fun _ => Returned tt;
     genai_list_models :=
       Returned ["models/gemini-pro"; "models/gemini-1.5-flash"];
     genai_GenerativeModel := fun _ => Returned tt;
     generate_content_text := fun _ _ =>
       Returned ("```sql" ++ nl ++ "SELECT au_lname FROM authors" ++ nl ++ "```");
     pyodbc_connect := fun _ => Returned 7;
     pd_read_sql_query := fun _ _ => Returned sample_frame;
     conn_close := fun _ => Returned tt;
     now_isoformat := fun n => "2025-01-01T00:00:0" ++ str_of_nat n;
     now_strftime := fun n => "2025-01-01 00:00:0" ++ str_of_nat n |}.

(** The server connects and then refuses the statement. *)
Definition env_read_fails : Env :=
  {| genai_configure := genai_configure env_ok;
     genai_list_models := genai_list_models env_ok;
     genai_GenerativeModel := genai_GenerativeModel env_ok;
     generate_content_text := generate_content_text env_ok;
     pyodbc_connect := pyodbc_connect env_ok;
     pd_read_sql_query := fun _ _ => Raised "Incorrect syntax near 'SELEC'";
     conn_close := conn_close env_ok;
     now_isoformat := now_isoformat env_ok;
     now_strftime := now_strftime env_ok |}.

(** The key is taken, listing the models is refused. *)
Definition env_listing_fails : Env :=
  {| genai_configure := genai_configure env_ok;
     genai_list_models := Raised "403 permission denied";
     genai_GenerativeModel := genai_GenerativeModel env_ok;
     generate_content_text := generate_content_text env_ok;
     pyodbc_connect := pyodbc_connect env_ok;
     pd_read_sql_query := pd_read_sql_query env_ok;
     conn_close := conn_close env_ok;
     now_isoformat := now_isoformat env_ok;
     now_strftime := now_strftime env_ok |}.

Definition empty_chat : ChatInterface.t :=
  {| ChatInterface.messages := []; ChatInterface.clock_reads := 0 |}.

Definition one_question : ChatInterface.t :=
  {| ChatInterface.messages :=
       [{| ChatInterface.role := "user";
           ChatInterface.content := "Autores de California";
           ChatInterface.timestamp := "2025-01-01T00:00:00" |}];
     ChatInterface.clock_reads := 1 |}.

(** The provider refuses the key. *)
Definition env_key_refused : Env :=
  {| genai_configure := fun _ => Raised "API key not valid";
     genai_list_models := genai_list_models env_ok;
     genai_GenerativeModel := genai_GenerativeModel env_ok;
     generate_content_text := generate_content_text env_ok;
     pyodbc_connect := pyodbc_connect env_ok;
     pd_read_sql_query := pd_read_sql_query env_ok;
     conn_close := conn_close env_ok;
     now_isoformat := now_isoformat env_ok;
     now_strftime := now_strftime env_ok |}.

(** The page: every button answers as pressed, or none does. *)
Definition aenv_pressed : PubsSQLChatApp.AppEnv :=
  {| PubsSQLChatApp.components := env_ok;
     PubsSQLChatApp.st_button := fun _ _ => true;
     PubsSQLChatApp.to_string_10 := fun _ => "  au_lname state" |}.

Definition aenv_idle : PubsSQLChatApp.AppEnv :=
  {| PubsSQLChatApp.components := env_ok;
     PubsSQLChatApp.st_button := fun _ _ => false;
     PubsSQLChatApp.to_string_10 := fun _ => "  au_lname state" |}.

(** The provider is reached and raises on the request. *)
Definition env_provider_fails : Env :=
  {| genai_configure := genai_configure env_ok;
     genai_list_models := genai_list_models env_ok;
     genai_GenerativeModel := genai_GenerativeModel env_ok;
     generate_content_text := fun _ _ => Raised "429 quota exceeded";
     pyodbc_connect := pyodbc_connect env_ok;
     pd_read_sql_query := pd_read_sql_query env_ok;
     conn_close := conn_close env_ok;
     now_isoformat := now_isoformat env_ok;
     now_strftime := now_strftime env_ok |}.

Definition aenv_provider_fails : PubsSQLChatApp.AppEnv :=
  {| PubsSQLChatApp.components := env_provider_fails;
     PubsSQLChatApp.st_button := fun _ _ => true;
     PubsSQLChatApp.to_string_10 := fun _ => "  au_lname state" |}.

(** The provider answers with a text that holds a sharp s. *)
Definition env_sharp_s : Env :=
  {| genai_configure := genai_configure env_ok;
     genai_list_models := genai_list_models env_ok;
     genai_GenerativeModel := genai_GenerativeModel env_ok;
     generate_content_text := fun _ _ => Returned "ßelect 1 from t";
     pyodbc_connect := pyodbc_connect env_ok;
     pd_read_sql_query := pd_read_sql_query env_ok;
     conn_close := conn_close env_ok;
     now_isoformat := now_isoformat env_ok;
     now_strftime := now_strftime env_ok |}.

Definition unset_client : DatabaseClient.t :=
  {| DatabaseClient.connection_string := None |}.

Definition ready_client : DatabaseClient.t :=
  {| DatabaseClient.connection_string := Some "DSN=pubs" |}.

Definition app_ready : PubsSQLChatApp.t :=
  {| PubsSQLChatApp.chat_interface := empty_chat;
     PubsSQLChatApp.sql_generator := ready_generator;
     PubsSQLChatApp.db_client := ready_client |}.

Definition app_fresh : PubsSQLChatApp.t :=
  {| PubsSQLChatApp.chat_interface := empty_chat;
     PubsSQLChatApp.sql_generator := fresh_generator;
     PubsSQLChatApp.db_client := unset_client |}.

(** * Properties *)

(** ** Strings *)

Example upper_mixed : upper "Select * from t;" = "SELECT * FROM T;".
Proof. reflexivity. Qed.

Example strip_both : strip (String "009" " a b  " ++ String "010" "") = "a b".
Proof. reflexivity. Qed.

(** Beyond ASCII: the long s becomes S, the sharp s becomes SS, a ligature
    becomes its letters, and the no-break space and the em space are
    whitespace. *)
Example upper_beyond_ascii :
  upper "ſelect * from t" = "SELECT * FROM T" /\
  upper "ßelect 1 from t" = "SSELECT 1 FROM T" /\
  upper "ﬀ" = "FF" /\
  upper "señor" = "SEÑOR".
Proof. repeat split; reflexivity. Qed.

Example strip_beyond_ascii :
  strip (of_bytes [194; 160] ++ "SELECT 1 FROM t" ++ of_bytes [226; 128; 131])
  = "SELECT 1 FROM t" /\
  SQLGenerator.clean_response
    (of_bytes [194; 160] ++ "```sql" ++ nl ++ "SELECT 1 FROM t" ++ nl ++ "```")
  = "SELECT 1 FROM t".
Proof. split; reflexivity. Qed.

Example replace_fences :
  replace (replace "```sql SELECT 1 ```" "```sql" "") "```" "" = " SELECT 1 ".
Proof. reflexivity. Qed.

Example replace_no_overlap : replace "aaaaa" "aa" "b" = "bba".
Proof. reflexivity. Qed.

Example str_of_nat_12 : str_of_nat 12 = "12" /\ str_of_nat 0 = "0".
Proof. split; reflexivity. Qed.

Lemma append_nil_r (s : string) : s ++ "" = s.
Proof. induction s; simpl; congruence. Qed.

Lemma append_assoc (a b c : string) : (a ++ b) ++ c = a ++ b ++ c.
Proof. induction a; simpl; congruence. Qed.

Lemma startswith_iff (s p : string) :
  startswith s p = true <-> exists t, s = p ++ t.
Proof.
  revert s; induction p as [|a p IH]; intros s; simpl.
  - split; [intros _; now exists s | reflexivity].
  - destruct s as [|b s].
    + split; [discriminate | intros [t Ht]; discriminate].
    + rewrite andb_true_iff, Ascii.eqb_eq, IH.
      split.
      * intros [-> [t ->]]. now exists t.
      * intros [t Ht]. injection Ht as -> ->. split; [reflexivity | now exists t].
Qed.

Lemma contains_unfold (p s : string) :
  contains p s =
  startswith s p ||
  match s with EmptyString => false | String _ t => contains p t end.
Proof. destruct s; reflexivity. Qed.

Lemma contains_iff (p s : string) :
  contains p s = true <-> exists a b, s = a ++ p ++ b.
Proof.
  split.
  - induction s as [|c s IH]; rewrite contains_unfold, orb_true_iff;
      intros [H|H]; try discriminate.
    + apply startswith_iff in H as [t Ht]. now exists "", t.
    + apply startswith_iff in H as [t Ht]. now exists "", t.
    + destruct (IH H) as (a & b & ->). now exists (String c a), b.
  - intros (a & b & ->). induction a as [|c a IH].
    + rewrite contains_unfold, orb_true_iff. left.
      apply startswith_iff. now exists b.
    + simpl. rewrite IH. apply orb_true_r.
Qed.

Lemma contains_false_mono (p q s : string) :
  contains p q = true -> contains p s = false -> contains q s = false.
Proof.
  intros Hpq Hps. destruct (contains q s) eqn:Hqs; [|reflexivity].
  apply contains_iff in Hpq as (a & b & ->).
  apply contains_iff in Hqs as (c & d & ->).
  assert (contains p (c ++ (a ++ p ++ b) ++ d) = true) as H.
  { apply contains_iff. exists (c ++ a), (b ++ d).
    now rewrite !append_assoc. }
  congruence.
Qed.

Lemma upper_ascii_app (a b : string) :
  upper_ascii (a ++ b) = upper_ascii a ++ upper_ascii b.
Proof. induction a; simpl; congruence. Qed.

Lemma upper_ascii_split (s x y : string) :
  upper_ascii s = x ++ y ->
  exists a b, s = a ++ b /\ upper_ascii a = x /\ upper_ascii b = y.
Proof.
  revert s; induction x as [|c x IH]; intros s H.
  - now exists "", s.
  - destruct s as [|d s]; [discriminate|]. simpl in H.
    injection H as Hc Hs. destruct (IH _ Hs) as (a & b & -> & Ha & Hb).
    exists (String d a), b. simpl. now rewrite Hc, Ha.
Qed.

Lemma is_ascii_app (a b : string) :
  is_ascii (a ++ b) = is_ascii a && is_ascii b.
Proof.
  induction a as [|c a IH]; [reflexivity|]. simpl.
  now rewrite IH, andb_assoc.
Qed.

Lemma utf8_len_ascii (c : ascii) :
  (nat_of_ascii c <? 128)%nat = true -> utf8_len c = 1.
Proof.
  intros H. unfold utf8_len. apply Nat.ltb_lt in H.
  destruct (nat_of_ascii c <? 192)%nat eqn:E; [reflexivity|].
  apply Nat.ltb_ge in E. lia.
Qed.

(** On ASCII text [upper] works byte by byte. *)
Lemma upper_is_ascii (s : string) :
  is_ascii s = true -> upper s = upper_ascii s.
Proof.
  unfold upper. induction s as [|c s IH]; [reflexivity|].
  cbn [is_ascii upper_from upper_ascii]. intros H.
  apply andb_true_iff in H as [Hc Hs].
  now rewrite (utf8_len_ascii c Hc), Nat.eqb_refl, (IH Hs).
Qed.

(** On ASCII text the test of the program, [kw in s.upper()] for a
    keyword written in capitals, is the occurrence of [kw] in [s] up to
    case. *)
Lemma contains_upper_ascii_iff (kw s : string) :
  is_ascii s = true -> upper kw = kw ->
  (contains kw (upper s) = true <-> occurs_ignoring_case kw s).
Proof.
  intros Hs Hkw. rewrite (upper_is_ascii s Hs), contains_iff. split.
  - intros (x & y & H).
    apply upper_ascii_split in H as (a & r & -> & Ha & Hr).
    apply upper_ascii_split in Hr as (m & b & -> & Hm & Hb).
    rewrite !is_ascii_app, !andb_true_iff in Hs.
    destruct Hs as (_ & Hmid & _).
    exists a, m, b. split; [reflexivity|].
    rewrite (upper_is_ascii m Hmid). congruence.
  - intros (pre & mid & post & -> & Hmid).
    rewrite !is_ascii_app, !andb_true_iff in Hs.
    destruct Hs as (_ & Hm & _). rewrite (upper_is_ascii mid Hm) in Hmid.
    exists (upper_ascii pre), (upper_ascii post).
    rewrite !upper_ascii_app. congruence.
Qed.

(** *** [strip] *)

Lemma reverse_app (a b : string) : reverse (a ++ b) = reverse b ++ reverse a.
Proof.
  induction a as [|c a IH]; simpl.
  - now rewrite append_nil_r.
  - now rewrite IH, append_assoc.
Qed.

Lemma reverse_involutive (s : string) : reverse (reverse s) = s.
Proof.
  induction s as [|c s IH]; [reflexivity|]. simpl.
  now rewrite reverse_app, IH.
Qed.

Lemma startswith_app_l (a b p : string) :
  startswith a p = true -> startswith (a ++ b) p = true.
Proof.
  intros H. apply startswith_iff in H as [u ->]. apply startswith_iff.
  exists (u ++ b). now rewrite append_assoc.
Qed.

Lemma strip_leading_suffix (ws : list string) (k : nat) (s : string) :
  exists pre, s = pre ++ strip_leading ws k s.
Proof.
  revert k; induction s as [|c s IH]; intros k.
  - now exists "".
  - destruct k as [|k]; cbn [strip_leading].
    + destruct (find (fun w => startswith (String c s) w) ws) as [w|].
      * destruct (IH (String.length w - 1)) as [pre Hpre].
        exists (String c pre). simpl. congruence.
      * now exists "".
    + destruct (IH k) as [pre Hpre]. exists (String c pre). simpl. congruence.
Qed.

Lemma strip_leading_clean (ws : list string) (k : nat) (s w : string) :
  (forall x, In x ws -> x <> "") -> In w ws ->
  startswith (strip_leading ws k s) w = false.
Proof.
  intros Hne Hw. revert k; induction s as [|c s IH]; intros k.
  - specialize (Hne w Hw). destruct w; [congruence | reflexivity].
  - destruct k as [|k]; cbn [strip_leading]; [|apply IH].
    destruct (find (fun x => startswith (String c s) x) ws) as [x|] eqn:Hf;
      [apply IH|].
    exact (find_none _ _ Hf w Hw).
Qed.

Lemma strip_leading_fixed (ws : list string) (s : string) :
  (forall w, In w ws -> startswith s w = false) -> strip_leading ws 0 s = s.
Proof.
  intros H. destruct s as [|c s]; [reflexivity|]. cbn [strip_leading].
  destruct (find (fun w => startswith (String c s) w) ws) as [w|] eqn:Hf;
    [|reflexivity].
  apply find_some in Hf as [Hin Hw]. rewrite (H w Hin) in Hw. discriminate.
Qed.

Lemma whitespace_not_empty (w : string) : In w whitespace -> w <> "".
Proof.
  intros Hin ->. revert Hin. unfold whitespace. cbn.
  intros H. repeat (destruct H as [H|H]; [discriminate H|]). exact H.
Qed.

Lemma reversed_whitespace_not_empty (w : string) :
  In w (map reverse whitespace) -> w <> "".
Proof.
  intros Hin ->. revert Hin. unfold whitespace. cbn.
  intros H. repeat (destruct H as [H|H]; [discriminate H|]). exact H.
Qed.

Lemma lstrip_suffix (s : string) : exists w, s = w ++ lstrip s.
Proof. apply strip_leading_suffix. Qed.

Lemma rstrip_prefix (s : string) : exists w, s = rstrip s ++ w.
Proof.
  unfold rstrip.
  destruct (strip_leading_suffix (map reverse whitespace) 0 (reverse s))
    as [pre Hpre].
  exists (reverse pre). rewrite <- reverse_app, <- Hpre.
  now rewrite reverse_involutive.
Qed.

Lemma strip_infix (s : string) : exists a b, s = a ++ strip s ++ b.
Proof.
  unfold strip. destruct (rstrip_prefix s) as [b Hb].
  destruct (lstrip_suffix (rstrip s)) as [a Ha].
  exists a, b. rewrite <- append_assoc, <- Ha. exact Hb.
Qed.

Lemma contains_strip (p s : string) :
  contains p s = false -> contains p (strip s) = false.
Proof.
  intros H. destruct (contains p (strip s)) eqn:Hc; [|reflexivity].
  apply contains_iff in Hc as (x & y & Hxy).
  destruct (strip_infix s) as (a & b & Hs).
  assert (contains p s = true) as Ht.
  { apply contains_iff. exists (a ++ x), (y ++ b).
    rewrite Hs at 1. rewrite Hxy. now rewrite !append_assoc. }
  congruence.
Qed.

Lemma strip_trimmed (s : string) : trimmed (strip s).
Proof.
  intros w Hw. split.
  - apply strip_leading_clean; [exact whitespace_not_empty | exact Hw].
  - unfold strip, endswith.
    destruct (lstrip_suffix (rstrip s)) as [pre Hpre].
    destruct (startswith (reverse (lstrip (rstrip s))) (reverse w)) eqn:He;
      [|reflexivity].
    apply (startswith_app_l _ (reverse pre)) in He.
    rewrite <- reverse_app, <- Hpre in He. unfold rstrip in He.
    rewrite reverse_involutive in He.
    rewrite strip_leading_clean in He; [discriminate| |].
    + exact reversed_whitespace_not_empty.
    + now apply in_map.
Qed.

Lemma strip_fixed (s : string) : trimmed s -> strip s = s.
Proof.
  intros H. unfold strip, rstrip.
  rewrite (strip_leading_fixed (map reverse whitespace) (reverse s)).
  - rewrite reverse_involutive. apply strip_leading_fixed.
    intros w Hw. now apply H.
  - intros w Hw. apply in_map_iff in Hw as (x & <- & Hx). now apply H.
Qed.

(** *** [replace] *)

Lemma drop_nil (k : nat) : drop k "" = "".
Proof. destruct k; reflexivity. Qed.

Lemma replace_from_drop (k : nat) (old new s : string) :
  replace_from k old new s = replace_from 0 old new (drop k s).
Proof.
  revert k; induction s as [|c s IH]; intros k.
  - now rewrite drop_nil.
  - destruct k as [|k]; [reflexivity|]. simpl. apply IH.
Qed.

Lemma replace_hit (s old new : string) :
  old <> "" -> startswith s old = true ->
  replace s old new = new ++ replace (drop (String.length old) s) old new.
Proof.
  intros Hold Hp. unfold replace. destruct s as [|c s].
  - destruct old; [congruence | discriminate].
  - cbn [replace_from]. rewrite Hp, replace_from_drop.
    destruct old as [|a old]; [congruence|].
    simpl. now rewrite Nat.sub_0_r.
Qed.

Lemma replace_miss (c : ascii) (s old new : string) :
  startswith (String c s) old = false ->
  replace (String c s) old new = String c (replace s old new).
Proof. intros Hp. unfold replace. cbn [replace_from]. now rewrite Hp. Qed.

Lemma length_drop (k : nat) (s : string) :
  String.length (drop k s) <= String.length s.
Proof.
  revert s; induction k as [|k IH]; intros [|c s]; simpl; auto.
Qed.

(** *** Removing the code fences

    [fence] is one character three times over, so what [replace] leaves
    between two occurrences never ends with that character, and no new
    occurrence can form where one was taken out. *)

Lemma startswith_tick2 (u : string) :
  startswith u "`" = false -> startswith u "``" = false.
Proof.
  destruct u as [|c u]; [reflexivity|].
  change (Ascii.eqb "`" c && true = false ->
          Ascii.eqb "`" c && startswith u "`" = false).
  destruct (Ascii.eqb "`" c); [discriminate | reflexivity].
Qed.

Lemma replace_fence_tick1 (u : string) :
  startswith u "`" = false -> startswith (replace u fence "") "`" = false.
Proof.
  destruct u as [|c u]; [reflexivity|]. intros H.
  assert (Ascii.eqb "`" c = false) as Hc.
  { change (Ascii.eqb "`" c && true = false) in H.
    now rewrite andb_true_r in H. }
  rewrite replace_miss.
  - change (Ascii.eqb "`" c && true = false). now rewrite Hc.
  - change (Ascii.eqb "`" c && startswith u "``" = false). now rewrite Hc.
Qed.

Lemma replace_fence_tick2 (u : string) :
  startswith u "``" = false -> startswith (replace u fence "") "``" = false.
Proof.
  destruct u as [|c u]; [reflexivity|]. intros H.
  destruct (Ascii.eqb "`" c) eqn:Hc.
  - assert (startswith u "`" = false) as Hu.
    { change (Ascii.eqb "`" c && startswith u "`" = false) in H.
      now rewrite Hc in H. }
    rewrite replace_miss.
    + change (Ascii.eqb "`" c && startswith (replace u fence "") "`" = false).
      now rewrite replace_fence_tick1, andb_false_r.
    + change (Ascii.eqb "`" c && startswith u "``" = false).
      now rewrite startswith_tick2, andb_false_r.
  - rewrite replace_miss.
    + change (Ascii.eqb "`" c && startswith (replace u fence "") "`" = false).
      now rewrite Hc.
    + change (Ascii.eqb "`" c && startswith u "``" = false). now rewrite Hc.
Qed.

Lemma replace_fence_hit (u : string) :
  startswith u fence = true ->
  exists t, u = fence ++ t /\ replace u fence "" = replace t fence "".
Proof.
  intros H. pose proof H as Hp.
  apply startswith_iff in Hp as [t ->]. exists t. split; [reflexivity|].
  rewrite replace_hit; [reflexivity | discriminate | exact H].
Qed.

Lemma replace_fence_head (n : nat) (u : string) :
  String.length u <= n -> startswith (replace u fence "") fence = false.
Proof.
  revert u; induction n as [|n IH]; intros u Hn.
  - destruct u; [reflexivity | simpl in Hn; lia].
  - destruct (startswith u fence) eqn:Hf.
    + destruct (replace_fence_hit u Hf) as (t & -> & ->).
      apply IH. simpl in Hn. lia.
    + destruct u as [|c u]; [reflexivity|].
      rewrite (replace_miss _ _ _ _ Hf).
      change (Ascii.eqb "`" c && startswith (replace u fence "") "``" = false).
      destruct (Ascii.eqb "`" c) eqn:Hc; [|reflexivity].
      change (Ascii.eqb "`" c && startswith u "``" = false) in Hf.
      rewrite Hc in Hf. simpl in *. now apply replace_fence_tick2.
Qed.

Lemma replace_fence_free_le (n : nat) (u : string) :
  String.length u <= n -> contains fence (replace u fence "") = false.
Proof.
  revert u; induction n as [|n IH]; intros u Hn.
  - destruct u; [reflexivity | simpl in Hn; lia].
  - destruct (startswith u fence) eqn:Hf.
    + destruct (replace_fence_hit u Hf) as (t & -> & ->).
      apply IH. simpl in Hn. lia.
    + destruct u as [|c u]; [reflexivity|].
      pose proof (replace_fence_head (S n) (String c u) Hn) as Hh.
      rewrite (replace_miss _ _ _ _ Hf) in *.
      rewrite contains_unfold, Hh. simpl. apply IH. simpl in Hn. lia.
Qed.

(** After [replace(fence, empty)] no fence is left. *)
Lemma replace_fence_free (u : string) :
  contains fence (replace u fence "") = false.
Proof. exact (replace_fence_free_le _ u (le_n _)). Qed.

(** What [generate_sql] keeps of the provider's text holds no fence, with
    or without the language tag, and no whitespace at either end. *)
Lemma clean_response_fence_free (text : string) :
  contains fence (SQLGenerator.clean_response text) = false /\
  contains sql_fence (SQLGenerator.clean_response text) = false.
Proof.
  assert (contains fence (SQLGenerator.clean_response text) = false) as H.
  { unfold SQLGenerator.clean_response. apply contains_strip.
    apply replace_fence_free. }
  split; [exact H|].
  apply (contains_false_mono fence); [reflexivity | exact H].
Qed.

Lemma clean_response_trimmed (text : string) :
  trimmed (SQLGenerator.clean_response text).
Proof. apply strip_trimmed. Qed.

(** *** [upper] beyond ASCII *)

Lemma take_all (n : nat) (s : string) :
  String.length s <= n -> take n s = s.
Proof.
  revert s; induction n as [|n IH]; intros [|c s] H; simpl in *;
    try reflexivity; try lia.
  rewrite IH; [reflexivity | lia].
Qed.

Lemma take_app_long (n : nat) (s t : string) :
  n <= String.length s -> take n (s ++ t) = take n s.
Proof.
  revert s; induction n as [|n IH]; intros [|c s] H; simpl in *;
    try reflexivity; try lia.
  rewrite IH; [reflexivity | lia].
Qed.

Lemma take_app_short (n : nat) (s t : string) :
  String.length s <= n ->
  take n (s ++ t) = s ++ take (n - String.length s) t.
Proof.
  revert n; induction s as [|c s IH]; intros n H; simpl in *.
  - now rewrite Nat.sub_0_r.
  - destruct n as [|n]; [lia|]. simpl. rewrite IH; [reflexivity | lia].
Qed.

Lemma length_append (a b : string) :
  String.length (a ++ b) = String.length a + String.length b.
Proof. induction a; simpl; congruence. Qed.

Lemma take_app_exact (a b : string) : take (String.length a) (a ++ b) = a.
Proof. induction a; simpl; congruence. Qed.

Lemma is_high_app (a b : string) : is_high (a ++ b) = is_high a && is_high b.
Proof.
  induction a as [|c a IH]; [reflexivity|]. simpl.
  now rewrite IH, andb_assoc.
Qed.

Lemma all_continuation_app (a b : string) :
  all_continuation (a ++ b) = all_continuation a && all_continuation b.
Proof.
  induction a as [|c a IH]; [reflexivity|]. simpl.
  now rewrite IH, andb_assoc.
Qed.

Lemma utf8_len_continuation (c : ascii) :
  is_continuation c = true -> utf8_len c = 1.
Proof.
  unfold is_continuation, utf8_len. intros H.
  apply andb_true_iff in H as [_ H]. now rewrite H.
Qed.

Lemma upper_char_high (c : ascii) :
  (128 <=? nat_of_ascii c)%nat = true -> upper_char c = c.
Proof.
  unfold upper_char. intros H. apply Nat.leb_le in H.
  destruct (97 <=? nat_of_ascii c)%nat; [|reflexivity].
  destruct (nat_of_ascii c <=? 122)%nat eqn:E; [|reflexivity].
  apply Nat.leb_le in E. lia.
Qed.

Lemma continuation_high (c : ascii) :
  is_continuation c = true -> (128 <=? nat_of_ascii c)%nat = true.
Proof. unfold is_continuation. intros H. now apply andb_true_iff in H. Qed.

Lemma lead_high (c : ascii) :
  (utf8_len c =? 1)%nat = false -> (128 <=? nat_of_ascii c)%nat = true.
Proof.
  unfold utf8_len. destruct (nat_of_ascii c <? 192)%nat eqn:E;
    [discriminate|].
  intros _. apply Nat.ltb_ge in E. apply Nat.leb_le. lia.
Qed.

Lemma lead_not_continuation (c : ascii) :
  (utf8_len c =? 1)%nat = false -> is_continuation c = false.
Proof.
  intros H. destruct (is_continuation c) eqn:E; [|reflexivity].
  rewrite (utf8_len_continuation c E) in H. discriminate.
Qed.

Lemma upper_from_continuation (s : string) :
  all_continuation s = true -> upper_from 0 s = s /\ is_high s = true.
Proof.
  induction s as [|c s IH]; [now split|]. cbn [all_continuation]. intros H.
  apply andb_true_iff in H as [Hc Hs]. destruct (IH Hs) as [Hu Hh].
  cbn [upper_from is_high].
  rewrite (utf8_len_continuation c Hc), Nat.eqb_refl, Hu.
  rewrite (upper_char_high c (continuation_high c Hc)).
  now rewrite (continuation_high c Hc), Hh.
Qed.

Lemma assoc_in (k v : string) (l : list (string * string)) :
  assoc k l = Some v -> In k (map fst l).
Proof.
  induction l as [|[k' v'] l IH]; [discriminate|]. cbn [assoc map fst].
  destruct (k =? k')%string eqn:E.
  - intros _. left. symmetry. now apply String.eqb_eq.
  - intros H. right. now apply IH.
Qed.

(** Every character of the table is a character beyond ASCII in its
    UTF-8 encoding. *)
Lemma upper_table_keys : forallb key_ok (map fst upper_table) = true.
Proof. vm_compute. reflexivity. Qed.

Lemma assoc_key_ok (k v : string) :
  assoc k upper_table = Some v -> key_ok k = true.
Proof.
  intros H. apply assoc_in in H.
  exact (proj1 (forallb_forall _ _) upper_table_keys k H).
Qed.

(** What [upper] gives for [s] is kept when text follows [s], but for what
    it gives for the bytes of a character cut short at the end of [s]. *)
Lemma upper_from_append (s t : string) (k : nat) :
  exists out tail rest,
    upper_from k s = out ++ tail /\ is_high tail = true /\
    upper_from k (s ++ t) = out ++ rest.
Proof.
  revert k; induction s as [|c s IH]; intros k.
  - exists "", "", (upper_from k t). now repeat split.
  - change (String c s ++ t) with (String c (s ++ t)).
    destruct k as [|k]; cbn [upper_from]; [|apply IH].
    destruct (utf8_len c =? 1)%nat eqn:Hone.
    { destruct (IH 0) as (out & tail & rest & Hs & Hh & Ht).
      exists (String (upper_char c) out), tail, rest.
      rewrite Hs, Ht. now repeat split. }
    destruct (le_lt_dec (utf8_len c) (String.length (String c s)))
      as [Hlong|Hshort].
    + change (String c (s ++ t)) with (String c s ++ t).
      rewrite (take_app_long _ _ t Hlong).
      destruct (assoc (take (utf8_len c) (String c s)) upper_table) as [v|].
      * destruct (IH (utf8_len c - 1)) as (out & tail & rest & Hs & Hh & Ht).
        exists (v ++ out), tail, rest. rewrite Hs, Ht, !append_assoc.
        now repeat split.
      * destruct (IH 0) as (out & tail & rest & Hs & Hh & Ht).
        exists (String c out), tail, rest. rewrite Hs, Ht. now repeat split.
    + rewrite (take_all _ (String c s)) by lia.
      destruct (assoc (String c s) upper_table) as [v|] eqn:Hk.
      { apply assoc_key_ok in Hk. cbn [key_ok] in Hk.
        rewrite !andb_true_iff in Hk. destruct Hk as [[_ Hl] _].
        apply Nat.eqb_eq in Hl. cbn [String.length] in Hshort. lia. }
      destruct (assoc (take (utf8_len c) (String c (s ++ t))) upper_table)
        as [v|] eqn:Hk'.
      * assert (all_continuation s = true) as Hcont.
        { apply assoc_key_ok in Hk'.
          destruct (utf8_len c) as [|n] eqn:Hn; [discriminate|].
          cbn [take key_ok] in Hk'. rewrite !andb_true_iff in Hk'.
          destruct Hk' as [_ Hk'].
          rewrite take_app_short in Hk' by (cbn [String.length] in Hshort; lia).
          rewrite all_continuation_app in Hk'.
          now apply andb_true_iff in Hk' as [Hk' _]. }
        destruct (upper_from_continuation s Hcont) as [Hu Hh].
        exists "", (String c s), (v ++ upper_from (utf8_len c - 1) (s ++ t)).
        rewrite Hu. cbn [is_high]. rewrite (lead_high c Hone), Hh.
        now repeat split.
      * destruct (IH 0) as (out & tail & rest & Hs & Hh & Ht).
        exists (String c out), tail, rest. rewrite Hs, Ht. now repeat split.
Qed.

(** [upper] takes up again at the place where a character begins. *)
Lemma upper_from_resume (pre x : string) (k : nat) :
  k <= String.length pre ->
  match x with
  | EmptyString => True
  | String c _ => is_continuation c = false
  end ->
  exists out, upper_from k (pre ++ x) = out ++ upper_from 0 x.
Proof.
  intros Hk Hx. revert k Hk; induction pre as [|c pre IH]; intros k Hk.
  - simpl in Hk. replace k with 0 by lia. now exists "".
  - change (String c pre ++ x) with (String c (pre ++ x)).
    destruct k as [|k]; cbn [upper_from].
    2:{ apply IH. simpl in Hk. lia. }
    destruct (utf8_len c =? 1)%nat eqn:Hone.
    { destruct (IH 0 (Nat.le_0_l _)) as [out Hout].
      exists (String (upper_char c) out). now rewrite Hout. }
    destruct (assoc (take (utf8_len c) (String c (pre ++ x))) upper_table)
      as [v|] eqn:Hkey.
    + assert (utf8_len c - 1 <= String.length pre) as Hle.
      { apply assoc_key_ok in Hkey.
        destruct (utf8_len c) as [|n] eqn:Hn; [discriminate|].
        cbn [take key_ok] in Hkey. rewrite !andb_true_iff in Hkey.
        destruct Hkey as [[_ Hl] Hc]. apply Nat.eqb_eq in Hl.
        destruct (le_lt_dec n (String.length pre)) as [H|H]; [lia|].
        exfalso. rewrite take_app_short in Hc, Hl by lia.
        rewrite all_continuation_app in Hc.
        apply andb_true_iff in Hc as [_ Hc].
        destruct x as [|d x].
        - rewrite length_append in Hl.
          destruct (n - String.length pre); simpl in Hl; lia.
        - destruct (n - String.length pre) as [|m] eqn:Hm; [lia|].
          cbn [take all_continuation] in Hc.
          apply andb_true_iff in Hc as [Hc _]. congruence. }
      destruct (IH (utf8_len c - 1) Hle) as [out Hout].
      exists (v ++ out). now rewrite Hout, append_assoc.
    + destruct (IH 0 (Nat.le_0_l _)) as [out Hout].
      exists (String c out). now rewrite Hout.
Qed.

Lemma startswith_high_tail (kw o tail : string) :
  is_ascii kw = true -> is_high tail = true ->
  startswith (o ++ tail) kw = true -> startswith o kw = true.
Proof.
  intros Hkw Ht. revert o; induction kw as [|a kw IH]; intros o;
    [reflexivity|].
  cbn [is_ascii] in Hkw. apply andb_true_iff in Hkw as [Ha Hkw].
  destruct o as [|c o].
  - destruct tail as [|d tail]; [discriminate|]. cbn [append startswith].
    cbn [is_high] in Ht. apply andb_true_iff in Ht as [Hd _].
    destruct (Ascii.eqb a d) eqn:E; [|discriminate].
    apply Ascii.eqb_eq in E. subst d.
    apply Nat.ltb_lt in Ha. apply Nat.leb_le in Hd. lia.
  - cbn [append startswith]. intros H. apply andb_true_iff in H as [E H].
    now rewrite E, (IH Hkw o H).
Qed.

Lemma contains_high_tail (kw o tail : string) :
  is_ascii kw = true -> is_high tail = true ->
  contains kw (o ++ tail) = true -> contains kw o = true.
Proof.
  intros Hkw Ht. induction o as [|c o IH].
  - cbn [append]. induction tail as [|d tail IHt].
    + now intros H.
    + rewrite (contains_unfold kw (String d tail)). intros H.
      apply orb_true_iff in H as [H|H].
      * apply (startswith_high_tail kw "" _ Hkw Ht) in H.
        now rewrite (contains_unfold kw ""), H.
      * cbn [is_high] in Ht. apply andb_true_iff in Ht as [_ Ht].
        exact (IHt Ht H).
  - change (String c o ++ tail) with (String c (o ++ tail)).
    rewrite (contains_unfold kw (String c (o ++ tail))).
    rewrite (contains_unfold kw (String c o)).
    intros H. apply orb_true_iff in H as [H|H].
    + change (String c (o ++ tail)) with (String c o ++ tail) in H.
      now rewrite (startswith_high_tail kw _ _ Hkw Ht H).
    + rewrite (IH H). apply orb_true_r.
Qed.

Lemma ascii_high_nil (o tail : string) :
  is_ascii (o ++ tail) = true -> is_high tail = true -> tail = "".
Proof.
  rewrite is_ascii_app. intros H Ht. apply andb_true_iff in H as [_ H].
  destruct tail as [|d tail]; [reflexivity|]. cbn [is_ascii is_high] in *.
  apply andb_true_iff in H as [H _]. apply andb_true_iff in Ht as [Ht _].
  apply Nat.ltb_lt in H. apply Nat.leb_le in Ht. lia.
Qed.

(** What [upper] gives for a text holds what it gives for that text
    alone, when this is an ASCII word... *)
Lemma contains_upper_append (kw s t : string) :
  is_ascii kw = true ->
  contains kw (upper s) = true -> contains kw (upper (s ++ t)) = true.
Proof.
  intros Hkw H. unfold upper in *.
  destruct (upper_from_append s t 0) as (out & tail & rest & Hs & Hh & Ht).
  rewrite Hs in H. apply (contains_high_tail _ _ _ Hkw Hh) in H.
  rewrite Ht. apply contains_iff in H as (a & b & ->).
  apply contains_iff. exists a, (b ++ rest). now rewrite !append_assoc.
Qed.

(** A keyword in capitals that occurs in [s] up to case is found in
    [s.upper()]. *)
Lemma occurs_contains_upper (kw s : string) :
  is_ascii kw = true -> kw <> "" -> upper kw = kw ->
  occurs_ignoring_case kw s -> contains kw (upper s) = true.
Proof.
  intros Hkw Hne Hup (pre & mid & post & -> & Hmid). rewrite Hup in Hmid.
  assert (match mid ++ post with
          | EmptyString => True
          | String c _ => is_continuation c = false
          end) as Hlead.
  { destruct mid as [|c mid].
    - cbn in Hmid. congruence.
    - cbn [append]. destruct (is_continuation c) eqn:E; [|reflexivity].
      exfalso. unfold upper in Hmid. cbn [upper_from] in Hmid.
      rewrite (utf8_len_continuation c E), Nat.eqb_refl in Hmid.
      rewrite (upper_char_high c (continuation_high c E)) in Hmid.
      rewrite <- Hmid in Hkw. cbn [is_ascii] in Hkw.
      apply andb_true_iff in Hkw as [Hc _]. apply Nat.ltb_lt in Hc.
      apply continuation_high, Nat.leb_le in E. lia. }
  unfold upper in *.
  destruct (upper_from_resume pre (mid ++ post) 0 (Nat.le_0_l _) Hlead)
    as [out Hout].
  destruct (upper_from_append mid post 0) as (o & tail & rest & Hs & Hh & Ht).
  rewrite Hmid in Hs.
  assert (tail = "") as ->.
  { apply (ascii_high_nil o); [now rewrite <- Hs | exact Hh]. }
  rewrite append_nil_r in Hs. subst o.
  rewrite Hout, Ht. apply contains_iff. now exists out, rest.
Qed.

(** The search finds every occurrence. *)
Lemma some_beginning_found (kw s : string) (n m : nat) :
  n <= m -> upper (take n s) = upper kw -> some_beginning_is kw s m = true.
Proof.
  intros Hle H. induction m as [|m IH].
  - replace n with 0 in H by lia. cbn [some_beginning_is].
    now rewrite H, String.eqb_refl.
  - cbn [some_beginning_is]. destruct (Nat.eq_dec n (S m)) as [->|Hn].
    + now rewrite H, String.eqb_refl.
    + rewrite IH by lia. apply orb_true_r.
Qed.

Lemma occurs_somewhere_complete (kw s : string) :
  occurs_ignoring_case kw s -> occurs_somewhere kw s = true.
Proof.
  intros (pre & mid & post & -> & H). induction pre as [|c pre IH].
  - cbn [append].
    assert (some_beginning_is kw (mid ++ post) (String.length (mid ++ post))
            = true) as Hb.
    { apply (some_beginning_found _ _ (String.length mid)).
      - rewrite length_append. lia.
      - now rewrite take_app_exact. }
    destruct (mid ++ post); cbn [occurs_somewhere]; now rewrite Hb.
  - change (String c pre ++ mid ++ post) with (String c (pre ++ mid ++ post)).
    cbn [occurs_somewhere]. rewrite IH. apply orb_true_r.
Qed.

(** ** The SQL synthesizer *)

Section Validation.
Import SQLGenerator.

Lemma validate_sql_upper_iff (s : string) :
  _validate_sql s = true <->
  startswith s "Error:" = false /\
  contains "SELECT" (upper s) = true /\ contains "FROM" (upper s) = true.
Proof.
  unfold _validate_sql.
  destruct s as [|c s].
  { split; [discriminate|]. intros (_ & H & _). vm_compute in H.
    discriminate. }
  cbn [is_empty orb forallb].
  destruct (startswith (String c s) "Error:").
  - split; [discriminate | now intros [H _]].
  - rewrite andb_true_r, andb_true_iff. tauto.
Qed.

Lemma validate_sql_not_error (s : string) :
  _validate_sql s = true -> s <> "" /\ startswith s "Error:" = false.
Proof.
  unfold _validate_sql. destruct s as [|c s]; [discriminate|].
  cbn [is_empty orb].
  destruct (startswith (String c s) "Error:"); [discriminate|].
  intros _. split; [discriminate | reflexivity].
Qed.

(** SELECT does not occur, in any case of its letters, in a text that
    begins with a sharp s where the keyword has its S. *)
Lemma sharp_s_no_select :
  ~ occurs_ignoring_case "SELECT" "ßelect 1 from t".
Proof.
  intros H. apply occurs_somewhere_complete in H. vm_compute in H.
  discriminate.
Qed.

(** C2, as stated, at two texts. The first names both keywords yet is
    refused: the check first turns away whatever begins with the error
    prefix. The second is accepted though SELECT does not occur in it:
    [str.upper] writes the sharp s as SS, and the check looks for the
    keywords in what [str.upper] gives. *)
Lemma validate_sql_differs_from_occurrence :
  (occurs_ignoring_case "SELECT" "Error: select 1 from t" /\
   occurs_ignoring_case "FROM" "Error: select 1 from t" /\
   _validate_sql "Error: select 1 from t" = false) /\
  (~ occurs_ignoring_case "SELECT" "ßelect 1 from t" /\
   _validate_sql "ßelect 1 from t" = true).
Proof.
  split; [split; [|split] | split].
  - now exists "Error: ", "select", " 1 from t".
  - now exists "Error: select 1 ", "from", " t".
  - reflexivity.
  - exact sharp_s_no_select.
  - reflexivity.
Qed.

(** C2, amended: [_validate_sql] accepts a text exactly when it does not
    begin with the error prefix and both SELECT and FROM are found in what
    [str.upper] gives for it. So it accepts every text without the error
    prefix in which both occur as case-insensitive substrings, and among
    ASCII texts it accepts these only; it refuses DROP TABLE authors and
    accepts SELECT * FROM authors; DROP TABLE authors. *)
Theorem validate_sql_accepts :
  (forall s,
     _validate_sql s = true <->
     startswith s "Error:" = false /\
     contains "SELECT" (upper s) = true /\
     contains "FROM" (upper s) = true) /\
  (forall s,
     startswith s "Error:" = false ->
     occurs_ignoring_case "SELECT" s -> occurs_ignoring_case "FROM" s ->
     _validate_sql s = true) /\
  (forall s,
     is_ascii s = true ->
     (_validate_sql s = true <->
      startswith s "Error:" = false /\
      occurs_ignoring_case "SELECT" s /\ occurs_ignoring_case "FROM" s)) /\
  _validate_sql "DROP TABLE authors" = false /\
  _validate_sql "SELECT * FROM authors; DROP TABLE authors" = true.
Proof.
  split; [exact validate_sql_upper_iff|]. split; [|split].
  - intros s Hp Hs Hf. apply validate_sql_upper_iff.
    split; [exact Hp|].
    split; apply occurs_contains_upper;
      solve [reflexivity | discriminate | assumption].
  - intros s Ha. rewrite validate_sql_upper_iff.
    rewrite (contains_upper_ascii_iff "SELECT" s Ha eq_refl).
    rewrite (contains_upper_ascii_iff "FROM" s Ha eq_refl). tauto.
  - split; reflexivity.
Qed.

End Validation.

Section Generation.
Import SQLGenerator.

Variable env : Env.

(** What one call of [generate_sql] does, branch by branch. *)
Lemma generate_sql_run (q : string) (self : t) :
  generate_sql env q self =
  if is_configured self then
    match model self with
    | Some m =>
        let prompt := _create_sql_prompt q in
        (Returned
           match generate_content_text env m prompt with
           | Returned text =>
               let sql_query := clean_response text in
               if _validate_sql sql_query then sql_query
               else "Error: Consulta SQL no válida generada: " ++ sql_query
           | Raised e => "Error: " ++ e
           end,
         self, [EvGenerateContent m prompt])
    | None =>
        (Returned "Error: 'NoneType' object has no attribute 'generate_content'",
         self, [])
    end
  else (Returned unconfigured_msg, self, []).
Proof.
  unfold generate_sql, bind, get, try_except, model_generate_content, call,
    raise, ret.
  destruct (is_configured self); [|reflexivity]. cbn [negb].
  destruct (model self) as [m|]; [|reflexivity].
  destruct (generate_content_text env m (_create_sql_prompt q)) as [text|e];
    [|reflexivity].
  now destruct (_validate_sql (clean_response text)).
Qed.

Lemma is_configured_model (self : t) :
  is_configured self = true -> exists m, model self = Some m.
Proof.
  unfold is_configured. destruct (model self) as [m|]; [|discriminate].
  now exists m.
Qed.

Lemma startswith_app (p t : string) : startswith (p ++ t) p = true.
Proof. apply startswith_iff. now exists t. Qed.

(** C1, amended: [generate_sql] returns, for every question, either a
    text that begins with the error prefix or a non-empty text in which
    SELECT and FROM are found once [str.upper] is applied to it, so that
    both occur in it as case-insensitive substrings when it is ASCII; it is
    the provider's answer with the code fences taken out and no whitespace
    left at either end. An empty text is never returned. *)
Theorem generate_sql_error_or_sql (q : string) (self : t) :
  exists r,
    result_of (generate_sql env q self) = Returned r /\
    r <> "" /\
    (startswith r "Error:" = true \/
     (contains "SELECT" (upper r) = true /\
      contains "FROM" (upper r) = true /\
      (is_ascii r = true ->
       occurs_ignoring_case "SELECT" r /\ occurs_ignoring_case "FROM" r) /\
      trimmed r /\ contains fence r = false /\ contains sql_fence r = false /\
      exists m text,
        model self = Some m /\
        generate_content_text env m (_create_sql_prompt q) = Returned text /\
        r = clean_response text)).
Proof.
  rewrite generate_sql_run.
  destruct (is_configured self) eqn:Hc.
  - destruct (is_configured_model self Hc) as [m Hm]. rewrite Hm.
    eexists. split; [reflexivity|]. cbn zeta.
    destruct (generate_content_text env m (_create_sql_prompt q))
      as [text|e] eqn:Hg.
    + destruct (_validate_sql (clean_response text)) eqn:Hv.
      * destruct (validate_sql_not_error _ Hv) as [Hne _].
        split; [exact Hne|]. right.
        apply validate_sql_upper_iff in Hv as (_ & Hs & Hf).
        destruct (clean_response_fence_free text) as [Hf1 Hf2].
        split; [exact Hs|]. split; [exact Hf|]. split.
        { intros Ha.
          split; apply (contains_upper_ascii_iff _ _ Ha eq_refl);
            assumption. }
        split; [apply clean_response_trimmed|].
        split; [exact Hf1|]. split; [exact Hf2|]. now exists m, text.
      * split; [discriminate | left; reflexivity].
    + split; [discriminate | left; reflexivity].
  - eexists. split; [reflexivity|]. split; [discriminate | left; reflexivity].
Qed.

(** C3: when no model or no key is set, [generate_sql] returns the
    Unconfigured text at once, whatever the question: the object is left
    as it was and no call is made to the provider. *)
Theorem generate_sql_unconfigured (q : string) (self : t) :
  is_configured self = false ->
  generate_sql env q self = (Returned unconfigured_msg, self, []).
Proof. intros H. now rewrite generate_sql_run, H. Qed.

Lemma is_empty_false (s : string) : s <> "" -> is_empty s = false.
Proof. destruct s; [congruence | reflexivity]. Qed.

(** A call either fails and returns an error text, or does not fail and
    returns a text the check accepted. *)
Lemma generate_sql_cases (q : string) (self : t) :
  exists r,
    result_of (generate_sql env q self) = Returned r /\
    ((generate_fails env q self /\ startswith r "Error:" = true) \/
     (~ generate_fails env q self /\ _validate_sql r = true)).
Proof.
  rewrite generate_sql_run. unfold generate_fails.
  destruct (is_configured self) eqn:Hc.
  - destruct (is_configured_model self Hc) as [m Hm]. rewrite Hm.
    eexists. split; [reflexivity|]. cbn zeta.
    destruct (generate_content_text env m (_create_sql_prompt q))
      as [text|e] eqn:Hg.
    + destruct (_validate_sql (clean_response text)) eqn:Hv.
      * right. split; [|exact Hv].
        intros [H|[[_ (m0 & e & Hm0 & He0)]|[_ (m0 & t0 & Hm0 & Ht0 & Hv0)]]].
        -- discriminate.
        -- injection Hm0 as <-. congruence.
        -- injection Hm0 as <-. rewrite Hg in Ht0. injection Ht0 as <-.
           congruence.
      * left. split; [|reflexivity].
        right. right. split; [reflexivity | now exists m, text].
    + left. split; [|reflexivity].
      right. left. split; [reflexivity | now exists m, e].
  - eexists. split; [reflexivity|]. left. split; [now left | reflexivity].
Qed.

(** C10: what [generate_sql] returns begins with the error prefix exactly
    when the call failed, and the caller's test takes it as SQL exactly
    when it did not. *)
Theorem generate_sql_error_prefix_iff_failed (q : string) (self : t) :
  exists r,
    result_of (generate_sql env q self) = Returned r /\
    (startswith r "Error:" = true <-> generate_fails env q self) /\
    (caller_takes_as_sql r = true <-> ~ generate_fails env q self).
Proof.
  destruct (generate_sql_cases q self) as (r & Hr & [[Hf Hp]|[Hn Hv]]);
    exists r; (split; [exact Hr|]); unfold caller_takes_as_sql.
  - rewrite Hp, andb_false_r.
    split; split; intros; auto; try discriminate; contradiction.
  - destruct (validate_sql_not_error _ Hv) as [Hne Hp].
    rewrite Hp, (is_empty_false _ Hne).
    split; split; intros; auto; try discriminate; contradiction.
Qed.

End Generation.

(** C1, as stated, at a provider that answers with a sharp s where SELECT
    has its S: [generate_sql] returns the answer as it is, which neither
    begins with the error prefix nor has SELECT in it in any case of its
    letters. *)
Lemma generate_sql_returns_sharp_s :
  result_of
    (SQLGenerator.generate_sql env_sharp_s "Autores de California"
       ready_generator)
  = Returned "ßelect 1 from t" /\
  "ßelect 1 from t" <> "" /\
  startswith "ßelect 1 from t" "Error:" = false /\
  ~ occurs_ignoring_case "SELECT" "ßelect 1 from t".
Proof.
  split; [reflexivity|]. split; [discriminate|]. split; [reflexivity|].
  exact sharp_s_no_select.
Qed.

(** C3 at the generator [__init__] leaves when the environment has no key. *)
Lemma generate_sql_unconfigured_fresh :
  SQLGenerator.generate_sql env_ok "Autores de California" fresh_generator
  = (Returned SQLGenerator.unconfigured_msg, fresh_generator, []).
Proof.
  apply (generate_sql_unconfigured env_ok "Autores de California"
           fresh_generator).
  reflexivity.
Defined.

(** ** The query executor *)

Section Execution.
Import DatabaseClient.

Variable env : Env.

(** What one call of [execute_query] does, branch by branch. *)
Lemma execute_query_run (sql : string) (self : t) :
  execute_query env sql self =
  if is_configured self then
    match connection_string self with
    | Some cs =>
        match pyodbc_connect env cs with
        | Returned conn =>
            match pd_read_sql_query env sql conn with
            | Returned df =>
                match conn_close env conn with
                | Returned _ =>
                    (Returned (Some df), self,
                     [EvConnect cs; EvReadSql sql conn; EvClose conn;
                      EvUi Page UiSuccess
                        ("✅ Consulta ejecutada: "
                           ++ str_of_nat (List.length (rows df))
                           ++ " filas obtenidas")])
                | Raised e =>
                    (Returned None, self,
                     [EvConnect cs; EvReadSql sql conn; EvClose conn;
                      failure_shown e])
                end
            | Raised e =>
                (Returned None, self,
                 [EvConnect cs; EvReadSql sql conn; failure_shown e])
            end
        | Raised e => (Returned None, self, [EvConnect cs; failure_shown e])
        end
    | None =>
        (Returned None, self,
         [failure_shown "argument 1 must be str, not None"])
    end
  else (Returned None, self, [unconfigured_shown]).
Proof.
  unfold execute_query, bind, get, try_except, connect, call, raise, ret, ui.
  destruct (is_configured self); [|reflexivity]. cbn [negb].
  destruct (connection_string self) as [cs|]; [|reflexivity].
  destruct (pyodbc_connect env cs) as [conn|e]; [|reflexivity].
  destruct (pd_read_sql_query env sql conn) as [df|e]; [|reflexivity].
  destruct (conn_close env conn) as [[]|e]; reflexivity.
Qed.

Lemma not_configured_iff (self : t) :
  is_configured self = false <->
  connection_string self = None \/ connection_string self = Some "".
Proof.
  unfold is_configured. destruct (connection_string self) as [[|c cs]|]; simpl.
  - split; auto.
  - split; [discriminate | intros [H|H]; discriminate].
  - split; auto.
Qed.

(** C4: with no connection string, absent or empty, [execute_query]
    returns [None] for every statement, and the only call it makes is the
    one that displays the message: no connection is attempted. *)
Theorem execute_query_unconfigured (sql : string) (self : t) :
  connection_string self = None \/ connection_string self = Some "" ->
  execute_query env sql self = (Returned None, self, [unconfigured_shown]) /\
  existsb is_connect (trace_of (execute_query env sql self)) = false.
Proof.
  intros H. apply not_configured_iff in H.
  rewrite execute_query_run, H. split; reflexivity.
Qed.

(** Where the statement runs and the table is returned, the connection
    was closed. *)
Lemma execute_query_success_closes (sql : string) (self : t) (df : DataFrame) :
  result_of (execute_query env sql self) = Returned (Some df) ->
  connections_closed (opened_by env) (trace_of (execute_query env sql self))
  = true.
Proof.
  rewrite execute_query_run.
  destruct (is_configured self); [|discriminate].
  destruct (connection_string self) as [cs|]; [|discriminate].
  unfold opened_by at 1.
  destruct (pyodbc_connect env cs) as [conn|e] eqn:Hc; [|discriminate].
  destruct (pd_read_sql_query env sql conn) as [d|e]; [|discriminate].
  destruct (conn_close env conn) as [[]|e]; [|discriminate].
  intros _. cbn. unfold opened_by. rewrite Hc. cbn.
  now rewrite Nat.eqb_refl.
Qed.

(** Where the driver connects and then raises on the statement, the call
    ends without closing what it opened. *)
Lemma execute_query_read_error_leaks (sql cs : string) (self : t)
  (conn : nat) (e : exn) :
  is_configured self = true ->
  connection_string self = Some cs ->
  pyodbc_connect env cs = Returned conn ->
  pd_read_sql_query env sql conn = Raised e ->
  execute_query env sql self
  = (Returned None, self, [EvConnect cs; EvReadSql sql conn; failure_shown e])
  /\ connections_closed (opened_by env)
       (trace_of (execute_query env sql self)) = false.
Proof.
  intros Hi Hs Hc Hr. rewrite execute_query_run, Hi, Hs, Hc, Hr.
  split; [reflexivity|]. cbn. unfold opened_by. now rewrite Hc.
Qed.

End Execution.

(** C4 at a client whose connection string was never set. *)
Lemma execute_query_unconfigured_unset :
  DatabaseClient.execute_query env_ok "SELECT * FROM authors" unset_client
  = (Returned None, unset_client, [unconfigured_shown]) /\
  existsb is_connect
    (trace_of
       (DatabaseClient.execute_query env_ok "SELECT * FROM authors"
          unset_client)) = false.
Proof.
  apply (execute_query_unconfigured env_ok "SELECT * FROM authors"
           unset_client).
  left. reflexivity.
Defined.

(** C5, at a statement the server refuses after the connection is made:
    [execute_query] returns [None] having opened connection 7 and never
    closed it, where the specification has it closed on every error path. *)
Theorem execute_query_leaves_connection_open :
  opened_by env_read_fails "DSN=pubs" = Some 7 /\
  DatabaseClient.execute_query env_read_fails "SELEC * FROM authors"
    ready_client
  = (Returned None, ready_client,
     [EvConnect "DSN=pubs"; EvReadSql "SELEC * FROM authors" 7;
      failure_shown "Incorrect syntax near 'SELEC'"]) /\
  connections_closed (opened_by env_read_fails)
    (trace_of
       (DatabaseClient.execute_query env_read_fails "SELEC * FROM authors"
          ready_client)) = false.
Proof. repeat split. Qed.

(** ** Configuration and model selection *)

Section Selection.
Import SQLGenerator.

Lemma scan_available_some (p : string) (available : list string) (a : string) :
  scan_available p available = Some a <->
  exists j,
    nth_error available j = Some a /\ contains p a = true /\
    forall j' a', j' < j -> nth_error available j' = Some a' ->
                  contains p a' = false.
Proof.
  induction available as [|x rest IH]; simpl.
  - split; [discriminate | intros ([|j] & H & _); discriminate].
  - destruct (contains p x) eqn:Hx.
    + split.
      * intros H. injection H as <-. exists 0. repeat split; auto.
        intros j' a' Hj. lia.
      * intros (j & Hn & Hc & Hlt). destruct j as [|j]; [exact Hn|].
        specialize (Hlt 0 x (Nat.lt_0_succ j) eq_refl). congruence.
    + rewrite IH. split.
      * intros (j & Hn & Hc & Hlt). exists (S j). repeat split; auto.
        intros [|j'] a' Hj Ha'; simpl in Ha'.
        -- congruence.
        -- apply (Hlt j' a'); [lia | exact Ha'].
      * intros ([|j] & Hn & Hc & Hlt); simpl in Hn.
        -- congruence.
        -- exists j. repeat split; auto.
           intros j' a' Hj Ha'. apply (Hlt (S j') a'); [lia | exact Ha'].
Qed.

Lemma scan_available_none (p : string) (available : list string) :
  scan_available p available = None <->
  forall a, In a available -> contains p a = false.
Proof.
  induction available as [|x rest IH]; simpl.
  - split; [intros _ a [] | reflexivity].
  - destruct (contains p x) eqn:Hx.
    + split; [discriminate|]. intros H. specialize (H x (or_introl eq_refl)).
      congruence.
    + rewrite IH. split.
      * intros H a [<-|Ha]; auto.
      * intros H a Ha. apply H. now right.
Qed.

Lemma scan_preferred_some (prefs available : list string) (a : string) :
  scan_preferred prefs available = Some a <->
  exists i p,
    nth_error prefs i = Some p /\ scan_available p available = Some a /\
    forall i' p', i' < i -> nth_error prefs i' = Some p' ->
                  scan_available p' available = None.
Proof.
  induction prefs as [|q ps IH]; simpl.
  - split; [discriminate | intros ([|i] & p & H & _); discriminate].
  - destruct (scan_available q available) as [b|] eqn:Hq.
    + split.
      * intros H. injection H as <-. exists 0, q. repeat split; auto.
        intros i' p' Hi. lia.
      * intros (i & p & Hn & Hs & Hlt). destruct i as [|i]; simpl in Hn.
        -- congruence.
        -- specialize (Hlt 0 q (Nat.lt_0_succ i) eq_refl). congruence.
    + rewrite IH. split.
      * intros (i & p & Hn & Hs & Hlt). exists (S i), p. repeat split; auto.
        intros [|i'] p' Hi Hp'; simpl in Hp'.
        -- congruence.
        -- apply (Hlt i' p'); [lia | exact Hp'].
      * intros ([|i] & p & Hn & Hs & Hlt); simpl in Hn.
        -- congruence.
        -- exists i, p. repeat split; auto.
           intros i' p' Hi Hp'. apply (Hlt (S i') p'); [lia | exact Hp'].
Qed.

Lemma scan_preferred_none (prefs available : list string) :
  scan_preferred prefs available = None <->
  forall p a, In p prefs -> In a available -> contains p a = false.
Proof.
  induction prefs as [|q ps IH]; simpl.
  - split; [intros _ p a [] | reflexivity].
  - destruct (scan_available q available) as [b|] eqn:Hq.
    + split; [discriminate|]. intros H.
      apply scan_available_some in Hq as (j & Hj & Hc & _).
      apply nth_error_In in Hj.
      specialize (H q b (or_introl eq_refl) Hj). congruence.
    + rewrite IH. split.
      * intros H p a [<-|Hp] Ha; [|now apply H].
        now apply (proj1 (scan_available_none _ _) Hq).
      * intros H p a Hp Ha. apply H; [now right | exact Ha].
Qed.

(** [_get_compatible_model] never raises and leaves the object alone. *)
Lemma get_compatible_model_run (env : Env) (self : t) :
  exists tr,
    _get_compatible_model env self = (Returned (detected_model env), self, tr).
Proof.
  unfold _get_compatible_model, detected_model, select_model_name, new_model,
    try_except, bind, call, ui, ret.
  destruct (genai_list_models env) as [available|e]; [|eexists; reflexivity].
  destruct (scan_preferred preferred_models available) as [name|].
  - destruct (genai_GenerativeModel env name) as [[]|e]; eexists; reflexivity.
  - destruct available as [|first rest]; [eexists; reflexivity|].
    destruct (genai_GenerativeModel env first) as [[]|e]; eexists; reflexivity.
Qed.

(** What one call of [set_api_key] does: the key is kept in both cases. *)
Lemma set_api_key_run (env : Env) (key : string) (self : t) :
  match genai_configure env key with
  | Returned _ =>
      exists tr,
        set_api_key env key self
        = (Returned true,
           {| model := detected_model env; api_key := Some key |}, tr)
  | Raised e =>
      set_api_key env key self
      = (Returned false, {| model := model self; api_key := Some key |},
         [EvConfigure key;
          EvUi Sidebar UiError ("❌ Error configurando Gemini: " ++ e)])
  end.
Proof.
  unfold set_api_key, try_except, bind, get, put, call, ui, ret.
  destruct (genai_configure env key) as [[]|e]; [|reflexivity].
  destruct (get_compatible_model_run env
              {| model := model self; api_key := Some key |}) as [tr ->].
  cbn. destruct (detected_model env); eexists; reflexivity.
Qed.

Lemma detection_fails_no_model (env : Env) :
  model_detection_fails env <-> detected_model env = None.
Proof.
  unfold model_detection_fails, detected_model. split.
  - intros [[e ->]|[->|(available & name & e & -> & -> & ->)]]; reflexivity.
  - destruct (genai_list_models env) as [available|e];
      [|intros _; left; now exists e].
    destruct (select_model_name available) as [name|] eqn:Hs.
    + destruct (genai_GenerativeModel env name) as [[]|e] eqn:Hg;
        [discriminate|].
      intros _. right. right. now exists available, name, e.
    + intros _. right. left. unfold select_model_name in Hs.
      destruct (scan_preferred preferred_models available); [discriminate|].
      destruct available; [reflexivity | discriminate].
Qed.

(** C7: the model selected from the list of available names.
    - When entry [i] of the preference list is the first that is a
      substring of some available name, and name [j] is the first
      available name it is a substring of, name [j] is selected.
    - When no entry is a substring of any available name, the first
      available name is selected.
    - When no name is available, none is selected, the model stays unset
      and the generator is not configured. *)
Theorem select_model_name_spec :
  preferred_models
  = ["gemini-1.5-pro"; "gemini-1.5-flash"; "gemini-1.0-pro"; "gemini-pro"] /\
  (forall available i p j a,
     nth_error preferred_models i = Some p ->
     nth_error available j = Some a ->
     contains p a = true ->
     (forall i' p' a',
        i' < i -> nth_error preferred_models i' = Some p' ->
        In a' available -> contains p' a' = false) ->
     (forall j' a',
        j' < j -> nth_error available j' = Some a' ->
        contains p a' = false) ->
     select_model_name available = Some a) /\
  (forall first rest,
     (forall p a,
        In p preferred_models -> In a (first :: rest) ->
        contains p a = false) ->
     select_model_name (first :: rest) = Some first) /\
  select_model_name [] = None /\
  (forall env key self,
     genai_configure env key = Returned tt ->
     genai_list_models env = Returned [] ->
     model (state_of (set_api_key env key self)) = None /\
     is_configured (state_of (set_api_key env key self)) = false) /\
  (forall env self available,
     genai_list_models env = Returned available ->
     (forall name, genai_GenerativeModel env name = Returned tt) ->
     result_of (_get_compatible_model env self)
     = Returned (select_model_name available)).
Proof.
  split; [reflexivity|]. split; [|split; [|split; [|split]]].
  - intros available i p j a Hp Ha Hc Hprio Hfirst.
    unfold select_model_name.
    assert (scan_preferred preferred_models available = Some a) as ->;
      [|reflexivity].
    apply scan_preferred_some. exists i, p. split; [exact Hp|]. split.
    + apply scan_available_some. exists j. auto.
    + intros i' p' Hi Hp'. apply scan_available_none.
      intros a' Ha'. now apply (Hprio i' p' a').
  - intros first rest H. unfold select_model_name.
    now rewrite (proj2 (scan_preferred_none _ _) H).
  - reflexivity.
  - intros env key self Hc Hl.
    pose proof (set_api_key_run env key self) as H. rewrite Hc in H.
    destruct H as [tr ->]. unfold detected_model. rewrite Hl.
    split; reflexivity.
  - intros env self available Hl Hg.
    destruct (get_compatible_model_run env self) as [tr ->].
    unfold detected_model. rewrite Hl. cbn.
    destruct (select_model_name available) as [name|]; [|reflexivity].
    now rewrite Hg.
Qed.

End Selection.

(** C7 at an account that offers the old model first and a newer one
    second: the newer one is higher in the preference list and is taken. *)
Lemma select_model_name_prefers_flash :
  SQLGenerator.select_model_name ["models/gemini-pro"; "models/gemini-1.5-flash"]
  = Some "models/gemini-1.5-flash".
Proof.
  apply (proj1 (proj2 select_model_name_spec)
           ["models/gemini-pro"; "models/gemini-1.5-flash"]
           1 "gemini-1.5-flash" 1 "models/gemini-1.5-flash").
  - reflexivity.
  - reflexivity.
  - reflexivity.
  - intros i' p' a' Hi Hp Ha. destruct i' as [|i']; [|lia].
    injection Hp as <-. destruct Ha as [<-|[<-|[]]]; reflexivity.
  - intros j' a' Hj Ha. destruct j' as [|j']; [|lia].
    injection Ha as <-. reflexivity.
Defined.

Example select_model_name_fallback :
  SQLGenerator.select_model_name ["models/text-bison"; "models/embedding-001"]
  = Some "models/text-bison".
Proof. reflexivity. Qed.

(** ** Failures are returned, not raised *)

Section Failures.

Variable env : Env.

Lemma execute_query_failure_none (sql : string) (self : DatabaseClient.t) :
  exists r,
    result_of (DatabaseClient.execute_query env sql self) = Returned r /\
    (execute_fails env sql self -> r = None).
Proof.
  rewrite execute_query_run. unfold execute_fails.
  destruct (DatabaseClient.is_configured self);
    [|eexists; split; [reflexivity | reflexivity]].
  destruct (DatabaseClient.connection_string self) as [cs|];
    [|eexists; split; [reflexivity | reflexivity]].
  destruct (pyodbc_connect env cs) as [conn|e] eqn:Hc;
    [|eexists; split; [reflexivity | reflexivity]].
  destruct (pd_read_sql_query env sql conn) as [df|e] eqn:Hr;
    [|eexists; split; [reflexivity | reflexivity]].
  destruct (conn_close env conn) as [[]|e] eqn:Hk;
    [|eexists; split; [reflexivity | reflexivity]].
  eexists. split; [reflexivity|].
  intros [H|(cs' & Hcs & [[e H]|(c & Hc' & [[e H]|[e H]])])].
  - discriminate.
  - injection Hcs as <-. congruence.
  - injection Hcs as <-. rewrite Hc in Hc'. injection Hc' as <-. congruence.
  - injection Hcs as <-. rewrite Hc in Hc'. injection Hc' as <-. congruence.
Qed.

(** C6, as stated, at a key the provider takes while it refuses to list
    its models: configuration has failed, no model is set, and
    [set_api_key] returns [True], which is none of the sentinels. *)
Lemma set_api_key_true_without_model :
  model_detection_fails env_listing_fails /\
  SQLGenerator.set_api_key env_listing_fails "key" fresh_generator
  = (Returned true,
     {| SQLGenerator.model := None; SQLGenerator.api_key := Some "key" |},
     [EvConfigure "key"; EvListModels;
      EvUi Sidebar UiError "Error detectando modelos: 403 permission denied";
      EvUi Sidebar UiError "❌ No se pudo inicializar el modelo Gemini"]).
Proof.
  split; [|reflexivity]. left. now exists "403 permission denied".
Qed.

(** C6, amended: none of [generate_sql], [set_api_key], [execute_query]
    raises, whatever the provider and the driver do.  A failed
    [generate_sql] returns a text that begins with the error prefix, a
    failed [execute_query] returns [None], and [set_api_key] returns
    [False] when configuring the key raises; when the key is taken and
    model detection fails it returns [True] and leaves the model unset, so
    that the generator is not configured. *)
Theorem failures_are_returned :
  (forall q self,
     exists r,
       result_of (SQLGenerator.generate_sql env q self) = Returned r /\
       (generate_fails env q self -> startswith r "Error:" = true)) /\
  (forall key self,
     exists b,
       result_of (SQLGenerator.set_api_key env key self) = Returned b /\
       ((exists e, genai_configure env key = Raised e) -> b = false) /\
       (genai_configure env key = Returned tt ->
        b = true /\
        (model_detection_fails env ->
         SQLGenerator.is_configured
           (state_of (SQLGenerator.set_api_key env key self)) = false))) /\
  (forall sql self,
     exists r,
       result_of (DatabaseClient.execute_query env sql self) = Returned r /\
       (execute_fails env sql self -> r = None)).
Proof.
  split; [|split].
  - intros q self.
    destruct (generate_sql_cases env q self) as (r & Hr & [[_ Hp]|[Hn _]]);
      exists r; (split; [exact Hr|]); intros H; [exact Hp | contradiction].
  - intros key self. pose proof (set_api_key_run env key self) as H.
    destruct (genai_configure env key) as [[]|e].
    + destruct H as [tr ->]. exists true. split; [reflexivity|]. split.
      * intros [e He]. discriminate.
      * intros _. split; [reflexivity|]. intros Hd.
        apply detection_fails_no_model in Hd. cbn. now rewrite Hd.
    + rewrite H. exists false. split; [reflexivity|]. split.
      * reflexivity.
      * discriminate.
  - exact execute_query_failure_none.
Qed.

End Failures.

(** C6, amended, at a key the provider refuses to list models for. *)
Lemma failures_are_returned_listing_fails :
  SQLGenerator.is_configured
    (state_of (SQLGenerator.set_api_key env_listing_fails "key" fresh_generator))
  = false.
Proof.
  destruct (proj1 (proj2 (failures_are_returned env_listing_fails))
              "key" fresh_generator) as (b & _ & _ & H).
  apply H.
  - reflexivity.
  - left. now exists "403 permission denied".
Defined.

(** ** The transcript *)

Section Transcript.
Import ChatInterface.

Variable env : Env.

Lemma add_message_run (r c : string) (self : t) :
  add_message env r c self
  = (Returned tt,
     {| messages :=
          (messages self
             ++ [{| role := r; content := c;
                    timestamp := now_isoformat env (clock_reads self) |}])%list;
        clock_reads := S (clock_reads self) |},
     []).
Proof. reflexivity. Qed.

Lemma add_messages_run (args : list (string * string)) (self : t) :
  add_messages env args self
  = (Returned tt,
     {| messages := (messages self ++ stamped env (clock_reads self) args)%list;
        clock_reads := clock_reads self + List.length args |},
     []).
Proof.
  revert self; induction args as [|[r c] rest IH]; intros self.
  - cbn. rewrite app_nil_r, Nat.add_0_r. now destruct self.
  - cbn [add_messages]. unfold bind at 1. rewrite add_message_run, IH.
    cbn. rewrite <- app_assoc. cbn. now rewrite Nat.add_succ_r.
Qed.

Lemma stamped_role_content (reads : nat) (args : list (string * string)) :
  map role_content (stamped env reads args) = args.
Proof.
  revert reads; induction args as [|[r c] rest IH]; intros reads; cbn.
  - reflexivity.
  - now rewrite IH.
Qed.

Lemma stamped_nth (reads : nat) (args : list (string * string)) (k : nat)
  (r c : string) :
  nth_error args k = Some (r, c) ->
  nth_error (stamped env reads args) k
  = Some {| role := r; content := c;
            timestamp := now_isoformat env (reads + k) |}.
Proof.
  revert reads k; induction args as [|[r0 c0] rest IH]; intros reads k.
  - destruct k; discriminate.
  - destruct k as [|k]; cbn.
    + intros H. injection H as -> ->. now rewrite Nat.add_0_r.
    + intros H. rewrite (IH (S reads) k H). now rewrite Nat.add_succ_r.
Qed.

(** C8: after [N] calls of [add_message] the transcript is what it was
    followed by [N] new messages, whose roles and contents are the
    arguments of the calls in the order of the calls, each stamped with
    the reading of the clock at its call: nothing is merged, dropped or
    moved.  On an empty transcript, reading all messages gives exactly
    [N] of them. *)
Theorem add_messages_all (args : list (string * string)) (self : t) :
  exists final,
    add_messages env args self = (Returned tt, final, []) /\
    all_messages final
    = (all_messages self ++ stamped env (clock_reads self) args)%list /\
    List.length (all_messages final)
    = List.length (all_messages self) + List.length args /\
    map role_content (all_messages final)
    = (map role_content (all_messages self) ++ args)%list /\
    (forall k r c,
       nth_error args k = Some (r, c) ->
       nth_error (all_messages final) (List.length (all_messages self) + k)
       = Some {| role := r; content := c;
                 timestamp := now_isoformat env (clock_reads self + k) |}) /\
    (all_messages self = [] ->
     List.length (all_messages final) = List.length args /\
     map role_content (all_messages final) = args).
Proof.
  eexists. split; [apply add_messages_run|]. unfold all_messages. cbn.
  assert (List.length (stamped env (clock_reads self) args) = List.length args)
    as Hlen.
  { rewrite <- (stamped_role_content (clock_reads self) args) at 2.
    now rewrite length_map. }
  split; [reflexivity|]. split; [now rewrite length_app, Hlen|].
  split; [now rewrite map_app, stamped_role_content|]. split.
  - intros k r c H. rewrite nth_error_app2 by lia.
    replace (List.length (messages self) + k - List.length (messages self))
      with k by lia.
    now apply stamped_nth.
  - intros ->. cbn. split; [exact Hlen | apply stamped_role_content].
Qed.

Lemma export_step_block (acc : string) (k : nat) (m : ChatMessage) :
  export_step acc (k, m) = acc ++ message_block k m.
Proof.
  unfold export_step, message_block, block_heading, role_label, role_icon,
    role_text.
  destruct (role m =? "user")%string; rewrite !append_assoc; reflexivity.
Qed.

Lemma export_loop (msgs : list ChatMessage) (i : nat) (acc : string) :
  fold_left export_step (enumerate_from i msgs) acc
  = acc ++ join (map (fun im => message_block (fst im) (snd im))
                     (enumerate_from i msgs)).
Proof.
  revert i acc; induction msgs as [|m rest IH]; intros i acc;
    unfold join; cbn [enumerate_from fold_left map fold_right fst snd].
  - now rewrite append_nil_r.
  - rewrite export_step_block, IH. now rewrite append_assoc.
Qed.

Lemma enumerate_from_nth {A : Type} (l : list A) (i k : nat) (x : A) :
  nth_error l k = Some x ->
  nth_error (enumerate_from i l) k = Some (i + k, x).
Proof.
  revert i k; induction l as [|y rest IH]; intros i k.
  - destruct k; discriminate.
  - destruct k as [|k]; cbn.
    + intros H. injection H as ->. now rewrite Nat.add_0_r.
    + intros H. rewrite (IH (S i) k H). now rewrite Nat.add_succ_r.
Qed.

Lemma enumerate_from_length {A : Type} (l : list A) (i : nat) :
  List.length (enumerate_from i l) = List.length l.
Proof. revert i; induction l; intros i; cbn; auto. Qed.

(** C9: on an empty transcript [export_chat] returns the fixed text; on a
    transcript of [N] messages it returns the header followed by exactly
    [N] blocks, the block at position [k] being the one of the message at
    position [k]: a heading with the label of its role and the number
    [k + 1], then its content and a rule. *)
Theorem export_chat_blocks (self : t) :
  (messages self = [] ->
   result_of (export_chat env self) = Returned empty_export) /\
  (messages self <> [] ->
   exists blocks,
     result_of (export_chat env self)
     = Returned (export_header (now_strftime env (clock_reads self))
                   ++ join blocks) /\
     List.length blocks = List.length (messages self) /\
     forall k m,
       nth_error (messages self) k = Some m ->
       nth_error blocks k = Some (message_block k m) /\
       startswith (message_block k m)
         ("## " ++ role_label m ++ " - Mensaje " ++ str_of_nat (k + 1)) = true).
Proof.
  unfold export_chat, bind, get, now, ret, result_of. split.
  - intros ->. reflexivity.
  - intros Hne. destruct (messages self) as [|m0 rest] eqn:Hm; [congruence|].
    exists (map (fun im => message_block (fst im) (snd im))
                (enumerate (m0 :: rest))).
    cbn [fst snd messages]. split; [|split].
    + unfold enumerate. rewrite export_loop. unfold export_header.
      now rewrite !append_assoc.
    + unfold enumerate. now rewrite length_map, enumerate_from_length.
    + intros k m Hk. split.
      * unfold enumerate.
        now rewrite nth_error_map, (enumerate_from_nth _ 0 k m Hk).
      * apply startswith_iff. unfold message_block, block_heading.
        eexists. rewrite !append_assoc. reflexivity.
Qed.

End Transcript.

(** C8 at two calls on an empty transcript. *)
Lemma add_messages_two :
  exists final,
    add_messages env_ok [("user", "Autores de California");
                         ("assistant", "SELECT au_lname FROM authors")]
      empty_chat = (Returned tt, final, []) /\
    List.length (ChatInterface.all_messages final) = 2 /\
    map role_content (ChatInterface.all_messages final)
    = [("user", "Autores de California");
       ("assistant", "SELECT au_lname FROM authors")].
Proof.
  destruct (add_messages_all env_ok
              [("user", "Autores de California");
               ("assistant", "SELECT au_lname FROM authors")] empty_chat)
    as (final & Hrun & _ & _ & _ & _ & Hempty).
  exists final. split; [exact Hrun|]. apply Hempty. reflexivity.
Defined.

(** C9 at the empty transcript and at a transcript of one question. *)
Lemma export_chat_empty_and_one :
  result_of (ChatInterface.export_chat env_ok empty_chat)
  = Returned ChatInterface.empty_export /\
  exists blocks,
    result_of (ChatInterface.export_chat env_ok one_question)
    = Returned (export_header "2025-01-01 00:00:01" ++ join blocks) /\
    List.length blocks = 1.
Proof.
  split.
  - apply (proj1 (export_chat_blocks env_ok empty_chat)). reflexivity.
  - destruct (proj2 (export_chat_blocks env_ok one_question)) as (b & H1 & H2 & _).
    + discriminate.
    + exists b. split; [exact H1 | exact H2].
Defined.

Example export_chat_one_question :
  result_of (ChatInterface.export_chat env_ok one_question)
  = Returned
      ("# Historial de Chat - Pubs SQL Assistant" ++ nl ++ nl
         ++ "Exportado: 2025-01-01 00:00:01" ++ nl ++ nl
         ++ "## 👤 Usuario - Mensaje 1" ++ nl ++ nl
         ++ "Autores de California" ++ nl ++ nl
         ++ "---" ++ nl ++ nl).
Proof. reflexivity. Qed.

Example generate_sql_ready :
  SQLGenerator.generate_sql env_ok "Autores de California" ready_generator
  = (Returned "SELECT au_lname FROM authors", ready_generator,
     [EvGenerateContent "models/gemini-1.5-flash"
        (SQLGenerator._create_sql_prompt "Autores de California")]).
Proof. reflexivity. Qed.

Example execute_query_ready :
  result_of
    (DatabaseClient.execute_query env_ok "SELECT au_lname FROM authors"
       ready_client) = Returned (Some sample_frame) /\
  connections_closed (opened_by env_ok)
    (trace_of
       (DatabaseClient.execute_query env_ok "SELECT au_lname FROM authors"
          ready_client)) = true.
Proof. split; reflexivity. Qed.

(** The sibling of [execute_query]: [test_connection] closes what it
    opens. *)
Example test_connection_closes :
  DatabaseClient.test_connection env_ok ready_client
  = (Returned true, ready_client, [EvConnect "DSN=pubs"; EvClose 7]).
Proof. reflexivity. Qed.

(** * Further properties of the code *)

(** ** Cleaning and checking the provider's text *)

Section Cleaning.
Import SQLGenerator.

Lemma replace_absent (s old new : string) :
  contains old s = false -> replace s old new = s.
Proof.
  induction s as [|c s IH]; [reflexivity|].
  rewrite contains_unfold. intros H. apply orb_false_iff in H as [Hp Hc].
  rewrite (replace_miss _ _ _ _ Hp). now rewrite IH.
Qed.

(** X1: a text with no code fence in it and no whitespace at its ends
    goes through the cleaning of [generate_sql] unchanged, and cleaning
    twice is cleaning once. *)
Theorem clean_response_fixed :
  (forall text,
     contains fence text = false -> trimmed text ->
     clean_response text = text) /\
  (forall text, clean_response (clean_response text) = clean_response text).
Proof.
  assert (forall text,
            contains fence text = false -> trimmed text ->
            clean_response text = text) as Hfix.
  { intros text Hf Ht. unfold clean_response.
    rewrite (strip_fixed text Ht).
    rewrite (replace_absent text "```sql" "");
      [|apply (contains_false_mono fence); [reflexivity | exact Hf]].
    rewrite (replace_absent text "```" "" Hf). exact (strip_fixed text Ht). }
  split; [exact Hfix|]. intros text. apply Hfix.
  - apply clean_response_fence_free.
  - apply clean_response_trimmed.
Qed.

Lemma startswith_app_cases (s t p : string) :
  startswith (s ++ t) p = true ->
  startswith s p = true \/
  (startswith p s = true /\ String.length s < String.length p).
Proof.
  revert s; induction p as [|a p IH]; intros s H; [now left|].
  destruct s as [|b s].
  - right. split; [reflexivity | simpl; lia].
  - cbn [append startswith] in *. apply andb_true_iff in H as [E H].
    rewrite E. cbn [andb]. destruct (IH s H) as [Hs|[Hs Hl]].
    + now left.
    + right. apply Ascii.eqb_eq in E. subst b.
      rewrite Ascii.eqb_refl. split; [exact Hs | simpl; lia].
Qed.

(** X2: a text [_validate_sql] accepts is still accepted with any text put
    after it. *)
Theorem validate_sql_append (s t : string) :
  _validate_sql s = true -> _validate_sql (s ++ t) = true.
Proof.
  intros H. apply validate_sql_upper_iff in H as (Hp & Hs & Hf).
  apply validate_sql_upper_iff. split; [|split].
  - destruct (startswith (s ++ t) "Error:") eqn:E; [|reflexivity].
    exfalso. apply startswith_app_cases in E as [E|[E Hl]]; [congruence|].
    apply startswith_iff in E as [u Hu].
    do 6 (destruct s as [|? s];
          [vm_compute in Hs; discriminate
          |cbn [append] in Hu; injection Hu as <- Hu]).
    simpl in Hl. lia.
  - now apply contains_upper_append.
  - now apply contains_upper_append.
Qed.

End Cleaning.

(** X1 at a statement as the provider may give it without fences. *)
Lemma clean_response_fixed_plain :
  SQLGenerator.clean_response "SELECT au_lname FROM authors"
  = "SELECT au_lname FROM authors".
Proof.
  apply (proj1 clean_response_fixed "SELECT au_lname FROM authors").
  - reflexivity.
  - intros w Hw. vm_compute in Hw.
    repeat (destruct Hw as [<-|Hw]; [split; reflexivity|]).
    destruct Hw.
Defined.

(** X2 at the statement with a second one after it. *)
Lemma validate_sql_append_drop :
  SQLGenerator._validate_sql
    ("SELECT * FROM authors" ++ "; DROP TABLE authors") = true.
Proof.
  apply (validate_sql_append "SELECT * FROM authors" "; DROP TABLE authors").
  reflexivity.
Defined.

(** ** Configuring the generator *)

Section Configuring.
Import SQLGenerator.

Lemma scan_available_in (p : string) (available : list string) (a : string) :
  scan_available p available = Some a -> In a available.
Proof.
  intros H. apply scan_available_some in H as (j & Hj & _).
  exact (nth_error_In _ _ Hj).
Qed.

Lemma select_model_name_in (available : list string) (a : string) :
  select_model_name available = Some a -> In a available.
Proof.
  unfold select_model_name.
  destruct (scan_preferred preferred_models available) as [b|] eqn:Hs.
  - intros H. injection H as <-.
    apply scan_preferred_some in Hs as (i & p & _ & Hp & _).
    exact (scan_available_in _ _ _ Hp).
  - destruct available as [|first rest]; [discriminate|].
    intros H. injection H as <-. now left.
Qed.

(** X3: the name selected is always one of the names the provider listed,
    and a name is selected whenever the list is not empty. *)
Theorem select_model_name_available (available : list string) :
  (forall a, select_model_name available = Some a -> In a available) /\
  (select_model_name available = None <-> available = []).
Proof.
  split; [exact (select_model_name_in available)|]. split.
  - intros H. destruct available as [|first rest]; [reflexivity|].
    unfold select_model_name in H.
    destruct (scan_preferred preferred_models (first :: rest)); discriminate.
  - intros ->. reflexivity.
Qed.

Variable env : Env.

(** X4: when [genai.configure] raises, [set_api_key] returns [False]
    having made no other call; the new key is kept and so is the model
    that was there, so that a generator that was configured stays so. *)
Theorem set_api_key_refused (key : string) (self : t) (e : exn) :
  genai_configure env key = Raised e ->
  set_api_key env key self
  = (Returned false, {| model := model self; api_key := Some key |},
     [EvConfigure key;
      EvUi Sidebar UiError ("❌ Error configurando Gemini: " ++ e)]) /\
  (is_configured self = true ->
   is_configured (state_of (set_api_key env key self)) = true).
Proof.
  intros Hc. pose proof (set_api_key_run env key self) as H.
  rewrite Hc in H. rewrite H. split; [reflexivity|].
  intros Hi. apply is_configured_model in Hi as [m Hm].
  unfold is_configured. cbn. now rewrite Hm.
Qed.

(** X5: when [genai.configure] returns, [set_api_key] returns [True] and
    keeps the key; the model that was there is replaced by what detection
    gives, so the generator ends configured exactly when detection did not
    fail, and then its model is one of the listed names. *)
Theorem set_api_key_accepted (key : string) (self : t) :
  genai_configure env key = Returned tt ->
  result_of (set_api_key env key self) = Returned true /\
  state_of (set_api_key env key self)
  = {| model := detected_model env; api_key := Some key |} /\
  (is_configured (state_of (set_api_key env key self)) = true <->
   ~ model_detection_fails env) /\
  (forall name,
     model (state_of (set_api_key env key self)) = Some name ->
     exists available,
       genai_list_models env = Returned available /\
       select_model_name available = Some name /\ In name available).
Proof.
  intros Hc. pose proof (set_api_key_run env key self) as H.
  rewrite Hc in H. destruct H as [tr ->]. cbn.
  split; [reflexivity|]. split; [reflexivity|]. split.
  - rewrite detection_fails_no_model. unfold is_configured. cbn.
    destruct (detected_model env); split; congruence.
  - intros name. unfold detected_model.
    destruct (genai_list_models env) as [available|]; [|discriminate].
    destruct (select_model_name available) as [n|] eqn:Hs; [|discriminate].
    destruct (genai_GenerativeModel env n); [|discriminate].
    intros H. injection H as ->. exists available.
    split; [reflexivity|]. split; [exact Hs|].
    exact (select_model_name_in _ _ Hs).
Qed.

(** X6: a configured generator makes exactly one request to the provider
    for a question, whether the answer is kept or refused, and is left as
    it was; the prompt of the request holds the schema and the question
    as they are. *)
Theorem generate_sql_one_request (q : string) (self : t) :
  is_configured self = true ->
  exists m r,
    model self = Some m /\
    generate_sql env q self
    = (Returned r, self, [EvGenerateContent m (_create_sql_prompt q)]) /\
    contains pubs_schema (_create_sql_prompt q) = true /\
    contains q (_create_sql_prompt q) = true.
Proof.
  intros Hi. destruct (is_configured_model self Hi) as [m Hm].
  rewrite generate_sql_run, Hi, Hm. exists m. eexists.
  split; [reflexivity|]. split; [reflexivity|].
  unfold _create_sql_prompt. split; apply contains_iff.
  - exists prompt_head, (prompt_rules ++ q ++ prompt_tail). reflexivity.
  - exists (prompt_head ++ pubs_schema ++ prompt_rules), prompt_tail.
    now rewrite !append_assoc.
Qed.

End Configuring.

(** X4 at a generator that works and is given a key the provider refuses. *)
Lemma set_api_key_refused_ready :
  SQLGenerator.is_configured
    (state_of (SQLGenerator.set_api_key env_key_refused "bad" ready_generator))
  = true.
Proof.
  apply (set_api_key_refused env_key_refused "bad" ready_generator
           "API key not valid").
  - reflexivity.
  - reflexivity.
Defined.

(** X5 at a new generator and a key the provider takes. *)
Lemma set_api_key_accepted_fresh :
  state_of (SQLGenerator.set_api_key env_ok "key" fresh_generator)
  = {| SQLGenerator.model := detected_model env_ok;
       SQLGenerator.api_key := Some "key" |}.
Proof.
  apply (set_api_key_accepted env_ok "key" fresh_generator). reflexivity.
Defined.

(** X6 at a configured generator. *)
Lemma generate_sql_one_request_ready :
  exists m r,
    SQLGenerator.model ready_generator = Some m /\
    SQLGenerator.generate_sql env_ok "Autores de California" ready_generator
    = (Returned r, ready_generator,
       [EvGenerateContent m
          (SQLGenerator._create_sql_prompt "Autores de California")]) /\
    contains SQLGenerator.pubs_schema
      (SQLGenerator._create_sql_prompt "Autores de California") = true /\
    contains "Autores de California"
      (SQLGenerator._create_sql_prompt "Autores de California") = true.
Proof.
  apply (generate_sql_one_request env_ok "Autores de California"
           ready_generator).
  reflexivity.
Defined.

(** ** Running and probing the database *)

Section Probing.
Import DatabaseClient.

Variable env : Env.

Lemma is_configured_string (self : t) :
  is_configured self = true ->
  exists cs, connection_string self = Some cs /\ is_empty cs = false.
Proof.
  unfold is_configured. destruct (connection_string self) as [cs|];
    [|discriminate].
  intros H. exists cs. split; [reflexivity|]. now destruct (is_empty cs).
Qed.

(** X7: [execute_query] leaves the client as it was, and it returns a
    table exactly when the client is configured and connecting, running
    the statement and closing all return; the table is then the one the
    statement gave.  A close that raises loses the rows already read. *)
Theorem execute_query_table (sql : string) (self : t) :
  state_of (execute_query env sql self) = self /\
  (forall df,
     result_of (execute_query env sql self) = Returned (Some df) <->
     is_configured self = true /\
     exists cs conn,
       connection_string self = Some cs /\
       pyodbc_connect env cs = Returned conn /\
       pd_read_sql_query env sql conn = Returned df /\
       conn_close env conn = Returned tt) /\
  (forall cs conn df e,
     is_configured self = true ->
     connection_string self = Some cs ->
     pyodbc_connect env cs = Returned conn ->
     pd_read_sql_query env sql conn = Returned df ->
     conn_close env conn = Raised e ->
     result_of (execute_query env sql self) = Returned None).
Proof.
  rewrite execute_query_run. split; [|split].
  - destruct (is_configured self); [|reflexivity].
    destruct (connection_string self) as [cs|]; [|reflexivity].
    destruct (pyodbc_connect env cs) as [conn|e]; [|reflexivity].
    destruct (pd_read_sql_query env sql conn) as [d|e]; [|reflexivity].
    destruct (conn_close env conn) as [[]|e]; reflexivity.
  - intros df. destruct (is_configured self).
    + destruct (connection_string self) as [cs|].
      * destruct (pyodbc_connect env cs) as [conn|e] eqn:Hc.
        -- destruct (pd_read_sql_query env sql conn) as [d|e] eqn:Hr.
           ++ destruct (conn_close env conn) as [[]|e] eqn:Hk.
              ** split.
                 --- intros H. injection H as <-. split; [reflexivity|].
                     now exists cs, conn.
                 --- intros (_ & cs' & conn' & Hs & Hc' & Hr' & _).
                     injection Hs as <-. rewrite Hc in Hc'.
                     injection Hc' as <-. rewrite Hr in Hr'. now injection Hr' as <-.
              ** split; [discriminate|].
                 intros (_ & cs' & conn' & Hs & Hc' & _ & Hk').
                 injection Hs as <-. rewrite Hc in Hc'. injection Hc' as <-.
                 congruence.
           ++ split; [discriminate|].
              intros (_ & cs' & conn' & Hs & Hc' & Hr' & _).
              injection Hs as <-. rewrite Hc in Hc'. injection Hc' as <-.
              congruence.
        -- split; [discriminate|].
           intros (_ & cs' & conn' & Hs & Hc' & _). injection Hs as <-.
           congruence.
      * split; [discriminate|]. intros (_ & cs' & conn' & Hs & _).
        discriminate.
    + split; [discriminate | intros [H _]; discriminate].
  - intros cs conn df e Hi Hs Hc Hr Hk. now rewrite Hi, Hs, Hc, Hr, Hk.
Qed.

(** X8: the run of [execute_query] that ends with the connection it
    opened not closed is the one where the driver connects and then
    raises on the statement, and no other. *)
Theorem execute_query_open_iff (sql : string) (self : t) :
  connections_closed (opened_by env) (trace_of (execute_query env sql self))
  = false <->
  is_configured self = true /\
  exists cs conn e,
    connection_string self = Some cs /\
    pyodbc_connect env cs = Returned conn /\
    pd_read_sql_query env sql conn = Raised e.
Proof.
  rewrite execute_query_run.
  destruct (is_configured self);
    [|split; [discriminate | intros [H _]; discriminate]].
  destruct (connection_string self) as [cs|];
    [|split; [discriminate | intros (_ & c & n & e & H & _); discriminate]].
  destruct (pyodbc_connect env cs) as [conn|e] eqn:Hc.
  - destruct (pd_read_sql_query env sql conn) as [d|e] eqn:Hr.
    + destruct (conn_close env conn) as [[]|e];
        (split;
         [cbn; unfold opened_by; rewrite Hc; cbn; rewrite Nat.eqb_refl;
          discriminate
         |intros (_ & c & n & e' & Hs & Hc' & Hr'); injection Hs as <-;
          rewrite Hc in Hc'; injection Hc' as <-; congruence]).
    + split; [|now cbn; unfold opened_by; rewrite Hc].
      intros _. split; [reflexivity|]. now exists cs, conn, e.
  - split.
    + cbn. unfold opened_by. rewrite Hc. discriminate.
    + intros (_ & c & n & e' & Hs & Hc' & _). injection Hs as <-. congruence.
Qed.

Lemma test_connection_run (self : t) :
  test_connection env self =
  if is_configured self then
    match connection_string self with
    | Some cs =>
        match pyodbc_connect env cs with
        | Returned conn =>
            match conn_close env conn with
            | Returned _ =>
                (Returned true, self, [EvConnect cs; EvClose conn])
            | Raised e =>
                (Returned false, self,
                 [EvConnect cs; EvClose conn;
                  EvUi Sidebar UiError ("❌ Error de conexión: " ++ e)])
            end
        | Raised e =>
            (Returned false, self,
             [EvConnect cs;
              EvUi Sidebar UiError ("❌ Error de conexión: " ++ e)])
        end
    | None =>
        (Returned false, self,
         [EvUi Sidebar UiError
            "❌ Error de conexión: argument 1 must be str, not None"])
    end
  else (Returned false, self, []).
Proof.
  unfold test_connection, bind, get, try_except, connect, call, raise, ret, ui.
  destruct (is_configured self); [|reflexivity]. cbn [negb].
  destruct (connection_string self) as [cs|]; [|reflexivity].
  destruct (pyodbc_connect env cs) as [conn|e]; [|reflexivity].
  destruct (conn_close env conn) as [[]|e]; reflexivity.
Qed.

(** X9: [test_connection] never raises and leaves the client as it was;
    it answers [True] exactly when the client is configured and the driver
    both connects and closes; a connection it opens it always closes, and
    without a connection string it makes no call at all. *)
Theorem test_connection_probe (self : t) :
  (exists b, result_of (test_connection env self) = Returned b) /\
  state_of (test_connection env self) = self /\
  (result_of (test_connection env self) = Returned true <->
   is_configured self = true /\
   exists cs conn,
     connection_string self = Some cs /\
     pyodbc_connect env cs = Returned conn /\
     conn_close env conn = Returned tt) /\
  connections_closed (opened_by env) (trace_of (test_connection env self))
  = true /\
  (is_configured self = false -> trace_of (test_connection env self) = []).
Proof.
  rewrite test_connection_run.
  destruct (is_configured self) eqn:Hi.
  - destruct (is_configured_string self Hi) as (cs & Hs & _). rewrite Hs.
    destruct (pyodbc_connect env cs) as [conn|e] eqn:Hc.
    + destruct (conn_close env conn) as [[]|e] eqn:Hk.
      * split; [now exists true|]. split; [reflexivity|]. split; [|split].
        -- split; [|reflexivity]. intros _. split; [reflexivity|].
           now exists cs, conn.
        -- cbn. unfold opened_by. rewrite Hc. cbn. now rewrite Nat.eqb_refl.
        -- discriminate.
      * split; [now exists false|]. split; [reflexivity|]. split; [|split].
        -- split; [discriminate|].
           intros (_ & c & n & Hs' & Hc' & Hk'). injection Hs' as <-.
           rewrite Hc in Hc'. injection Hc' as <-. congruence.
        -- cbn. unfold opened_by. rewrite Hc. cbn. now rewrite Nat.eqb_refl.
        -- discriminate.
    + split; [now exists false|]. split; [reflexivity|]. split; [|split].
      * split; [discriminate|].
        intros (_ & c & n & Hs' & Hc' & _). injection Hs' as <-. congruence.
      * cbn. unfold opened_by. now rewrite Hc.
      * discriminate.
  - split; [now exists false|]. split; [reflexivity|]. split; [|split].
    + split; [discriminate | intros [H _]; discriminate].
    + reflexivity.
    + reflexivity.
Qed.

End Probing.

Section Connecting.
Import DatabaseClient.

Variable env : Env.

Lemma execute_query_connects_first (env' : Env) (sql cs : string) (self : t) :
  connection_string self = Some cs -> is_empty cs = false ->
  exists tr, trace_of (execute_query env' sql self) = EvConnect cs :: tr.
Proof.
  intros Hs He. rewrite execute_query_run. unfold is_configured.
  rewrite Hs, He. cbn [negb].
  destruct (pyodbc_connect env' cs) as [conn|e]; [|eexists; reflexivity].
  destruct (pd_read_sql_query env' sql conn) as [d|e]; [|eexists; reflexivity].
  destruct (conn_close env' conn) as [[]|e]; eexists; reflexivity.
Qed.

Lemma set_connection_string_run (cs : string) (self : t) :
  set_connection_string env cs self =
  let kept := {| connection_string := Some cs |} in
  let ok := EvUi Sidebar UiSuccess "✅ Conexión a BD configurada y probada" in
  let ko := EvUi Sidebar UiError "❌ No se pudo conectar a la base de datos" in
  if is_empty cs then (Returned tt, kept, [ko])
  else
    match pyodbc_connect env cs with
    | Returned conn =>
        match conn_close env conn with
        | Returned _ => (Returned tt, kept, [EvConnect cs; EvClose conn; ok])
        | Raised e =>
            (Returned tt, kept,
             [EvConnect cs; EvClose conn;
              EvUi Sidebar UiError ("❌ Error de conexión: " ++ e); ko])
        end
    | Raised e =>
        (Returned tt, kept,
         [EvConnect cs; EvUi Sidebar UiError ("❌ Error de conexión: " ++ e);
          ko])
    end.
Proof.
  unfold set_connection_string, bind, put. cbn [fst snd].
  rewrite test_connection_run. unfold is_configured. cbn [connection_string].
  destruct (is_empty cs); [reflexivity|]. cbn [negb].
  destruct (pyodbc_connect env cs) as [conn|e]; [|reflexivity].
  destruct (conn_close env conn) as [[]|e]; reflexivity.
Qed.

(** X10: [set_connection_string] never raises and keeps the string it is
    given whether or not the probe succeeds; it probes a non-empty string
    with one connection, which it closes, and an empty one not at all.
    Afterwards [execute_query] connects with the string that was kept,
    whatever the probe said. *)
Theorem set_connection_string_keeps (cs : string) (self : t) :
  result_of (set_connection_string env cs self) = Returned tt /\
  state_of (set_connection_string env cs self)
  = {| connection_string := Some cs |} /\
  count_calls is_connect (trace_of (set_connection_string env cs self))
  = (if is_empty cs then 0 else 1) /\
  connections_closed (opened_by env)
    (trace_of (set_connection_string env cs self)) = true /\
  (is_empty cs = false ->
   forall env' sql,
     exists tr,
       trace_of
         (execute_query env' sql (state_of (set_connection_string env cs self)))
       = EvConnect cs :: tr).
Proof.
  assert (state_of (set_connection_string env cs self)
          = {| connection_string := Some cs |}) as Hst.
  { rewrite set_connection_string_run. cbn zeta.
    destruct (is_empty cs); [reflexivity|].
    destruct (pyodbc_connect env cs) as [conn|e]; [|reflexivity].
    destruct (conn_close env conn) as [[]|e]; reflexivity. }
  split; [|split; [exact Hst|split; [|split]]].
  - rewrite set_connection_string_run. cbn zeta.
    destruct (is_empty cs); [reflexivity|].
    destruct (pyodbc_connect env cs) as [conn|e]; [|reflexivity].
    destruct (conn_close env conn) as [[]|e]; reflexivity.
  - rewrite set_connection_string_run. cbn zeta.
    destruct (is_empty cs); [reflexivity|].
    destruct (pyodbc_connect env cs) as [conn|e]; [|reflexivity].
    destruct (conn_close env conn) as [[]|e]; reflexivity.
  - rewrite set_connection_string_run. cbn zeta.
    destruct (is_empty cs); [reflexivity|].
    destruct (pyodbc_connect env cs) as [conn|e] eqn:Hc.
    + destruct (conn_close env conn) as [[]|e]; cbn; unfold opened_by;
        rewrite Hc; cbn; now rewrite Nat.eqb_refl.
    + cbn. unfold opened_by. now rewrite Hc.
  - intros He env' sql. rewrite Hst.
    now apply execute_query_connects_first.
Qed.

End Connecting.

(** ** Showing and clearing the transcript *)

Section Showing.
Import ChatInterface.

Lemma split_from_drop (k : nat) (sep s : string) :
  split_from k sep s = split_from 0 sep (drop k s).
Proof.
  revert k; induction s as [|c s IH]; intros k.
  - now rewrite drop_nil.
  - destruct k as [|k]; [reflexivity|]. simpl. apply IH.
Qed.

Lemma split_miss (c : ascii) (s sep : string) :
  startswith (String c s) sep = false ->
  split_from 0 sep (String c s)
  = (String c (fst (split_from 0 sep s)), snd (split_from 0 sep s)).
Proof.
  intros H. cbn [split_from]. rewrite H.
  now destruct (split_from 0 sep s).
Qed.

Lemma split_hit (s sep : string) :
  sep <> "" -> startswith s sep = true ->
  split_from 0 sep s
  = ("", fst (split_from 0 sep (drop (String.length sep) s))
         :: snd (split_from 0 sep (drop (String.length sep) s))).
Proof.
  intros Hsep H. destruct s as [|c s].
  - destruct sep; [congruence | discriminate].
  - cbn [split_from]. rewrite H, split_from_drop.
    destruct sep as [|a sep]; [congruence|].
    replace (String.length (String a sep) - 1) with (String.length sep)
      by (cbn [String.length]; lia).
    change (drop (String.length (String a sep)) (String c s))
      with (drop (String.length sep) s).
    now destruct (split_from 0 (String a sep) (drop (String.length sep) s)).
Qed.

Lemma split_absent (s sep : string) :
  contains sep s = false -> split_from 0 sep s = (s, []).
Proof.
  induction s as [|c s IH]; [reflexivity|].
  rewrite contains_unfold. intros H. apply orb_false_iff in H as [Hp Hc].
  rewrite (split_miss _ _ _ Hp), (IH Hc). reflexivity.
Qed.

Lemma split_present (s sep : string) :
  sep <> "" -> contains sep s = true -> snd (split_from 0 sep s) <> [].
Proof.
  intros Hsep. induction s as [|c s IH].
  - destruct sep; [congruence | discriminate].
  - rewrite contains_unfold. destruct (startswith (String c s) sep) eqn:Hp.
    + intros _. rewrite (split_hit _ _ Hsep Hp). discriminate.
    + intros H. rewrite (split_miss _ _ _ Hp). exact (IH H).
Qed.

(** Before the first place where the first character of [sep] stands, no
    occurrence of [sep] begins. *)
Lemma split_after_clean (c0 : ascii) (sep' a b : string) :
  has_char c0 a = false ->
  split_from 0 (String c0 sep') (a ++ String c0 sep' ++ b)
  = (a, fst (split_from 0 (String c0 sep') b)
        :: snd (split_from 0 (String c0 sep') b)).
Proof.
  induction a as [|c a IH]; intros H.
  - change ("" ++ String c0 sep' ++ b) with (String c0 sep' ++ b).
    rewrite split_hit; [|discriminate|apply startswith_app].
    replace (drop (String.length (String c0 sep')) (String c0 sep' ++ b))
      with b; [reflexivity|].
    clear. generalize (String c0 sep'). intros p.
    induction p; simpl; auto.
  - simpl in H. apply orb_false_iff in H as [Hc Ha].
    change (String c a ++ String c0 sep' ++ b)
      with (String c (a ++ String c0 sep' ++ b)).
    rewrite split_miss.
    + now rewrite (IH Ha).
    + simpl. now rewrite Hc.
Qed.

(** X11: a message is shown with a code block exactly when its content
    holds the opening fence; without it the content is shown as it is,
    after the name of the role. *)
Theorem display_message_code (m : ChatMessage) :
  existsb is_code (display_message m) = contains "```sql" (content m) /\
  (contains "```sql" (content m) = false ->
   display_message m = [StChatMessage (role m); StMarkdown (content m)]).
Proof.
  unfold display_message.
  destruct (contains "```sql" (content m)) eqn:Hc; [|split; reflexivity].
  split; [|discriminate].
  pose proof (split_present (content m) "```sql"
                ltac:(discriminate) Hc) as Hs.
  unfold split. destruct (split_from 0 "```sql" (content m)) as [p o].
  destruct o as [|o1 o]; [now destruct Hs|].
  cbn [List.length Nat.ltb Nat.leb existsb is_code orb].
  rewrite existsb_app. cbn. apply orb_true_r.
Qed.

Lemma startswith_fence_after (x y : string) :
  contains fence x = false -> startswith (x ++ nl ++ y) fence = false.
Proof.
  intros Hx. destruct (startswith (x ++ nl ++ y) fence) eqn:H; [|reflexivity].
  apply startswith_iff in H as [u H].
  destruct x as [|c1 [|c2 [|c3 x]]]; try discriminate H.
  cbn in H. injection H as -> -> -> _.
  rewrite contains_unfold in Hx. discriminate Hx.
Qed.

Lemma contains_tail (p : string) (c : ascii) (s : string) :
  contains p (String c s) = false -> contains p s = false.
Proof.
  rewrite contains_unfold. intros H. now apply orb_false_iff in H as [_ H].
Qed.

Lemma startswith_longer (s p q : string) :
  startswith s (p ++ q) = true -> startswith s p = true.
Proof.
  intros H. apply startswith_iff in H as [u ->]. apply startswith_iff.
  exists (q ++ u). now rewrite append_assoc.
Qed.

(** A fence-free text followed by a line feed and the closing fence: the
    opening fence does not occur in it, and its piece before the first
    fence is the text with the line feed. *)
Lemma no_sql_fence_in_block (x : string) :
  contains fence x = false -> contains sql_fence (x ++ nl ++ fence) = false.
Proof.
  induction x as [|c x IH]; intros Hx; [reflexivity|].
  change (String c x ++ nl ++ fence) with (String c (x ++ nl ++ fence)).
  rewrite contains_unfold, (IH (contains_tail _ _ _ Hx)), orb_false_r.
  destruct (startswith (String c (x ++ nl ++ fence)) sql_fence) eqn:H;
    [|reflexivity].
  apply (startswith_longer _ fence "sql") in H.
  change (String c (x ++ nl ++ fence)) with (String c x ++ nl ++ fence) in H.
  now rewrite (startswith_fence_after _ _ Hx) in H.
Qed.

Lemma first_piece_of_block (x : string) :
  contains fence x = false ->
  fst (split_from 0 fence (x ++ nl ++ fence)) = x ++ nl.
Proof.
  induction x as [|c x IH]; intros Hx; [reflexivity|].
  change (String c x ++ nl ++ fence) with (String c (x ++ nl ++ fence)).
  rewrite split_miss.
  - cbn [fst]. now rewrite (IH (contains_tail _ _ _ Hx)).
  - change (String c (x ++ nl ++ fence)) with (String c x ++ nl ++ fence).
    exact (startswith_fence_after _ _ Hx).
Qed.

Lemma display_of_generated (r sql stamp : string) :
  contains fence sql = false ->
  display_message
    {| role := r; content := PubsSQLChatApp.generated_message sql;
       timestamp := stamp |}
  = [StChatMessage r; StMarkdown ("Consulta SQL generada:" ++ nl);
     StCode (nl ++ sql ++ nl) "sql"].
Proof.
  intros Hsql.
  assert (contains fence (nl ++ sql) = false) as Hx.
  { change (nl ++ sql) with (String "010" sql).
    now rewrite contains_unfold, Hsql. }
  unfold display_message. cbn [role content].
  assert (PubsSQLChatApp.generated_message sql
          = ("Consulta SQL generada:" ++ nl) ++ "```sql"
              ++ ((nl ++ sql) ++ nl ++ fence)) as Hm.
  { unfold PubsSQLChatApp.generated_message, fence.
    now rewrite !append_assoc. }
  assert (contains "```sql" (PubsSQLChatApp.generated_message sql) = true)
    as Hc.
  { apply contains_iff. rewrite Hm. now eexists _, _. }
  assert (split (PubsSQLChatApp.generated_message sql) "```sql"
          = ["Consulta SQL generada:" ++ nl; (nl ++ sql) ++ nl ++ fence])
    as Hparts.
  { unfold split. rewrite Hm.
    change "```sql" with (String "`" "``sql").
    rewrite split_after_clean by reflexivity.
    change (String "`" "``sql") with sql_fence.
    now rewrite (split_absent _ _ (no_sql_fence_in_block _ Hx)). }
  assert (nth 0 (split ((nl ++ sql) ++ nl ++ fence) "```") ""
          = nl ++ sql ++ nl) as Hcode.
  { unfold split. pose proof (first_piece_of_block _ Hx) as Hf.
    unfold fence in Hf at 1.
    destruct (split_from 0 "```" ((nl ++ sql) ++ nl ++ fence)) as [p o].
    cbn [fst] in Hf. cbn [nth]. rewrite Hf. now rewrite append_assoc. }
  rewrite Hc, Hparts. cbn [List.length Nat.ltb Nat.leb nth]. rewrite Hcode.
  reflexivity.
Qed.

(** X12: the message the application stores for a generated statement is
    shown again as the line that announces it followed by a code block
    holding that statement between two line feeds, when the statement
    holds no fence (as every statement [generate_sql] returns). *)
Theorem display_generated_message (r sql stamp : string) :
  contains fence sql = false ->
  display_message
    {| role := r; content := PubsSQLChatApp.generated_message sql;
       timestamp := stamp |}
  = [StChatMessage r; StMarkdown ("Consulta SQL generada:" ++ nl);
     StCode (nl ++ sql ++ nl) "sql"].
Proof. exact (display_of_generated r sql stamp). Qed.

Variable env : Env.

(** X13: [clear_chat] leaves an empty transcript whatever it held: the
    export is then the fixed text, nothing is shown, and messages added
    afterwards are alone in the transcript. *)
Theorem clear_chat_empties (self : t) :
  exists cleared,
    clear_chat self = (Returned tt, cleared, []) /\
    all_messages cleared = [] /\
    result_of (export_chat env cleared) = Returned empty_export /\
    display_messages cleared = [] /\
    total_messages cleared = 0 /\
    forall args,
      exists final,
        add_messages env args cleared = (Returned tt, final, []) /\
        map role_content (all_messages final) = args.
Proof.
  eexists. split; [reflexivity|]. repeat split.
  intros args. eexists. split; [apply add_messages_run|].
  cbn. apply stamped_role_content.
Qed.

End Showing.

(** ** One question through the application *)

Section Asking.
Import PubsSQLChatApp.

Variable aenv : AppEnv.

Lemma generate_sql_outcome (q : string) (self : SQLGenerator.t) :
  exists r tr,
    SQLGenerator.generate_sql (components aenv) q self = (Returned r, self, tr) /\
    forallb is_provider_request tr = true /\
    ((startswith r "Error:" = true /\ caller_takes_as_sql r = false) \/
     (caller_takes_as_sql r = true /\ SQLGenerator._validate_sql r = true /\
      contains fence r = false)).
Proof.
  rewrite generate_sql_run.
  assert (forall r, startswith r "Error:" = true ->
                    startswith r "Error:" = true /\ caller_takes_as_sql r = false)
    as Herr.
  { intros r H. split; [exact H|]. unfold caller_takes_as_sql.
    now rewrite H, andb_false_r. }
  destruct (SQLGenerator.is_configured self).
  - destruct (SQLGenerator.model self) as [m|].
    + eexists _, _. split; [reflexivity|]. split; [reflexivity|]. cbn zeta.
      destruct (generate_content_text (components aenv) m
                  (SQLGenerator._create_sql_prompt q)) as [text|e].
      * destruct (SQLGenerator._validate_sql (SQLGenerator.clean_response text))
          eqn:Hv.
        -- right. destruct (validate_sql_not_error _ Hv) as [Hne Hp].
           unfold caller_takes_as_sql. rewrite Hp, (is_empty_false _ Hne).
           split; [reflexivity|]. split; [exact Hv|].
           apply clean_response_fence_free.
        -- left. now apply Herr.
      * left. now apply Herr.
    + eexists _, _. split; [reflexivity|]. split; [reflexivity|].
      left. now apply Herr.
  - eexists _, _. split; [reflexivity|]. split; [reflexivity|].
    left. now apply Herr.
Qed.

Lemma execute_query_outcome (sql : string) (self : DatabaseClient.t) :
  exists res tr,
    DatabaseClient.execute_query (components aenv) sql self
    = (Returned res, self, tr) /\
    (forall s c, In (EvReadSql s c) tr -> s = sql).
Proof.
  rewrite execute_query_run.
  destruct (DatabaseClient.is_configured self).
  - destruct (DatabaseClient.connection_string self) as [cs|].
    + destruct (pyodbc_connect (components aenv) cs) as [conn|e].
      * destruct (pd_read_sql_query (components aenv) sql conn) as [d|e].
        -- destruct (conn_close (components aenv) conn) as [[]|e];
             eexists _, _; (split; [reflexivity|]); intros s c H; cbn in H;
             repeat (destruct H as [H|H]; try discriminate H; try congruence);
             contradiction.
        -- eexists _, _; (split; [reflexivity|]); intros s c H; cbn in H;
             repeat (destruct H as [H|H]; try discriminate H; try congruence);
             contradiction.
      * eexists _, _; (split; [reflexivity|]); intros s c H; cbn in H;
          repeat (destruct H as [H|H]; try discriminate H; try congruence);
          contradiction.
    + eexists _, _; (split; [reflexivity|]); intros s c H; cbn in H;
        repeat (destruct H as [H|H]; try discriminate H; try congruence);
        contradiction.
  - eexists _, _; (split; [reflexivity|]); intros s c H; cbn in H;
      repeat (destruct H as [H|H]; try discriminate H; try congruence);
      contradiction.
Qed.


Lemma with_messages_eq (app : t) (msgs : list ChatInterface.ChatMessage)
  (c : ChatInterface.t) :
  ChatInterface.messages c
  = (ChatInterface.messages (chat_interface app) ++ msgs)%list ->
  ChatInterface.clock_reads c
  = ChatInterface.clock_reads (chat_interface app) + List.length msgs ->
  {| chat_interface := c; sql_generator := sql_generator app;
     db_client := db_client app |} = with_messages app msgs.
Proof.
  intros Hm Hc. unfold with_messages. destruct c as [ms cr]. cbn in *.
  now subst.
Qed.

(** The four ways through [process_user_input]. *)
Lemma process_user_input_paths (input : string) (app : t) :
  exists replies tr,
    process_user_input aenv input app
    = (Returned tt, with_messages app (asked aenv input app :: replies), tr) /\
    ((SQLGenerator.is_configured (sql_generator app) = false /\
      replies = [replied aenv app 1 not_configured_msg] /\
      tr = [Shown (StChatMessage "user"); Shown (StMarkdown input);
            Shown (StChatMessage "assistant");
            Component (EvUi Page UiError not_configured_msg)]) \/
     (SQLGenerator.is_configured (sql_generator app) = true /\
      exists r gtr,
        SQLGenerator.generate_sql (components aenv) input (sql_generator app)
        = (Returned r, sql_generator app, gtr) /\
        forallb is_provider_request gtr = true /\
        ((startswith r "Error:" = true /\
          replies = [replied aenv app 1 ("Error: " ++ r)] /\
          tr = (shown_question input ++ map Component gtr
                  ++ [Component
                        (EvUi Page UiError ("❌ Error generando SQL: " ++ r))])%list) \/
         (SQLGenerator._validate_sql r = true /\ contains fence r = false /\
          ((replies = [replied aenv app 1 (generated_message r)] /\
            DatabaseClient.is_configured (db_client app) = false /\
            tr = (shown_question input ++ map Component gtr ++ shown_sql r)%list) \/
           (replies = [replied aenv app 1 (generated_message r)] /\
            DatabaseClient.is_configured (db_client app) = true /\
            st_button aenv run_label (run_key app) = false /\
            tr = (shown_question input ++ map Component gtr ++ shown_sql r
                    ++ [Shown (StButton run_label (run_key app))])%list) \/
           (DatabaseClient.is_configured (db_client app) = true /\
            st_button aenv run_label (run_key app) = true /\
            exists res etr,
              DatabaseClient.execute_query (components aenv) r (db_client app)
              = (Returned res, db_client app, etr) /\
              (forall s c, In (EvReadSql s c) etr -> s = r) /\
              replies = replied aenv app 1 (generated_message r)
                          :: results_reply aenv app res /\
              tr = (shown_question input ++ map Component gtr ++ shown_sql r
                      ++ [Shown (StButton run_label (run_key app));
                          Shown (StSpinner
                                   "Ejecutando consulta en la base de datos...")]
                      ++ map Component etr ++ shown_results res)%list)))))).
Proof.
  unfold process_user_input, run_query, abind, show, aget, aret, on_chat,
    page_error.
  rewrite add_message_run.
  cbn [chat_interface sql_generator db_client fst snd].
  destruct (SQLGenerator.is_configured (sql_generator app)) eqn:Hc.
  - destruct (generate_sql_outcome input (sql_generator app))
      as (r & gtr & Hg & Hgtr & Hcase).
    unfold on_generator. cbn [chat_interface sql_generator db_client].
    rewrite Hg. cbn [chat_interface sql_generator db_client fst snd].
    destruct Hcase as [[Hp Ht]|(Ht & Hv & Hf)]; rewrite Ht.
    + rewrite add_message_run.
      cbn [chat_interface sql_generator db_client fst snd
           ChatInterface.messages ChatInterface.clock_reads].
      eexists [_], _. split.
      * f_equal. f_equal. apply with_messages_eq.
        -- cbn. now rewrite <- app_assoc.
        -- cbn. lia.
      * right. split; [reflexivity|]. exists r, gtr.
        split; [first [exact Hg | reflexivity]|]. split; [exact Hgtr|]. left.
        split; [exact Hp|]. split.
        -- unfold replied. now rewrite Nat.add_1_r.
        -- unfold shown_question. cbn [List.app map]. reflexivity.
    + rewrite add_message_run.
      cbn [chat_interface sql_generator db_client fst snd
           ChatInterface.messages ChatInterface.clock_reads].
      assert (List.length
                ((ChatInterface.messages (chat_interface app)
                    ++ [asked aenv input app])
                   ++ [replied aenv app 1 (generated_message r)])%list
              = List.length (ChatInterface.messages (chat_interface app)) + 2)
        as Hlen by (rewrite !length_app; cbn; lia).
      unfold asked, replied in Hlen. rewrite Nat.add_1_r in Hlen.
      rewrite Hlen. fold (run_key app). fold run_label.
      destruct (DatabaseClient.is_configured (db_client app)) eqn:Hd.
      * destruct (st_button aenv run_label (run_key app)) eqn:Hb.
        -- destruct (execute_query_outcome r (db_client app))
             as (res & etr & He & Hetr).
           unfold on_client.
           cbn [chat_interface sql_generator db_client fst snd].
           rewrite He. destruct res as [df|].
           ++ rewrite add_message_run.
              cbn [chat_interface sql_generator db_client fst snd
                   ChatInterface.messages ChatInterface.clock_reads].
              eexists [_; _], _. split.
              ** f_equal. f_equal. apply with_messages_eq.
                 --- cbn. now rewrite <- !app_assoc.
                 --- cbn. lia.
              ** right. split; [reflexivity|]. exists r, gtr.
                 split; [first [exact Hg | reflexivity]|]. split; [exact Hgtr|]. right.
                 split; [exact Hv|]. split; [exact Hf|]. right. right.
                 split; [reflexivity|]. split; [reflexivity|].
                 exists (Some df), etr. split; [first [exact He | reflexivity]|].
                 split; [exact Hetr|]. split.
                 --- unfold results_reply, replied.
                     now rewrite Nat.add_1_r, Nat.add_succ_r, Nat.add_1_r.
                 --- unfold shown_question, shown_sql, shown_results.
                     cbn [List.app map]. rewrite ?app_nil_r, <- ?app_assoc.
                     reflexivity.
           ++ eexists [_], _. split.
              ** f_equal. f_equal. apply with_messages_eq.
                 --- cbn. now rewrite <- !app_assoc.
                 --- cbn. lia.
              ** right. split; [reflexivity|]. exists r, gtr.
                 split; [first [exact Hg | reflexivity]|]. split; [exact Hgtr|]. right.
                 split; [exact Hv|]. split; [exact Hf|]. right. right.
                 split; [reflexivity|]. split; [reflexivity|].
                 exists None, etr. split; [first [exact He | reflexivity]|].
                 split; [exact Hetr|]. split.
                 --- unfold results_reply, replied. now rewrite Nat.add_1_r.
                 --- unfold shown_question, shown_sql, shown_results.
                     cbn [List.app map]. rewrite ?app_nil_r, <- ?app_assoc.
                     reflexivity.
        -- eexists [_], _. split.
           ++ f_equal. f_equal. apply with_messages_eq.
              ** cbn. now rewrite <- !app_assoc.
              ** cbn. lia.
           ++ right. split; [reflexivity|]. exists r, gtr.
              split; [first [exact Hg | reflexivity]|]. split; [exact Hgtr|]. right.
              split; [exact Hv|]. split; [exact Hf|]. right. left.
              split; [|split; [reflexivity|split; [reflexivity|]]].
              ** unfold replied. now rewrite Nat.add_1_r.
              ** unfold shown_question, shown_sql.
                 cbn [List.app map]. rewrite ?app_nil_r, <- ?app_assoc.
                 reflexivity.
      * eexists [_], _. split.
        -- f_equal. f_equal. apply with_messages_eq.
           ++ cbn. now rewrite <- !app_assoc.
           ++ cbn. lia.
        -- right. split; [reflexivity|]. exists r, gtr.
           split; [first [exact Hg | reflexivity]|]. split; [exact Hgtr|]. right.
           split; [exact Hv|]. split; [exact Hf|]. left.
           split; [|split; [reflexivity|]].
           ++ unfold replied. now rewrite Nat.add_1_r.
           ++ unfold shown_question, shown_sql.
              cbn [List.app map]. rewrite ?app_nil_r, <- ?app_assoc.
              reflexivity.
  - rewrite add_message_run.
    cbn [chat_interface sql_generator db_client fst snd
         ChatInterface.messages ChatInterface.clock_reads].
    eexists [_], _. split.
    + f_equal. f_equal. apply with_messages_eq.
      * cbn. now rewrite <- app_assoc.
      * cbn. lia.
    + left. split; [reflexivity|]. split; [|reflexivity].
      unfold replied. now rewrite Nat.add_1_r.
Qed.


Lemma in_component_map (e : event) (l : list event) :
  In (Component e) (map Component l) -> In e l.
Proof.
  intros H. apply in_map_iff in H as (x & Hx & Hin). now injection Hx as <-.
Qed.

Lemma provider_requests_only (gtr : list event) (e : event) :
  forallb is_provider_request gtr = true -> In e gtr ->
  is_provider_request e = true.
Proof. intros H Hin. exact (proj1 (forallb_forall _ _) H e Hin). Qed.

(** X14: [process_user_input] never raises and leaves the generator and
    the client as they were; to the transcript it adds the question, as a
    message of the user, and after it one or two messages of the
    assistant, so the count of questions goes up by one. *)
Theorem process_user_input_appends (input : string) (app : t) :
  exists replies tr,
    process_user_input aenv input app
    = (Returned tt, with_messages app (asked aenv input app :: replies), tr) /\
    (List.length replies = 1 \/ List.length replies = 2) /\
    Forall (fun m => ChatInterface.role m = "assistant") replies /\
    ChatInterface.user_messages
      (chat_interface (with_messages app (asked aenv input app :: replies)))
    = S (ChatInterface.user_messages (chat_interface app)).
Proof.
  destruct (process_user_input_paths input app) as (replies & tr & Hrun & Hp).
  exists replies, tr. split; [exact Hrun|].
  assert ((List.length replies = 1 \/ List.length replies = 2) /\
          Forall (fun m => ChatInterface.role m = "assistant") replies)
    as [Hlen Hrole].
  { destruct Hp as [(_ & -> & _)|(_ & r & gtr & _ & _ & Hp)].
    - split; [now left | now repeat constructor].
    - destruct Hp as [(_ & -> & _)|(_ & _ & Hp)].
      + split; [now left | now repeat constructor].
      + destruct Hp as [(-> & _)|[(-> & _)|(_ & _ & res & etr & _ & _ & -> & _)]].
        * split; [now left | now repeat constructor].
        * split; [now left | now repeat constructor].
        * destruct res; cbn;
            (split; [auto | now repeat constructor]). }
  split; [exact Hlen|]. split; [exact Hrole|].
  unfold ChatInterface.user_messages, with_messages.
  cbn [chat_interface ChatInterface.messages].
  rewrite filter_app, length_app. cbn [filter asked ChatInterface.role].
  cbn [String.eqb Ascii.eqb Bool.eqb List.length].
  assert (filter (fun m => (ChatInterface.role m =? "user")%string) replies = [])
    as ->.
  { clear - Hrole. induction Hrole as [|m l Hm _ IH]; [reflexivity|].
    cbn [filter]. now rewrite Hm, IH. }
  cbn. lia.
Qed.

(** X15: with a generator that is not configured, [process_user_input]
    calls neither the provider nor the database: it shows the question
    and the advice to set the key, and stores both. *)
Theorem process_user_input_unconfigured (input : string) (app : t) :
  SQLGenerator.is_configured (sql_generator app) = false ->
  process_user_input aenv input app
  = (Returned tt,
     with_messages app
       [asked aenv input app; replied aenv app 1 not_configured_msg],
     [Shown (StChatMessage "user"); Shown (StMarkdown input);
      Shown (StChatMessage "assistant");
      Component (EvUi Page UiError not_configured_msg)]).
Proof.
  intros Hc.
  destruct (process_user_input_paths input app) as (replies & tr & Hrun & Hp).
  destruct Hp as [(_ & -> & ->)|(Hc' & _)]; [exact Hrun | congruence].
Qed.

(** X16: a statement reaches [pd.read_sql_query] only if it is the text
    [generate_sql] returned for this question, it passed [_validate_sql]
    and holds no code fence, the client is configured and the button that
    runs it answered as pressed. *)
Theorem process_user_input_runs_checked_sql (input : string) (app : t)
  (res : outcome unit) (final : t) (tr : list app_event) (s : string)
  (c : nat) :
  process_user_input aenv input app = (res, final, tr) ->
  In (Component (EvReadSql s c)) tr ->
  result_of
    (SQLGenerator.generate_sql (components aenv) input (sql_generator app))
  = Returned s /\
  SQLGenerator._validate_sql s = true /\ contains fence s = false /\
  DatabaseClient.is_configured (db_client app) = true /\
  st_button aenv run_label (run_key app) = true.
Proof.
  intros Hrun Hin.
  destruct (process_user_input_paths input app) as (replies & tr' & Hrun' & Hp).
  rewrite Hrun in Hrun'. injection Hrun' as _ _ <-.
  assert (forall l : list event,
            forallb is_provider_request l = true ->
            ~ In (Component (EvReadSql s c)) (map Component l)) as Hno.
  { intros l Hl H. apply in_component_map in H.
    now pose proof (provider_requests_only _ _ Hl H). }
  assert (~ In (Component (EvReadSql s c)) (shown_question input)) as Hq.
  { cbn. intros [H|[H|[H|[H|[]]]]]; discriminate. }
  assert (forall r, ~ In (Component (EvReadSql s c)) (shown_sql r)) as Hs.
  { intros r. cbn. intros [H|[H|[]]]; discriminate. }
  destruct Hp as [(_ & _ & ->)|(_ & r & gtr & Hg & Hgtr & Hp)].
  - cbn in Hin. destruct Hin as [H|[H|[H|[H|[]]]]]; discriminate.
  - destruct Hp as [(_ & _ & ->)|(Hv & Hf & Hp)].
    + rewrite !in_app_iff in Hin. destruct Hin as [H|[H|H]].
      * now destruct Hq.
      * now destruct (Hno gtr Hgtr).
      * cbn in H. destruct H as [H|[]]. discriminate.
    + destruct Hp
        as [(_ & _ & ->)|[(_ & _ & _ & ->)|(Hd & Hb & rs & etr & He & Hetr & _ & ->)]].
      * rewrite !in_app_iff in Hin. destruct Hin as [H|[H|H]].
        -- now destruct Hq.
        -- now destruct (Hno gtr Hgtr).
        -- now destruct (Hs r).
      * rewrite !in_app_iff in Hin. destruct Hin as [H|[H|[H|H]]].
        -- now destruct Hq.
        -- now destruct (Hno gtr Hgtr).
        -- now destruct (Hs r).
        -- cbn in H. destruct H as [H|[]]. discriminate.
      * rewrite !in_app_iff in Hin. destruct Hin as [H|[H|[H|[H|[H|H]]]]].
        -- now destruct Hq.
        -- now destruct (Hno gtr Hgtr).
        -- now destruct (Hs r).
        -- cbn in H. destruct H as [H|[H|[]]]; discriminate.
        -- apply in_component_map in H. apply Hetr in H. subst s.
           rewrite Hg. now repeat split.
        -- destruct rs; cbn in H; [destruct H as [H|[H|[]]]; discriminate|].
           contradiction.
Qed.

End Asking.

Section Answering.
Import PubsSQLChatApp.

Variable aenv : AppEnv.

(** X17: when the generator is configured and the generation fails, the
    reply stored in the transcript is the returned error text with the
    error prefix put before it once more; the error is shown and no
    connection to the database is made. *)
Theorem process_user_input_failed_generation (input : string) (app : t) :
  SQLGenerator.is_configured (sql_generator app) = true ->
  generate_fails (components aenv) input (sql_generator app) ->
  exists r tr,
    result_of
      (SQLGenerator.generate_sql (components aenv) input (sql_generator app))
    = Returned r /\
    startswith r "Error:" = true /\
    process_user_input aenv input app
    = (Returned tt,
       with_messages app
         [asked aenv input app; replied aenv app 1 ("Error: " ++ r)], tr) /\
    startswith ("Error: " ++ r) "Error: Error:" = true /\
    In (Component (EvUi Page UiError ("❌ Error generando SQL: " ++ r))) tr /\
    forall e, In (Component e) tr -> is_connect e = false.
Proof.
  intros Hc Hfail.
  destruct (process_user_input_paths aenv input app)
    as (replies & tr & Hrun & Hp).
  destruct Hp as [(Hc' & _)|(_ & r & gtr & Hg & Hgtr & Hp)]; [congruence|].
  destruct (generate_sql_cases (components aenv) input (sql_generator app))
    as (r' & Hr' & Hcase).
  rewrite Hg in Hr'. cbn in Hr'. injection Hr' as <-.
  destruct Hp as [(Hp & -> & ->)|(Hv & _)].
  - exists r. eexists. split; [now rewrite Hg|]. split; [exact Hp|].
    split; [exact Hrun|]. split.
    + apply startswith_iff in Hp as [u ->]. reflexivity.
    + split.
      * rewrite !in_app_iff. right. right. now left.
      * intros e. rewrite !in_app_iff. intros [H|[H|H]].
        -- cbn in H. destruct H as [H|[H|[H|[H|[]]]]]; discriminate.
        -- apply in_component_map in H.
           pose proof (provider_requests_only _ _ Hgtr H) as Hq.
           now destruct e.
        -- cbn in H. destruct H as [H|[]]. now injection H as <-.
  - destruct Hcase as [[_ Hp]|[Hn _]]; [|contradiction].
    apply validate_sql_not_error in Hv as [_ Hv]. congruence.
Qed.

(** X18: a second reply is stored exactly when the statement was run and
    a table came back, and it is the summary of that table; when running
    the statement fails nothing about it is added to the transcript. *)
Theorem process_user_input_results (input : string) (app : t) :
  exists replies tr,
    process_user_input aenv input app
    = (Returned tt, with_messages app (asked aenv input app :: replies), tr) /\
    (forall m,
       nth_error replies 1 = Some m <->
       exists r df,
         SQLGenerator.is_configured (sql_generator app) = true /\
         result_of
           (SQLGenerator.generate_sql (components aenv) input
              (sql_generator app)) = Returned r /\
         caller_takes_as_sql r = true /\
         DatabaseClient.is_configured (db_client app) = true /\
         st_button aenv run_label (run_key app) = true /\
         result_of
           (DatabaseClient.execute_query (components aenv) r (db_client app))
         = Returned (Some df) /\
         m = replied aenv app 2 (results_message aenv df)).
Proof.
  destruct (process_user_input_paths aenv input app)
    as (replies & tr & Hrun & Hp).
  exists replies, tr. split; [exact Hrun|]. intros m.
  destruct Hp as [(Hc & -> & _)|(Hc & r & gtr & Hg & Hgtr & Hp)].
  - split; [discriminate|]. intros (r & df & Hc' & _). congruence.
  - assert (forall r',
              result_of
                (SQLGenerator.generate_sql (components aenv) input
                   (sql_generator app)) = Returned r' -> r' = r) as Hsame.
    { intros r' H. rewrite Hg in H. cbn in H. now injection H. }
    destruct Hp as [(Hp & -> & _)|(Hv & Hf & Hp)].
    + split; [discriminate|].
      intros (r' & df & _ & Hr' & Ht & _). apply Hsame in Hr'. subst r'.
      unfold caller_takes_as_sql in Ht. rewrite Hp, andb_false_r in Ht.
      discriminate.
    + destruct Hp
        as [(-> & Hd & _)|[(-> & _ & Hb & _)|(Hd & Hb & rs & etr & He & _ & -> & _)]].
      * split; [discriminate|]. intros (r' & df & _ & _ & _ & Hd' & _).
        congruence.
      * split; [discriminate|]. intros (r' & df & _ & _ & _ & _ & Hb' & _).
        congruence.
      * destruct rs as [df|]; cbn [results_reply nth_error].
        -- split.
           ++ intros H. injection H as <-. exists r, df.
              apply validate_sql_not_error in Hv as [Hne Hp].
              repeat split; try assumption.
              ** now rewrite Hg.
              ** unfold caller_takes_as_sql.
                 now rewrite Hp, (is_empty_false _ Hne).
              ** now rewrite He.
           ++ intros (r' & df' & _ & Hr' & _ & _ & _ & He' & ->).
              apply Hsame in Hr'. subst r'. rewrite He in He'. cbn in He'.
              now injection He' as <-.
        -- split; [discriminate|].
           intros (r' & df' & _ & Hr' & _ & _ & _ & He' & _).
           apply Hsame in Hr'. subst r'. rewrite He in He'. discriminate.
Qed.

(** X19: after a generation that succeeded, showing the transcript again
    shows what it showed before, then the question, then the line that
    announces the statement with the statement itself in a code block. *)
Theorem process_user_input_then_display (input : string) (app : t)
  (r : string) :
  result_of
    (SQLGenerator.generate_sql (components aenv) input (sql_generator app))
  = Returned r ->
  caller_takes_as_sql r = true ->
  exists final tr rest,
    process_user_input aenv input app = (Returned tt, final, tr) /\
    ChatInterface.display_messages (chat_interface final)
    = (ChatInterface.display_messages (chat_interface app)
         ++ ChatInterface.display_message (asked aenv input app)
         ++ [StChatMessage "assistant";
             StMarkdown ("Consulta SQL generada:" ++ nl);
             StCode (nl ++ r ++ nl) "sql"]
         ++ rest)%list.
Proof.
  intros Hr Ht.
  destruct (process_user_input_paths aenv input app)
    as (replies & tr & Hrun & Hp).
  destruct Hp as [(Hc' & _)|(_ & r' & gtr & Hg & Hgtr & Hp)].
  { rewrite generate_sql_run, Hc' in Hr. cbn in Hr. injection Hr as <-.
    discriminate. }
  rewrite Hg in Hr. cbn in Hr. injection Hr as ->.
  destruct Hp as [(Hp & _)|(Hv & Hf & Hp)].
  - unfold caller_takes_as_sql in Ht. rewrite Hp, andb_false_r in Ht.
    discriminate.
  - assert (exists more,
              replies = replied aenv app 1 (generated_message r) :: more)
      as [more ->].
    { destruct Hp as [(-> & _)|[(-> & _)|(_ & _ & rs & etr & _ & _ & -> & _)]];
        eexists; reflexivity. }
    eexists _, tr, (flat_map ChatInterface.display_message more).
    split; [exact Hrun|].
    unfold ChatInterface.display_messages, with_messages.
    cbn [chat_interface ChatInterface.messages].
    rewrite flat_map_app. cbn [flat_map]. f_equal. f_equal.
    unfold replied. now rewrite (display_of_generated _ _ _ Hf).
Qed.

End Answering.

(** ** Building the components *)

Section Building.

Variable env : Env.
Variable getenv : string -> option string.

Lemma get_compatible_model_trace (self : SQLGenerator.t) :
  exists tr,
    SQLGenerator._get_compatible_model env self
    = (Returned (detected_model env), self, tr) /\
    count_calls is_configure tr = 0 /\ count_calls is_connect tr = 0.
Proof.
  unfold SQLGenerator._get_compatible_model, detected_model,
    SQLGenerator.select_model_name, SQLGenerator.new_model,
    try_except, bind, call, ui, ret.
  destruct (genai_list_models env) as [available|e];
    [|eexists; repeat split].
  destruct (SQLGenerator.scan_preferred SQLGenerator.preferred_models available)
    as [name|].
  - destruct (genai_GenerativeModel env name) as [[]|e];
      eexists; repeat split.
  - destruct available as [|first rest]; [eexists; repeat split|].
    destruct (genai_GenerativeModel env first) as [[]|e];
      eexists; repeat split.
Qed.

Lemma set_api_key_trace (key : string) (self : SQLGenerator.t) :
  exists b st tr,
    SQLGenerator.set_api_key env key self = (Returned b, st, tr) /\
    SQLGenerator.api_key st = Some key /\
    count_calls is_configure tr = 1 /\ count_calls is_connect tr = 0 /\
    hd_error tr = Some (EvConfigure key).
Proof.
  unfold SQLGenerator.set_api_key, try_except, bind, get, put, call, ui, ret.
  destruct (genai_configure env key) as [[]|e];
    [|eexists _, _, _; repeat split].
  destruct (get_compatible_model_trace
              {| SQLGenerator.model := SQLGenerator.model self;
                 SQLGenerator.api_key := Some key |})
    as (tr & -> & Hc & Hd).
  unfold count_calls in *.
  destruct (detected_model env); eexists _, _, _;
    (split; [reflexivity|]); cbn [fst snd SQLGenerator.api_key];
    (split; [reflexivity|]);
    cbn [List.app filter is_configure is_connect List.length hd_error];
    rewrite !filter_app, !length_app, Hc, Hd; repeat split.
Qed.

Lemma load_api_key_run (self : SQLGenerator.t) :
  SQLGenerator._load_api_key_from_env env getenv self =
  match first_key getenv with
  | Some key => (SQLGenerator.set_api_key env key ;;; ret tt) self
  | None => (Returned tt, self, [])
  end.
Proof.
  unfold SQLGenerator._load_api_key_from_env, first_key, set_value, falsy.
  destruct (getenv "GOOGLE_API_KEY") as [[|c1 k1]|]; cbn [is_empty];
    try reflexivity;
    (destruct (getenv "GEMINI_API_KEY") as [[|c2 k2]|]; cbn [is_empty];
     try reflexivity;
     (destruct (getenv "GOOGLE_AI_KEY") as [[|c3 k3]|]; cbn [is_empty];
      reflexivity)).
Qed.

(** X20: [SQLGenerator()] takes its key from the first of GOOGLE_API_KEY,
    GEMINI_API_KEY and GOOGLE_AI_KEY that is set to a non-empty value and
    configures the provider with it once; with none of them it makes no
    call and the generator is not configured.  Nothing of the fields the
    object had before survives. *)
Theorem generator_init_key (self : SQLGenerator.t) :
  (first_key getenv = None ->
   SQLGenerator.__init__ env getenv self
   = (Returned tt, fresh_generator, [])) /\
  (forall key,
     first_key getenv = Some key ->
     exists tr,
       SQLGenerator.__init__ env getenv self
       = (Returned tt,
          state_of (SQLGenerator.set_api_key env key fresh_generator), tr) /\
       hd_error tr = Some (EvConfigure key) /\
       count_calls is_configure tr = 1).
Proof.
  assert (SQLGenerator.__init__ env getenv self
          = match first_key getenv with
            | Some key =>
                (SQLGenerator.set_api_key env key ;;; ret tt) fresh_generator
            | None => (Returned tt, fresh_generator, [])
            end) as Hinit.
  { unfold SQLGenerator.__init__. unfold bind at 1. unfold put.
    rewrite load_api_key_run. fold fresh_generator.
    now destruct (first_key getenv) as [key|];
      [destruct ((SQLGenerator.set_api_key env key ;;; ret tt) fresh_generator)
         as [[r st] tr]|]. }
  rewrite Hinit. split.
  - intros ->. reflexivity.
  - intros key ->.
    destruct (set_api_key_trace key fresh_generator)
      as (b & st & tr & Hrun & _ & Hc & _ & Hh).
    exists tr. unfold bind, ret. rewrite Hrun.
    cbn [state_of fst snd List.app]. rewrite !app_nil_r.
    repeat split; assumption.
Qed.

End Building.

Section Starting.
Import PubsSQLChatApp.

Variable aenv : AppEnv.
Variable getenv : string -> option string.

Lemma count_component_app (kind : event -> bool) (a b : list app_event) :
  count_component_calls kind (a ++ b)
  = count_component_calls kind a + count_component_calls kind b.
Proof. unfold count_component_calls. now rewrite filter_app, length_app. Qed.

Lemma count_component_map (kind : event -> bool) (tr : list event) :
  count_component_calls kind (map Component tr) = count_calls kind tr.
Proof.
  unfold count_component_calls, count_calls.
  induction tr as [|e tr IH]; [reflexivity|].
  cbn [map filter]. destruct (kind e); cbn [List.length]; now rewrite IH.
Qed.

Lemma makes_calls_bind {A B : Type} (m : AppPy A) (k : A -> AppPy B)
  (a b c d : nat) :
  makes_calls m a b -> (forall x, makes_calls (k x) c d) ->
  makes_calls (abind m k) (a + c) (b + d).
Proof.
  intros Hm Hk app. destruct (Hm app) as (x & app1 & t1 & H1 & Hc1 & Ha & Hb).
  destruct (Hk x app1) as (y & app2 & t2 & H2 & Hc2 & Hc & Hd).
  exists y, app2, (t1 ++ t2)%list. unfold abind. rewrite H1, H2.
  split; [reflexivity|]. split; [congruence|].
  rewrite !count_component_app. lia.
Qed.

Lemma makes_calls_aret {A : Type} (x : A) : makes_calls (aret x) 0 0.
Proof. intros app. now exists x, app, []. Qed.

Lemma makes_calls_on_generator {A : Type} (m : Py SQLGenerator.t A)
  (nc nk : nat) :
  (forall self, exists x st tr,
      m self = (Returned x, st, tr) /\
      count_calls is_configure tr = nc /\ count_calls is_connect tr = nk) ->
  makes_calls (on_generator m) nc nk.
Proof.
  intros H app. destruct (H (sql_generator app)) as (x & st & tr & Hm & Hc & Hk).
  unfold on_generator. rewrite Hm. eexists _, _, _.
  split; [reflexivity|]. split; [reflexivity|].
  now rewrite !count_component_map.
Qed.

Lemma makes_calls_on_client {A : Type} (m : Py DatabaseClient.t A)
  (nc nk : nat) :
  (forall self, exists x st tr,
      m self = (Returned x, st, tr) /\
      count_calls is_configure tr = nc /\ count_calls is_connect tr = nk) ->
  makes_calls (on_client m) nc nk.
Proof.
  intros H app. destruct (H (db_client app)) as (x & st & tr & Hm & Hc & Hk).
  unfold on_client. rewrite Hm. eexists _, _, _.
  split; [reflexivity|]. split; [reflexivity|].
  now rewrite !count_component_map.
Qed.

Lemma set_api_key_calls (key : string) (self : SQLGenerator.t) :
  exists x st tr,
    SQLGenerator.set_api_key (components aenv) key self = (Returned x, st, tr) /\
    count_calls is_configure tr = 1 /\ count_calls is_connect tr = 0.
Proof.
  destruct (set_api_key_trace (components aenv) key self)
    as (b & st & tr & H & _ & Hc & Hk & _).
  now exists b, st, tr.
Qed.

Lemma set_connection_string_calls (cs : string) (self : DatabaseClient.t) :
  is_empty cs = false ->
  exists x st tr,
    DatabaseClient.set_connection_string (components aenv) cs self
    = (Returned x, st, tr) /\
    count_calls is_configure tr = 0 /\ count_calls is_connect tr = 1.
Proof.
  intros He. rewrite set_connection_string_run, He. cbn zeta.
  destruct (pyodbc_connect (components aenv) cs) as [conn|e];
    [|eexists _, _, _; repeat split].
  destruct (conn_close (components aenv) conn) as [[]|e];
    eexists _, _, _; repeat split.
Qed.

Lemma generator_init_calls (self : SQLGenerator.t) :
  exists x st tr,
    SQLGenerator.__init__ (components aenv) getenv self = (Returned x, st, tr) /\
    count_calls is_configure tr
    = match first_key getenv with Some _ => 1 | None => 0 end /\
    count_calls is_connect tr = 0.
Proof.
  unfold SQLGenerator.__init__. unfold bind at 1. unfold put.
  rewrite load_api_key_run.
  destruct (first_key getenv) as [key|]; [|eexists _, _, _; repeat split].
  destruct (set_api_key_calls key
              {| SQLGenerator.model := None; SQLGenerator.api_key := None |})
    as (b & st & tr & H & Hc & Hk).
  unfold bind, ret. rewrite H. eexists _, _, _. split; [reflexivity|].
  cbn [List.app]. now rewrite !app_nil_r.
Qed.

Lemma client_init_calls (self : DatabaseClient.t) :
  exists x st tr,
    DatabaseClient.__init__ (components aenv) getenv self = (Returned x, st, tr) /\
    count_calls is_configure tr = 0 /\
    count_calls is_connect tr
    = match set_value (getenv "DB_CONNECTION_STRING") with
      | Some _ => 1
      | None => 0
      end.
Proof.
  unfold DatabaseClient.__init__, DatabaseClient._load_connection_from_env.
  unfold bind at 1. unfold put. unfold set_value, falsy.
  destruct (getenv "DB_CONNECTION_STRING") as [cs|];
    [|eexists _, _, _; repeat split].
  destruct (is_empty cs) eqn:He; [eexists _, _, _; repeat split|].
  destruct (set_connection_string_calls cs
              {| DatabaseClient.connection_string := None |} He)
    as (x & st & tr & H & Hc & Hk).
  rewrite H. eexists _, _, _. split; [reflexivity|]. cbn [List.app].
  now split.
Qed.

Lemma initialize_components_calls :
  makes_calls (_initialize_components aenv getenv)
    (match set_value (getenv "GOOGLE_API_KEY") with Some _ => 1 | None => 0 end)
    (match set_value (getenv "DB_CONNECTION_STRING") with
     | Some _ => 1
     | None => 0
     end).
Proof.
  unfold _initialize_components.
  replace (match set_value (getenv "DB_CONNECTION_STRING") with
           | Some _ => 1
           | None => 0
           end)
    with (0 + match set_value (getenv "DB_CONNECTION_STRING") with
              | Some _ => 1
              | None => 0
              end) by reflexivity.
  rewrite <- (Nat.add_0_r
                (match set_value (getenv "GOOGLE_API_KEY") with
                 | Some _ => 1
                 | None => 0
                 end)).
  apply makes_calls_bind.
  - unfold set_value, falsy.
    destruct (getenv "GOOGLE_API_KEY") as [key|]; [|apply makes_calls_aret].
    destruct (is_empty key); [apply makes_calls_aret|].
    change 1 with (1 + 0) at 1. change 0 with (0 + 0) at 3.
    apply makes_calls_bind; [|intros; apply makes_calls_aret].
    apply makes_calls_on_generator. intros self. apply set_api_key_calls.
  - intros _. unfold set_value, falsy.
    destruct (getenv "DB_CONNECTION_STRING") as [cs|]; [|apply makes_calls_aret].
    destruct (is_empty cs) eqn:He; [apply makes_calls_aret|].
    apply makes_calls_on_client. intros self.
    now apply set_connection_string_calls.
Qed.

(** X21: building the application leaves the transcript the session
    holds, or an empty one when it holds none, and never raises.  When
    GOOGLE_API_KEY is set, the provider is configured twice, once by the
    generator and once by the application; when only one of the two other
    variables carries the key, once.  A connection string that is set is
    probed twice. *)
Theorem app_init_calls
  (stored : option (list ChatInterface.ChatMessage)) (app : t) :
  exists final tr,
    __init__ aenv getenv stored app = (Returned tt, final, tr) /\
    ChatInterface.messages (chat_interface final)
    = ChatInterface.initialize_session_state stored /\
    count_component_calls is_configure tr
    = match set_value (getenv "GOOGLE_API_KEY") with
      | Some _ => 2
      | None => match first_key getenv with Some _ => 1 | None => 0 end
      end /\
    count_component_calls is_connect tr
    = match set_value (getenv "DB_CONNECTION_STRING") with
      | Some _ => 2
      | None => 0
      end.
Proof.
  assert (makes_calls
            (on_generator (SQLGenerator.__init__ (components aenv) getenv) ~;;
             on_client (DatabaseClient.__init__ (components aenv) getenv) ~;;
             _initialize_components aenv getenv)
            (match first_key getenv with Some _ => 1 | None => 0 end
             + (0 + match set_value (getenv "GOOGLE_API_KEY") with
                    | Some _ => 1
                    | None => 0
                    end))
            (0 + (match set_value (getenv "DB_CONNECTION_STRING") with
                  | Some _ => 1
                  | None => 0
                  end
                  + match set_value (getenv "DB_CONNECTION_STRING") with
                    | Some _ => 1
                    | None => 0
                    end))) as Hrest.
  { apply makes_calls_bind.
    - apply makes_calls_on_generator. intros self.
      apply generator_init_calls.
    - intros _. apply makes_calls_bind.
      + apply makes_calls_on_client. intros self. apply client_init_calls.
      + intros _. apply initialize_components_calls. }
  unfold __init__. unfold abind at 1. unfold on_chat at 1.
  unfold bind, get, put. cbn [fst snd map List.app].
  match goal with
  | |- context [abind ?m ?k ?a] =>
      destruct (Hrest a) as ([] & final & tr & Hrun & Hchat & Hc & Hk)
  end.
  rewrite Hrun. exists final, tr. split; [reflexivity|].
  split; [now rewrite Hchat|]. split.
  - rewrite Hc. unfold first_key.
    destruct (set_value (getenv "GOOGLE_API_KEY")); [reflexivity|].
    cbn. lia.
  - rewrite Hk. destruct (set_value (getenv "DB_CONNECTION_STRING")); reflexivity.
Qed.

End Starting.

(** ** The counters and the client at start *)

Section Counting.
Import ChatInterface.

Variable st_button : string -> string -> bool.

Lemma example_buttons_quiet (l : list string) (q : option string) :
  (forall label key, st_button label key = false) ->
  snd (example_buttons st_button l q) = q.
Proof.
  intros Hq. revert q; induction l as [|x l IH]; intros q; [reflexivity|].
  cbn [example_buttons]. rewrite Hq. specialize (IH q).
  now destruct (example_buttons st_button l q).
Qed.

(** X22: [display_chat_stats] shows a count of questions that never
    exceeds the count of messages; it offers the example buttons exactly
    when the transcript is empty, and the example kept for the session
    changes only if a button answers as pressed. *)
Theorem display_chat_stats_examples (q : option string) (self : t) :
  user_messages self <= total_messages self /\
  existsb is_button (fst (display_chat_stats st_button q self))
  = (total_messages self =? 0)%nat /\
  ((forall label key, st_button label key = false) ->
   snd (display_chat_stats st_button q self) = q).
Proof.
  split; [|split].
  - unfold user_messages, total_messages. apply filter_length_le.
  - unfold display_chat_stats.
    destruct (total_messages self =? 0)%nat; [|reflexivity].
    unfold examples. cbn [example_buttons].
    repeat match goal with
           | |- context [if st_button ?l ?k then _ else _] =>
               destruct (st_button l k)
           end; reflexivity.
  - intros Hq. unfold display_chat_stats.
    destruct (total_messages self =? 0)%nat; [|reflexivity].
    pose proof (example_buttons_quiet examples q Hq) as H.
    now destruct (example_buttons st_button examples q).
Qed.

End Counting.

Section ClientStart.

Variable env : Env.
Variable getenv : string -> option string.

(** X23: [DatabaseClient()] with DB_CONNECTION_STRING unset or empty makes
    no call and gives a client that is not configured; with the variable
    set it gives a client that holds the string, probed or not reachable,
    after one connection attempt. *)
Theorem client_init_string (self : DatabaseClient.t) :
  (set_value (getenv "DB_CONNECTION_STRING") = None ->
   DatabaseClient.__init__ env getenv self
   = (Returned tt, unset_client, [])) /\
  (forall cs,
     set_value (getenv "DB_CONNECTION_STRING") = Some cs ->
     exists tr,
       DatabaseClient.__init__ env getenv self
       = (Returned tt, {| DatabaseClient.connection_string := Some cs |}, tr) /\
       hd_error tr = Some (EvConnect cs) /\
       count_calls is_connect tr = 1 /\
       DatabaseClient.is_configured
         {| DatabaseClient.connection_string := Some cs |} = true).
Proof.
  unfold DatabaseClient.__init__, DatabaseClient._load_connection_from_env.
  unfold bind at 1. unfold put. unfold set_value, falsy.
  fold unset_client. split.
  - destruct (getenv "DB_CONNECTION_STRING") as [cs|]; [|reflexivity].
    destruct (is_empty cs); [reflexivity | discriminate].
  - intros cs H.
    destruct (getenv "DB_CONNECTION_STRING") as [cs'|]; [|discriminate].
    destruct (is_empty cs') eqn:He; [discriminate|]. injection H as ->.
    pose proof (set_connection_string_run env cs unset_client) as Hrun.
    rewrite He in Hrun. cbn zeta in Hrun.
    unfold DatabaseClient.is_configured. cbn [DatabaseClient.connection_string].
    rewrite He.
    destruct (pyodbc_connect env cs) as [conn|e];
      [destruct (conn_close env conn) as [[]|e]|];
      eexists; (split; [unfold bind; rewrite Hrun; reflexivity|]);
      repeat split.
Qed.

End ClientStart.

(** ** The further properties at sample inputs *)

(** X12 at a statement in the message of the assistant. *)
Lemma display_generated_message_sample :
  ChatInterface.display_message
    {| ChatInterface.role := "assistant";
       ChatInterface.content :=
         PubsSQLChatApp.generated_message "SELECT au_lname FROM authors";
       ChatInterface.timestamp := "2025-01-01T00:00:01" |}
  = [StChatMessage "assistant"; StMarkdown ("Consulta SQL generada:" ++ nl);
     StCode (nl ++ "SELECT au_lname FROM authors" ++ nl) "sql"].
Proof.
  apply (display_generated_message "assistant" "SELECT au_lname FROM authors"
           "2025-01-01T00:00:01").
  reflexivity.
Defined.

(** X15 at an application whose generator has no key. *)
Lemma process_user_input_unconfigured_fresh :
  PubsSQLChatApp.process_user_input aenv_idle "Autores de California" app_fresh
  = (Returned tt,
     with_messages app_fresh
       [asked aenv_idle "Autores de California" app_fresh;
        replied aenv_idle app_fresh 1 PubsSQLChatApp.not_configured_msg],
     [PubsSQLChatApp.Shown (StChatMessage "user");
      PubsSQLChatApp.Shown (StMarkdown "Autores de California");
      PubsSQLChatApp.Shown (StChatMessage "assistant");
      PubsSQLChatApp.Component
        (EvUi Page UiError PubsSQLChatApp.not_configured_msg)]).
Proof.
  apply (process_user_input_unconfigured aenv_idle "Autores de California"
           app_fresh).
  reflexivity.
Defined.

(** X16 at a configured application whose button is pressed. *)
Lemma process_user_input_runs_checked_sql_pressed :
  result_of
    (SQLGenerator.generate_sql env_ok "Autores de California" ready_generator)
  = Returned "SELECT au_lname FROM authors" /\
  SQLGenerator._validate_sql "SELECT au_lname FROM authors" = true /\
  contains fence "SELECT au_lname FROM authors" = false /\
  DatabaseClient.is_configured ready_client = true /\
  PubsSQLChatApp.st_button aenv_pressed run_label (run_key app_ready) = true.
Proof.
  pose (run := PubsSQLChatApp.process_user_input aenv_pressed
                 "Autores de California" app_ready).
  apply (process_user_input_runs_checked_sql aenv_pressed
           "Autores de California" app_ready
           (fst (fst run)) (snd (fst run)) (snd run)
           "SELECT au_lname FROM authors" 7).
  - now rewrite <- !surjective_pairing.
  - vm_compute. do 10 right. left. reflexivity.
Defined.

(** X17 at a configured application whose provider raises. *)
Lemma process_user_input_failed_generation_quota :
  exists r tr,
    result_of
      (SQLGenerator.generate_sql env_provider_fails "Autores de California"
         ready_generator) = Returned r /\
    startswith r "Error:" = true /\
    PubsSQLChatApp.process_user_input aenv_provider_fails
      "Autores de California" app_ready
    = (Returned tt,
       with_messages app_ready
         [asked aenv_provider_fails "Autores de California" app_ready;
          replied aenv_provider_fails app_ready 1 ("Error: " ++ r)], tr) /\
    startswith ("Error: " ++ r) "Error: Error:" = true /\
    In (PubsSQLChatApp.Component
          (EvUi Page UiError ("❌ Error generando SQL: " ++ r))) tr /\
    forall e, In (PubsSQLChatApp.Component e) tr -> is_connect e = false.
Proof.
  apply (process_user_input_failed_generation aenv_provider_fails
           "Autores de California" app_ready).
  - reflexivity.
  - right. left. split; [reflexivity|].
    exists "models/gemini-1.5-flash", "429 quota exceeded".
    split; reflexivity.
Defined.

(** X19 at a configured application whose button is not pressed. *)
Lemma process_user_input_then_display_idle :
  exists final tr rest,
    PubsSQLChatApp.process_user_input aenv_idle "Autores de California"
      app_ready = (Returned tt, final, tr) /\
    ChatInterface.display_messages (PubsSQLChatApp.chat_interface final)
    = (ChatInterface.display_messages (PubsSQLChatApp.chat_interface app_ready)
         ++ ChatInterface.display_message
              (asked aenv_idle "Autores de California" app_ready)
         ++ [StChatMessage "assistant";
             StMarkdown ("Consulta SQL generada:" ++ nl);
             StCode (nl ++ "SELECT au_lname FROM authors" ++ nl) "sql"]
         ++ rest)%list.
Proof.
  apply (process_user_input_then_display aenv_idle "Autores de California"
           app_ready "SELECT au_lname FROM authors").
  - reflexivity.
  - reflexivity.
Defined.

Example process_user_input_pressed :
  exists final tr,
    PubsSQLChatApp.process_user_input aenv_pressed "Autores de California"
      app_ready = (Returned tt, final, tr) /\
    map role_content
      (ChatInterface.messages (PubsSQLChatApp.chat_interface final))
    = [("user", "Autores de California");
       ("assistant",
        PubsSQLChatApp.generated_message "SELECT au_lname FROM authors");
       ("assistant",
        "Resultados (1 filas, 2 columnas):" ++ nl ++ "  au_lname state")] /\
    count_component_calls is_read_sql tr = 1.
Proof. eexists _, _. split; [reflexivity|]. split; reflexivity. Qed.

Example display_message_drops_tail :
  ChatInterface.display_message
    {| ChatInterface.role := "assistant";
       ChatInterface.content := "Mira: ```sql SELECT 1 ``` y nada más";
       ChatInterface.timestamp := "" |}
  = [StChatMessage "assistant"; StMarkdown "Mira: "; StCode " SELECT 1 " "sql"].
Proof. reflexivity. Qed.

Example split_commas :
  split "a,b,,c" "," = ["a"; "b"; ""; "c"] /\ split "abc" "," = ["abc"] /\
  split "x--y--" "--" = ["x"; "y"; ""].
Proof. repeat split. Qed.
